(** * EnergyComparer: the tariff normalizer, plan filter, solar feed-in parser,
      cost calculator and distributor selection of [scraper_enhanced.py]

    The program consumes JSON delivered by the Energy Made Easy API.  Its
    functions are embedded over a universe of Python values ([pyval]) with
    Python's own failure modes: a lookup of a missing key, an index into an
    empty list or a method called on a value of the wrong type raises, and the
    exception aborts the enclosing function.  Exceptions are threaded through
    the [result] monad. *)

From Stdlib Require Import ZArith List String Ascii Bool Lia Permutation Sorted.
From Stdlib Require Import QArith Qminmax DecimalPos.
Import ListNotations.
Local Open Scope string_scope.
Local Open Scope list_scope.
Local Open Scope Z_scope.

Notation "a ^^ b" := (String.append a b) (at level 60, right associativity).

(* ===================================================================== *)
(** ** Python numbers *)
(* ===================================================================== *)

(** A decimal digit. *)
Inductive digit := Dg0 | Dg1 | Dg2 | Dg3 | Dg4 | Dg5 | Dg6 | Dg7 | Dg8 | Dg9.

(** A finite Python [float], represented by what [repr] prints for it: its
    sign, its significant decimal digits (the shortest digit string that reads
    back as the same float, no leading and no trailing zero) and the position
    [fpt] of the decimal point, counted from the first digit: the value is
    [0.d1 d2 ... dk * 10 ^ fpt].  Zero has no digit.  [1.1] is digits [1;1]
    with [fpt = 1]; [0.004] is digit [4] with [fpt = -2].  Two floats are
    the same float exactly when the three components agree, so equality,
    order and printing are exact in this representation.  Not-a-number and
    the infinities are no JSON numbers and are left out. *)
Record pyfloat := PyFloat { fneg : bool; fdigits : list digit; fpt : Z }.

(** A JSON number is read by [json.loads] as an [int] or a [float]. *)
Inductive pynum := PInt (z : Z) | PFloat (f : pyfloat).

(** The Python values of the program: what [json.loads] returns, and what the
    extractors put into a row.  A dict is an association list in insertion
    order with one binding per key; the first binding of a key is the one
    a lookup finds. *)
#[warnings="-register-all"]
Inductive pyval :=
| VNone
| VBool (b : bool)
| VNum (n : pynum)
| VStr (s : string)
| VList (items : list pyval)
| VDict (fields : list (string * pyval)).

(** The exceptions the embedded code can raise. *)
Inductive exn := KeyError | IndexError | TypeError | AttributeError | ValueError.

Inductive result (A : Type) := Ok (a : A) | Raise (e : exn).
Arguments Ok {A} a.
Arguments Raise {A} e.

Definition bind {A B} (r : result A) (k : A -> result B) : result B :=
  match r with
  | Ok a => k a
  | Raise e => Raise e
  end.

Notation "x <- c ;; k" := (bind c (fun x => k))
  (at level 61, c at next level, right associativity).

(** [KeyError] and [IndexError] are Python's [LookupError]s. *)
Definition is_lookup_error (e : exn) : bool :=
  match e with
  | KeyError | IndexError => true
  | _ => false
  end.

(* --------------------------------------------------------------------- *)
(** *** Digits and characters *)

Definition digit_val (d : digit) : Z :=
  match d with
  | Dg0 => 0 | Dg1 => 1 | Dg2 => 2 | Dg3 => 3 | Dg4 => 4
  | Dg5 => 5 | Dg6 => 6 | Dg7 => 7 | Dg8 => 8 | Dg9 => 9
  end.

Definition digit_is_zero (d : digit) : bool :=
  match d with Dg0 => true | _ => false end.

Definition digit_char (d : digit) : ascii :=
  match d with
  | Dg0 => "0" | Dg1 => "1" | Dg2 => "2" | Dg3 => "3" | Dg4 => "4"
  | Dg5 => "5" | Dg6 => "6" | Dg7 => "7" | Dg8 => "8" | Dg9 => "9"
  end%char.

Definition char_digit (c : ascii) : option digit :=
  match nat_of_ascii c with
  | 48%nat => Some Dg0 | 49%nat => Some Dg1 | 50%nat => Some Dg2
  | 51%nat => Some Dg3 | 52%nat => Some Dg4 | 53%nat => Some Dg5
  | 54%nat => Some Dg6 | 55%nat => Some Dg7 | 56%nat => Some Dg8
  | 57%nat => Some Dg9
  | _ => None
  end.

Fixpoint digits_of_uint (u : Decimal.uint) : list digit :=
  match u with
  | Decimal.Nil => []
  | Decimal.D0 u => Dg0 :: digits_of_uint u
  | Decimal.D1 u => Dg1 :: digits_of_uint u
  | Decimal.D2 u => Dg2 :: digits_of_uint u
  | Decimal.D3 u => Dg3 :: digits_of_uint u
  | Decimal.D4 u => Dg4 :: digits_of_uint u
  | Decimal.D5 u => Dg5 :: digits_of_uint u
  | Decimal.D6 u => Dg6 :: digits_of_uint u
  | Decimal.D7 u => Dg7 :: digits_of_uint u
  | Decimal.D8 u => Dg8 :: digits_of_uint u
  | Decimal.D9 u => Dg9 :: digits_of_uint u
  end.

(** The decimal digits of [|z|], most significant first; [0] is the one
    digit [0]. *)
Definition digits_of_Z (z : Z) : list digit :=
  match z with
  | Z0 => [Dg0]
  | Zpos p | Zneg p => digits_of_uint (Pos.to_uint p)
  end.

Fixpoint Z_of_digits_acc (acc : Z) (ds : list digit) : Z :=
  match ds with
  | [] => acc
  | d :: ds' => Z_of_digits_acc (10 * acc + digit_val d) ds'
  end.

Definition Z_of_digits (ds : list digit) : Z := Z_of_digits_acc 0 ds.

Fixpoint str_digits (ds : list digit) : string :=
  match ds with
  | [] => ""
  | d :: ds' => String (digit_char d) (str_digits ds')
  end.

(* --------------------------------------------------------------------- *)
(** *** Floats: canonical form, order, conversion from [int] *)

Definition float_zero : pyfloat := PyFloat false [] 0.

Definition float_is_zero (f : pyfloat) : bool :=
  match fdigits f with [] => true | _ => false end.

(** [f > 0]. *)
Definition float_pos (f : pyfloat) : bool :=
  negb (fneg f) && negb (float_is_zero f).

(** Unary minus. *)
Definition float_neg (f : pyfloat) : pyfloat :=
  PyFloat (negb (fneg f)) (fdigits f) (fpt f).

(** Leading zeros removed, with their number. *)
Fixpoint strip_leading (ds : list digit) : list digit * nat :=
  match ds with
  | Dg0 :: ds' => let (r, n) := strip_leading ds' in (r, S n)
  | _ => (ds, 0%nat)
  end.

Fixpoint strip_trailing (ds : list digit) : list digit :=
  match ds with
  | [] => []
  | d :: ds' =>
      match strip_trailing ds' with
      | [] => if digit_is_zero d then [] else [d]
      | r => d :: r
      end
  end.

(** The float whose decimal expansion is [0.ds * 10 ^ pt]. *)
Definition canon (neg : bool) (ds : list digit) (pt : Z) : pyfloat :=
  let (ds1, lz) := strip_leading ds in
  match strip_trailing ds1 with
  | [] => PyFloat neg [] 0
  | ds2 => PyFloat neg ds2 (pt - Z.of_nat lz)
  end.

(** [float(z)] for an [int]. *)
Definition float_of_Z (z : Z) : pyfloat :=
  let ds := digits_of_Z z in
  canon (z <? 0) ds (Z.of_nat (List.length ds)).

Definition to_float (n : pynum) : pyfloat :=
  match n with
  | PInt z => float_of_Z z
  | PFloat f => f
  end.

(** Digit strings compared as fractions [0.d1 d2 ...]: lexicographic, a
    proper prefix being the smaller one. *)
Fixpoint digits_cmp (a b : list digit) : comparison :=
  match a, b with
  | [], [] => Eq
  | [], _ :: _ => Lt
  | _ :: _, [] => Gt
  | x :: a', y :: b' =>
      match Z.compare (digit_val x) (digit_val y) with
      | Eq => digits_cmp a' b'
      | c => c
      end
  end.

(** Magnitudes of two non-zero floats. *)
Definition mag_cmp (f g : pyfloat) : comparison :=
  match Z.compare (fpt f) (fpt g) with
  | Eq => digits_cmp (fdigits f) (fdigits g)
  | c => c
  end.

Definition float_cmp (f g : pyfloat) : comparison :=
  match float_is_zero f, float_is_zero g with
  | true, true => Eq
  | true, false => if fneg g then Gt else Lt
  | false, true => if fneg f then Lt else Gt
  | false, false =>
      match fneg f, fneg g with
      | false, false => mag_cmp f g
      | true, true => mag_cmp g f
      | true, false => Lt
      | false, true => Gt
      end
  end.

Definition float_ltb (f g : pyfloat) : bool :=
  match float_cmp f g with Lt => true | _ => false end.

(** [n > 0] and [n == 0] for a number. *)
Definition num_pos (n : pynum) : bool :=
  match n with
  | PInt z => 0 <? z
  | PFloat f => float_pos f
  end.

Definition num_is_zero (n : pynum) : bool :=
  match n with
  | PInt z => z =? 0
  | PFloat f => float_is_zero f
  end.

(** [a < b] between numbers: Python compares an [int] with a [float]
    exactly, by value. *)
Definition num_ltb (a b : pynum) : bool := float_ltb (to_float a) (to_float b).

(* ===================================================================== *)
(** ** Python strings *)
(* ===================================================================== *)

(** A [str] is modelled as a string of code points below 256. *)

Definition is_digit (c : ascii) : bool :=
  match char_digit c with Some _ => true | None => false end.

(** The regular expression class [[\d.]]. *)
Definition is_digit_dot (c : ascii) : bool :=
  is_digit c || Ascii.eqb c ".".

(** The white space of [str.strip()] and of the class [\s]: tab, line feed,
    vertical tab, form feed, carriage return, the four separators 28..31,
    space, next line (133) and no-break space (160). *)
Definition is_space (c : ascii) : bool :=
  let n := nat_of_ascii c in
  ((9 <=? n) && (n <=? 13) || (28 <=? n) && (n <=? 32)
   || (n =? 133) || (n =? 160))%nat.

(** The longest prefix whose characters satisfy [p], and the rest. *)
Fixpoint span (p : ascii -> bool) (s : string) : string * string :=
  match s with
  | String c s' =>
      if p c then let (a, b) := span p s' in (String c a, b) else ("", s)
  | EmptyString => ("", "")
  end.

(** [s] without the prefix [lit], when it starts with it. *)
Fixpoint drop_prefix (lit s : string) : option string :=
  match lit, s with
  | EmptyString, _ => Some s
  | String a lit', String b s' =>
      if Ascii.eqb a b then drop_prefix lit' s' else None
  | String _ _, EmptyString => None
  end.

Fixpoint str_rev_acc (acc s : string) : string :=
  match s with
  | EmptyString => acc
  | String c s' => str_rev_acc (String c acc) s'
  end.

Definition str_rev (s : string) : string := str_rev_acc "" s.

(** [s.strip()]. *)
Definition py_strip (s : string) : string :=
  let s1 := snd (span is_space s) in
  str_rev (snd (span is_space (str_rev s1))).

(** [s.split("; ")]. *)
Fixpoint py_split_semi (s : string) : list string :=
  match s with
  | EmptyString => [""]
  | String c s' =>
      let keep :=
        match py_split_semi s' with
        | h :: t => String c h :: t
        | [] => [String c ""]
        end in
      if Ascii.eqb c ";" then
        match s' with
        | String c2 s'' =>
            if Ascii.eqb c2 " " then "" :: py_split_semi s'' else keep
        | EmptyString => keep
        end
      else keep
  end.

(** ["; ".join(parts)]. *)
Fixpoint py_join_semi (parts : list string) : string :=
  match parts with
  | [] => ""
  | [p] => p
  | p :: rest => p ^^ "; " ^^ py_join_semi rest
  end.

(** [s.lower()] on the letters A..Z. *)
Definition lower_char (c : ascii) : ascii :=
  let n := nat_of_ascii c in
  if ((65 <=? n) && (n <=? 90))%nat then ascii_of_nat (n + 32) else c.

Fixpoint py_lower (s : string) : string :=
  match s with
  | EmptyString => ""
  | String c s' => String (lower_char c) (py_lower s')
  end.

(* ===================================================================== *)
(** ** Printing and reading numbers *)
(* ===================================================================== *)

(** [str(z)] for an [int]. *)
Definition int_str (z : Z) : string :=
  (if z <? 0 then "-" else "") ^^ str_digits (digits_of_Z z).

(** The exponent of [repr]: a sign and at least two digits. *)
Definition exp_str (e : Z) : string :=
  let ds := digits_of_Z e in
  (if e <? 0 then "-" else "+")
  ^^ str_digits (match ds with [d] => [Dg0; d] | _ => ds end).

(** [repr(f)], which is also [str(f)] and what an f-string prints.  Python
    prints the shortest digits that read back as [f], in positional notation
    when the decimal point position is in [-3 .. 16] and with an exponent
    otherwise ([1e-05], [1e+16]). *)
Definition float_repr (f : pyfloat) : string :=
  let sign := if fneg f then "-" else "" in
  match fdigits f with
  | [] => sign ^^ "0.0"
  | d :: rest =>
      let ds := d :: rest in
      let k := Z.of_nat (List.length ds) in
      let pt := fpt f in
      if (-4 <? pt) && (pt <=? 16) then
        if pt <=? 0 then
          sign ^^ "0." ^^ str_digits (repeat Dg0 (Z.to_nat (- pt)) ++ ds)
        else if pt <? k then
          sign ^^ str_digits (firstn (Z.to_nat pt) ds) ^^ "."
               ^^ str_digits (skipn (Z.to_nat pt) ds)
        else
          sign ^^ str_digits (ds ++ repeat Dg0 (Z.to_nat (pt - k))) ^^ ".0"
      else
        sign ^^ str_digits [d]
             ^^ (match rest with [] => "" | _ => "." ^^ str_digits rest end)
             ^^ "e" ^^ exp_str (pt - 1)
  end.

Definition num_str (n : pynum) : string :=
  match n with
  | PInt z => int_str z
  | PFloat f => float_repr f
  end.

(** The digits of a string of digits; [None] when a character is no digit. *)
Fixpoint read_digits (s : string) : option (list digit) :=
  match s with
  | EmptyString => Some []
  | String c s' =>
      match char_digit c, read_digits s' with
      | Some d, Some ds => Some (d :: ds)
      | _, _ => None
      end
  end.

(** [float(s)] on the strings the tier pattern can capture, which consist of
    digits and dots: digits with at most one dot and at least one digit read
    as a float, anything else raises [ValueError].  (Python's [float] also
    reads signs, exponents and surrounding blanks; no captured group has
    them.)  The float is given by the decimal the digits write.  That is
    the float Python reads for what [repr] prints, and for every numeral
    of at most fifteen significant digits within the range of the floats,
    since such a decimal is the shortest one of its float.  A numeral of
    more digits Python rounds to the nearest float, and one beyond the
    range to the infinity; the decimal reading does not follow these. *)
Definition py_float (s : string) : result pyfloat :=
  let (ip, rest) := span is_digit s in
  let fp := match rest with
            | String "." r => Some r
            | EmptyString => Some ""
            | _ => None
            end in
  match fp with
  | None => Raise ValueError
  | Some fpart =>
      match read_digits ip, read_digits fpart with
      | Some i, Some f =>
          match i ++ f with
          | [] => Raise ValueError
          | ds => Ok (canon false ds (Z.of_nat (List.length i)))
          end
      | _, _ => Raise ValueError
      end
  end.

(* ===================================================================== *)
(** ** Python's operations on values *)
(* ===================================================================== *)

Fixpoint lookup (k : string) (kvs : list (string * pyval)) : option pyval :=
  match kvs with
  | [] => None
  | (k', v) :: rest => if String.eqb k k' then Some v else lookup k rest
  end.

(** [d.get(k, default)]: only a dict has the method. *)
Definition py_get (d : pyval) (k : string) (default : pyval) : result pyval :=
  match d with
  | VDict kvs => Ok (match lookup k kvs with Some v => v | None => default end)
  | _ => Raise AttributeError
  end.

(** [d[k]] for a string key [k]. *)
Definition py_getitem (d : pyval) (k : string) : result pyval :=
  match d with
  | VDict kvs =>
      match lookup k kvs with Some v => Ok v | None => Raise KeyError end
  | _ => Raise TypeError
  end.

(** [x[0]]. *)
Definition py_index0 (x : pyval) : result pyval :=
  match x with
  | VList (v :: _) => Ok v
  | VList [] => Raise IndexError
  | VStr (String c _) => Ok (VStr (String c ""))
  | VStr EmptyString => Raise IndexError
  | VDict _ => Raise KeyError
  | _ => Raise TypeError
  end.

(** Truth value of [x] in a condition. *)
Definition truthy (x : pyval) : bool :=
  match x with
  | VNone => false
  | VBool b => b
  | VNum n => negb (num_is_zero n)
  | VStr s => negb (String.eqb s "")
  | VList l => match l with [] => false | _ => true end
  | VDict kvs => match kvs with [] => false | _ => true end
  end.

Fixpoint str_chars (s : string) : list pyval :=
  match s with
  | EmptyString => []
  | String c s' => VStr (String c "") :: str_chars s'
  end.

(** The items a [for] loop over [x] visits: the elements of a list, the keys
    of a dict, the characters of a string. *)
Definition py_iter (x : pyval) : result (list pyval) :=
  match x with
  | VList l => Ok l
  | VDict kvs => Ok (map (fun kv => VStr (fst kv)) kvs)
  | VStr s => Ok (str_chars s)
  | _ => Raise TypeError
  end.

(** [len(x)]. *)
Definition py_len (x : pyval) : result Z :=
  match x with
  | VList l => Ok (Z.of_nat (List.length l))
  | VDict kvs => Ok (Z.of_nat (List.length kvs))
  | VStr s => Ok (Z.of_nat (String.length s))
  | _ => Raise TypeError
  end.

(** [x == s] for a string literal [s]. *)
Definition py_eq_str (x : pyval) (s : string) : bool :=
  match x with
  | VStr t => String.eqb t s
  | _ => false
  end.

(** The number a value stands for in arithmetic and comparisons: [bool] is a
    subclass of [int]. *)
Definition as_num (x : pyval) : option pynum :=
  match x with
  | VNum n => Some n
  | VBool b => Some (PInt (if b then 1 else 0))
  | _ => None
  end.

(** [x > 0]. *)
Definition py_gt0 (x : pyval) : result bool :=
  match as_num x with
  | Some n => Ok (num_pos n)
  | None => Raise TypeError
  end.

Fixpoint mapM {A B} (f : A -> result B) (l : list A) : result (list B) :=
  match l with
  | [] => Ok []
  | a :: l' => b <- f a;; bs <- mapM f l';; Ok (b :: bs)
  end.

(** A comprehension [[x for x in l if p(x)]]. *)
Fixpoint filterM {A} (p : A -> result bool) (l : list A) : result (list A) :=
  match l with
  | [] => Ok []
  | a :: l' =>
      keep <- p a;; rest <- filterM p l';;
      Ok (if keep then a :: rest else rest)
  end.

Fixpoint min_from (cur : pynum) (curv : pyval) (xs : list pyval)
  : result pyval :=
  match xs with
  | [] => Ok curv
  | x :: xs' =>
      match as_num x with
      | Some n =>
          if num_ltb n cur then min_from n x xs' else min_from cur curv xs'
      | None => Raise TypeError
      end
  end.

Fixpoint max_from (cur : pynum) (curv : pyval) (xs : list pyval)
  : result pyval :=
  match xs with
  | [] => Ok curv
  | x :: xs' =>
      match as_num x with
      | Some n =>
          if num_ltb cur n then max_from n x xs' else max_from cur curv xs'
      | None => Raise TypeError
      end
  end.

(** [min(xs)] and [max(xs)] over numbers: the first smallest (largest)
    element; an empty list raises [ValueError]. *)
Definition py_min (xs : list pyval) : result pyval :=
  match xs with
  | [] => Raise ValueError
  | x :: xs' =>
      match as_num x, xs' with
      | _, [] => Ok x
      | Some n, _ => min_from n x xs'
      | None, _ => Raise TypeError
      end
  end.

Definition py_max (xs : list pyval) : result pyval :=
  match xs with
  | [] => Raise ValueError
  | x :: xs' =>
      match as_num x, xs' with
      | _, [] => Ok x
      | Some n, _ => max_from n x xs'
      | None, _ => Raise TypeError
      end
  end.

(** What an f-string prints for [{x}] when [x] is a number or a [bool], the
    only values that reach the formatter: every formatted value has passed
    the comparison [x > 0], which raises for anything else. *)
Definition py_format (x : pyval) : string :=
  match x with
  | VNum n => num_str n
  | VBool true => "True"
  | VBool false => "False"
  | VStr s => s
  | VNone => "None"
  | VList _ | VDict _ => ""
  end.

(* ===================================================================== *)
(** ** Floating-point arithmetic *)
(* ===================================================================== *)

(** Number of digits of [f] after the decimal point. *)
Definition decimal_places (f : pyfloat) : Z :=
  Z.max 0 (Z.of_nat (List.length (fdigits f)) - fpt f).

(** The product of two floats and [round(x, 2)] are binary64 operations;
    the development is parametric in them. *)
Class FloatOps := {
  fmul : pyfloat -> pyfloat -> pyfloat;
  round2 : pyfloat -> pyfloat
}.

(** What [round(x, 2)] guarantees whatever the arithmetic: the result prints
    with at most two digits after the point. *)
Definition rounds_to_two_places (ops : FloatOps) : Prop :=
  forall f, decimal_places (round2 f) <= 2.

(** [GST_MULTIPLIER = 1.1]. *)
Definition GST_MULTIPLIER : pyfloat := PyFloat false [Dg1; Dg1] 1.

Section Normalizer.
Context {ops : FloatOps}.

(** [x * m] for a float [m]. *)
Definition py_mul (x : pyval) (m : pyfloat) : result pyfloat :=
  match as_num x with
  | Some n => Ok (fmul (to_float n) m)
  | None => Raise TypeError
  end.

(** [round(x, 2)]: a float is rounded, an [int] (or [bool]) is returned as
    an [int]. *)
Definition py_round2 (x : pyval) : result pyval :=
  match x with
  | VNum (PFloat f) => Ok (VNum (PFloat (round2 f)))
  | VNum (PInt z) => Ok (VNum (PInt z))
  | VBool b => Ok (VNum (PInt (if b then 1 else 0)))
  | _ => Raise TypeError
  end.

(** [round(x * GST_MULTIPLIER, 2)]. *)
Definition gst_inclusive (x : pyval) : result pyfloat :=
  m <- py_mul x GST_MULTIPLIER;; Ok (round2 m).

Definition extract_supply_charge (contract : pyval) : result pyval :=
  tariff_periods <- py_get contract "tariffPeriod" (VList []);;
  if truthy tariff_periods then
    tp0 <- py_index0 tariff_periods;;
    charge <- py_get tp0 "dailySupplyCharge" VNone;;
    match charge with
    | VNone => Ok VNone
    | _ => r <- gst_inclusive charge;; Ok (VNum (PFloat r))
    end
  else Ok VNone.

(** [round(br["unitPrice"] * GST_MULTIPLIER, 2)]. *)
Definition block_rate_inc_gst (br : pyval) : result pyfloat :=
  p <- py_getitem br "unitPrice";; gst_inclusive p.

(** The inner loop of the time-of-use branch, for one block. *)
Definition tou_block_rates (block : pyval) : result (list pyfloat) :=
  brs <- py_get block "blockRate" (VList []);;
  items <- py_iter brs;;
  mapM block_rate_inc_gst items.

Definition _collect_usage_rates (contract : pyval) : result (list pyfloat) :=
  tariff_periods <- py_get contract "tariffPeriod" (VList []);;
  if negb (truthy tariff_periods) then Ok []
  else
    tp <- py_index0 tariff_periods;;
    pricing_model <- py_get contract "pricingModel" (VStr "SR");;
    if py_eq_str pricing_model "TOU" then
      blocks <- py_get tp "touBlock" (VList []);;
      items <- py_iter blocks;;
      per_block <- mapM tou_block_rates items;;
      Ok (List.concat per_block)
    else
      brs <- py_get tp "blockRate" (VList []);;
      items <- py_iter brs;;
      mapM block_rate_inc_gst items.

Definition float_vals (l : list pyfloat) : list pyval :=
  map (fun f => VNum (PFloat f)) l.

Definition extract_usage_rate_min (contract : pyval) : result pyval :=
  rates <- _collect_usage_rates contract;;
  match rates with [] => Ok VNone | _ => py_min (float_vals rates) end.

Definition extract_usage_rate_max (contract : pyval) : result pyval :=
  rates <- _collect_usage_rates contract;;
  match rates with [] => Ok VNone | _ => py_max (float_vals rates) end.

Definition extract_tou_peak_rate (contract : pyval) : result pyval :=
  pm <- py_get contract "pricingModel" VNone;;
  if negb (py_eq_str pm "TOU") then Ok VNone
  else
    rates <- _collect_usage_rates contract;;
    match rates with [] => Ok VNone | _ => py_max (float_vals rates) end.

Definition extract_tou_offpeak_rate (contract : pyval) : result pyval :=
  pm <- py_get contract "pricingModel" VNone;;
  if negb (py_eq_str pm "TOU") then Ok VNone
  else
    rates <- _collect_usage_rates contract;;
    match rates with [] => Ok VNone | _ => py_min (float_vals rates) end.

(** The body of the loop of [_collect_solar_fit_rates]: what one feed-in
    entry appends to [rates]. *)
Definition solar_fit_entry_rates (fit : pyval) : result (list pyval) :=
  ty <- py_get fit "type" VNone;;
  if py_eq_str ty "G" then Ok []
  else
    rate <- py_get fit "rate" VNone;;
    match rate with
    | VNone =>
        srs <- py_get fit "singleTariffRates" (VList []);;
        items <- py_iter srs;;
        mapM (fun sr => py_get sr "unitPrice" (VNum (PInt 0))) items
    | _ => Ok [rate]
    end.

Definition _collect_solar_fit_rates (contract : pyval) : result (list pyval) :=
  solar_fits <- py_get contract "solarFit" (VList []);;
  if negb (truthy solar_fits) then Ok []
  else
    fits <- py_iter solar_fits;;
    per_fit <- mapM solar_fit_entry_rates fits;;
    filterM py_gt0 (List.concat per_fit).

Definition extract_solar_fit_min (contract : pyval) : result pyval :=
  non_zero <- _collect_solar_fit_rates contract;;
  match non_zero with
  | [] => Ok (VNum (PFloat float_zero))
  | _ => m <- py_min non_zero;; py_round2 m
  end.

Definition extract_solar_fit_max (contract : pyval) : result pyval :=
  non_zero <- _collect_solar_fit_rates contract;;
  match non_zero with
  | [] => Ok (VNum (PFloat float_zero))
  | _ => m <- py_max non_zero;; py_round2 m
  end.

Definition NO_FIT : string := "No solar feed-in tariff".

(** The body of the inner loop of [extract_solar_fit_details]: what one
    [singleTariffRates] entry appends to [details]. *)
Definition tier_detail (sr : pyval) : result (list string) :=
  price <- py_get sr "unitPrice" (VNum (PInt 0));;
  volume <- py_get sr "volume" (VNum (PInt 0));;
  ppos <- py_gt0 price;;
  if ppos then
    vpos <- py_gt0 volume;;
    if vpos then
      Ok [py_format price ^^ "c/kWh (first " ^^ py_format volume ^^ "kWh/day)"]
    else Ok [py_format price ^^ "c/kWh"]
  else Ok [].

(** The body of the outer loop, for one feed-in entry. *)
Definition solar_fit_entry_details (fit : pyval) : result (list string) :=
  ty <- py_get fit "type" VNone;;
  if py_eq_str ty "G" then Ok []
  else
    single_rates <- py_get fit "singleTariffRates" (VList []);;
    items <- py_iter single_rates;;
    per_tier <- mapM tier_detail items;;
    Ok (List.concat per_tier).

(** The end of [extract_solar_fit_details]: the sentinel when nothing was
    appended, the joined clauses otherwise. *)
Definition details_text (details : list string) : string :=
  match details with
  | [] => NO_FIT
  | _ => py_join_semi details
  end.

Definition extract_solar_fit_details (contract : pyval) : result string :=
  solar_fits <- py_get contract "solarFit" (VList []);;
  if negb (truthy solar_fits) then Ok NO_FIT
  else
    fits <- py_iter solar_fits;;
    per_fit <- mapM solar_fit_entry_details fits;;
    Ok (details_text (List.concat per_fit)).

Definition extract_controlled_load_rate (contract : pyval) : result pyval :=
  cl_list <- py_get contract "controlledLoad" (VList []);;
  if negb (truthy cl_list) then Ok (VNum (PFloat float_zero))
  else
    cl0 <- py_index0 cl_list;;
    sr <- py_get cl0 "singleRate" (VDict []);;
    rates_list <- py_get sr "rates" (VList []);;
    if truthy rates_list then
      r0 <- py_index0 rates_list;;
      p <- py_get r0 "unitPrice" (VNum (PInt 0));;
      r <- gst_inclusive p;;
      Ok (VNum (PFloat r))
    else Ok (VNum (PFloat float_zero)).

Definition extract_controlled_load_supply (contract : pyval) : result pyval :=
  cl_list <- py_get contract "controlledLoad" (VList []);;
  if negb (truthy cl_list) then Ok (VNum (PFloat float_zero))
  else
    cl0 <- py_index0 cl_list;;
    sr <- py_get cl0 "singleRate" (VDict []);;
    daily_charge <- py_get sr "dailySupplyCharge" (VNum (PInt 0));;
    if truthy daily_charge then
      r <- gst_inclusive daily_charge;; Ok (VNum (PFloat r))
    else Ok (VNum (PFloat float_zero)).

End Normalizer.

(* ===================================================================== *)
(** ** Plan filtering *)
(* ===================================================================== *)

(** The loop of [plan_has_demand_charge] over the tariff periods. *)
Fixpoint any_demand_charge (tps : list pyval) : result bool :=
  match tps with
  | [] => Ok false
  | tp :: rest =>
      dc <- py_get tp "demandCharge" VNone;;
      if truthy dc then
        n <- py_len dc;;
        if 0 <? n then Ok true else any_demand_charge rest
      else any_demand_charge rest
  end.

(** [plan["planData"]["contract"][0]]: the primary contract. *)
Definition primary_contract (plan : pyval) : result pyval :=
  plan_data <- py_getitem plan "planData";;
  contracts <- py_getitem plan_data "contract";;
  py_index0 contracts.

Definition plan_has_demand_charge (plan : pyval) : result bool :=
  contract <- primary_contract plan;;
  tps <- py_get contract "tariffPeriod" (VList []);;
  items <- py_iter tps;;
  any_demand_charge items.

Definition plan_has_controlled_load (plan : pyval) : result bool :=
  contract <- primary_contract plan;;
  cl <- py_get contract "controlledLoad" VNone;;
  if truthy cl then n <- py_len cl;; Ok (0 <? n) else Ok false.

(** The [stats] dict of [filter_plans]. *)
Record filter_stats := FilterStats {
  total : nat;
  demand_filtered : nat;
  controlled_load_filtered : nat;
  kept : nat
}.

(** The loop of [filter_plans]: [filtered] and [stats] are the two objects it
    updates. *)
Fixpoint filter_loop (include_controlled_load include_demand : bool)
    (plans filtered : list pyval) (stats : filter_stats)
  : result (list pyval * filter_stats) :=
  match plans with
  | [] => Ok (filtered, stats)
  | plan :: rest =>
      demand <- (if negb include_demand then plan_has_demand_charge plan
                 else Ok false);;
      if demand then
        filter_loop include_controlled_load include_demand rest filtered
          (FilterStats (total stats) (S (demand_filtered stats))
                       (controlled_load_filtered stats) (kept stats))
      else
        cl <- (if negb include_controlled_load
               then plan_has_controlled_load plan else Ok false);;
        if cl then
          filter_loop include_controlled_load include_demand rest filtered
            (FilterStats (total stats) (demand_filtered stats)
                         (S (controlled_load_filtered stats)) (kept stats))
        else
          filter_loop include_controlled_load include_demand rest
            (filtered ++ [plan]) stats
  end.

Definition filter_plans (plans : list pyval)
    (include_controlled_load include_demand : bool)
  : result (list pyval * filter_stats) :=
  let stats := FilterStats (List.length plans) 0 0 0 in
  r <- filter_loop include_controlled_load include_demand plans [] stats;;
  let (filtered, stats') := r in
  Ok (filtered,
      FilterStats (total stats') (demand_filtered stats')
                  (controlled_load_filtered stats') (List.length filtered)).

(* ===================================================================== *)
(** ** Plan processing *)
(* ===================================================================== *)

(** The extractors of columns that are display text only, and the URL
    builder: their string formatting is not embedded, and each may raise. *)
Class DisplayColumns := {
  build_plan_url : pyval -> string -> pyval;
  extract_contract_term : pyval -> result pyval;
  extract_benefit_period : pyval -> result pyval;
  extract_controlled_load : pyval -> result pyval;
  extract_discounts : pyval -> result pyval;
  extract_fees : pyval -> result pyval;
  extract_payment_options : pyval -> result pyval;
  extract_meter_types : pyval -> result pyval
}.

Section Processing.
Context {ops : FloatOps} {disp : DisplayColumns}.

(** [costs.get(size, {}).get("yearly", {}).get(which, None)]. *)
Definition yearly_cost (costs : pyval) (size which : string) : result pyval :=
  a <- py_get costs size (VDict []);;
  b <- py_get a "yearly" (VDict []);;
  py_get b which VNone.

(** [process_plan]: the row is a dict, its entries evaluated in order. *)
Definition process_plan (plan : pyval) (postcode : string)
    (distributor_name : pyval) : result pyval :=
  plan_data <- py_getitem plan "planData";;
  contracts <- py_getitem plan_data "contract";;
  contract <- py_index0 contracts;;
  pcr0 <- py_get plan "pcr" (VDict []);;
  pcr <- py_get pcr0 "costs" (VDict []);;
  fuel <- py_getitem plan_data "fuelType";;
  let fuel_key := if py_eq_str fuel "E" then "electricity" else "gas" in
  costs <- py_get pcr fuel_key (VDict []);;
  plan_id <- py_get plan_data "planId" (VStr "");;
  plan_name <- py_get plan_data "planName" (VStr "");;
  retailer <- py_get plan_data "retailerName" (VStr "");;
  tariff_type <- py_get plan_data "tariffType" (VStr "");;
  pricing_model <- py_get contract "pricingModel" (VStr "");;
  term <- extract_contract_term contract;;
  benefit <- extract_benefit_period contract;;
  supply <- extract_supply_charge contract;;
  rate_min <- extract_usage_rate_min contract;;
  rate_max <- extract_usage_rate_max contract;;
  peak <- extract_tou_peak_rate contract;;
  offpeak <- extract_tou_offpeak_rate contract;;
  fit_min <- extract_solar_fit_min contract;;
  fit_max <- extract_solar_fit_max contract;;
  fit_details <- extract_solar_fit_details contract;;
  cl_text <- extract_controlled_load contract;;
  cl_rate <- extract_controlled_load_rate contract;;
  cl_supply <- extract_controlled_load_supply contract;;
  discounts <- extract_discounts contract;;
  fees <- extract_fees contract;;
  payment <- extract_payment_options contract;;
  meters <- extract_meter_types contract;;
  low <- yearly_cost costs "small" "allDiscounts";;
  medium <- yearly_cost costs "medium" "allDiscounts";;
  high <- yearly_cost costs "large" "allDiscounts";;
  low_nd <- yearly_cost costs "small" "noDiscounts";;
  medium_nd <- yearly_cost costs "medium" "noDiscounts";;
  high_nd <- yearly_cost costs "large" "noDiscounts";;
  Ok (VDict [
    ("Plan ID", plan_id);
    ("Plan Name", plan_name);
    ("Retailer", retailer);
    ("Distributor",
       if truthy distributor_name then distributor_name else VStr "N/A");
    ("Plan URL", build_plan_url plan_id postcode);
    ("Tariff Type", tariff_type);
    ("Pricing Model", pricing_model);
    ("Contract Term", term);
    ("Benefit Period", benefit);
    ("Supply Charge (c/day)", supply);
    ("Usage Rate Min (c/kWh)", rate_min);
    ("Usage Rate Max (c/kWh)", rate_max);
    ("Peak Rate (c/kWh)", peak);
    ("Off-Peak Rate (c/kWh)", offpeak);
    ("Solar FIT Min (c/kWh)", fit_min);
    ("Solar FIT Max (c/kWh)", fit_max);
    ("Solar FIT Details", VStr fit_details);
    ("Controlled Load", cl_text);
    ("CL Rate (c/kWh)", cl_rate);
    ("CL Supply (c/day)", cl_supply);
    ("Discounts", discounts);
    ("Fees", fees);
    ("Payment Options", payment);
    ("Meter Types", meters);
    ("Est. Cost/Year (Low Usage)", low);
    ("Est. Cost/Year (Medium Usage)", medium);
    ("Est. Cost/Year (High Usage)", high);
    ("Est. Cost/Year (Low, No Disc.)", low_nd);
    ("Est. Cost/Year (Medium, No Disc.)", medium_nd);
    ("Est. Cost/Year (High, No Disc.)", high_nd)
  ]).

(** A warning printed by step 4 of [main]: the plan name and the exception. *)
Record warning := Warning { warn_plan_name : pyval; warn_error : exn }.

(** The state of step 4 of [main]: the rows, the error count, the warnings
    printed so far. *)
Record step4_state := Step4 {
  all_plans_data : list pyval;
  errors : nat;
  warnings : list warning
}.

(** Step 4 of [main]: the loop over the filtered plans.  [process_plan] runs
    inside [try]; the handler counts the plan and prints a warning with its
    name.  The lookup of the distributor name and the handler's own lookups
    are outside the protection and abort the run when they raise. *)
Fixpoint main_step4 (filtered_plans : list pyval) (postcode : string)
    (st : step4_state) : result step4_state :=
  match filtered_plans with
  | [] => Ok st
  | plan :: rest =>
      dist_name <- py_get plan "_distributor_name" (VStr "N/A");;
      match process_plan plan postcode dist_name with
      | Ok row =>
          main_step4 rest postcode
            (Step4 (all_plans_data st ++ [row]) (errors st) (warnings st))
      | Raise e =>
          pd <- py_get plan "planData" (VDict []);;
          plan_name <- py_get pd "planName" (VStr "Unknown");;
          main_step4 rest postcode
            (Step4 (all_plans_data st) (S (errors st))
                   (warnings st ++ [Warning plan_name e]))
      end
  end.

End Processing.

(* ===================================================================== *)
(** ** The solar feed-in tier parser *)
(* ===================================================================== *)

(** A tier: [(rate, volume)], volume [0.0] meaning all that remains. *)
Definition tier : Type := (pyfloat * pyfloat)%type.

(** The optional group [(?:\s*\(first\s+([\d.]+)kWh/day\))?] applied to what
    follows ["c/kWh"]: the captured volume, when the group matches. *)
Definition match_first_clause (s : string) : option string :=
  match drop_prefix "(first" (snd (span is_space s)) with
  | None => None
  | Some r1 =>
      let (ws, r2) := span is_space r1 in
      if String.eqb ws "" then None
      else
        let (g2, r3) := span is_digit_dot r2 in
        if String.eqb g2 "" then None
        else
          match drop_prefix "kWh/day)" r3 with
          | Some _ => Some g2
          | None => None
          end
  end.

(** [re.match(r"([\d.]+)c/kWh(?:\s*\(first\s+([\d.]+)kWh/day\))?", part)]:
    groups 1 and 2 of the match, [None] when the pattern does not match at
    the start of [part].  Every repetition of the pattern is followed by a
    character outside its class, so the longest run is the only candidate
    and no backtracking is needed. *)
Definition match_tier (part : string) : option (string * option string) :=
  let (g1, r1) := span is_digit_dot part in
  if String.eqb g1 "" then None
  else
    match drop_prefix "c/kWh" r1 with
    | None => None
    | Some r2 => Some (g1, match_first_clause r2)
    end.

(** The loop over the parts of the description. *)
Fixpoint parse_parts (parts : list string) : result (list tier) :=
  match parts with
  | [] => Ok []
  | part :: rest =>
      match match_tier (py_strip part) with
      | Some (g1, g2) =>
          rate <- py_float g1;;
          volume <- match g2 with
                    | Some s => py_float s
                    | None => Ok float_zero
                    end;;
          ts <- parse_parts rest;;
          Ok ((rate, volume) :: ts)
      | None => parse_parts rest
      end
  end.

(** [key(a) < key(b)] for the sort key [(t[1] == 0, -t[1])]: tuples compare
    by their first differing component, and [False < True]. *)
Definition tier_key_ltb (a b : tier) : bool :=
  let za := float_is_zero (snd a) in
  let zb := float_is_zero (snd b) in
  if Bool.eqb za zb
  then float_ltb (float_neg (snd a)) (float_neg (snd b))
  else negb za && zb.

(** [list.sort] is stable: an element goes before the first element of a
    strictly greater key. *)
Fixpoint insert_tier (t : tier) (l : list tier) : list tier :=
  match l with
  | [] => [t]
  | u :: l' => if tier_key_ltb u t then u :: insert_tier t l' else t :: u :: l'
  end.

Definition sort_tiers (l : list tier) : list tier :=
  fold_right insert_tier [] l.

(** The parser on the description text. *)
Definition parse_details (details : string) : result (list tier) :=
  tiers <- parse_parts (py_split_semi details);;
  Ok (sort_tiers tiers).

Definition _parse_solar_fit_tiers (plan : pyval) : result (list tier) :=
  details <- py_get plan "Solar FIT Details" (VStr "");;
  if negb (truthy details) || py_eq_str details NO_FIT then Ok []
  else
    match details with
    | VStr s => parse_details s
    | _ => Raise AttributeError
    end.

(* ===================================================================== *)
(** ** The calculator sheet: solar credit *)
(* ===================================================================== *)

(** The cells a solar credit formula refers to: the daily solar export the
    user enters in [B5], and columns [I] and [J] of the plan's own row. *)
Inductive cell := B5 | ColI | ColJ.

(** Spreadsheet formulas, as far as column [Q] uses them. *)
Inductive formula :=
| FCell (c : cell)
| FNum (n : pynum)
| FMin (a b : formula)
| FMax (a b : formula)
| FMul (a b : formula)
| FAdd (a b : formula)
| FSub (a b : formula).

(** What [_write_calculator_sheet] writes for one plan into columns [I], [J]
    and [Q]. *)
Record solar_cells := SolarCells {
  cell_I : pynum;
  cell_J : pynum;
  cell_Q : formula
}.

(** [=MIN($B$5,vol)*I+MAX($B$5-vol,0)*J] when the first tier has a volume,
    [=$B$5*I] otherwise. *)
Definition solar_credit_formula (fit_tier1_vol : pynum) : formula :=
  if num_pos fit_tier1_vol then
    FAdd (FMul (FMin (FCell B5) (FNum fit_tier1_vol)) (FCell ColI))
         (FMul (FMax (FSub (FCell B5) (FNum fit_tier1_vol)) (FNum (PInt 0)))
               (FCell ColJ))
  else FMul (FCell B5) (FCell ColI).

(** The solar part of the loop body of [_write_calculator_sheet]. *)
Definition calculator_solar_cells (plan : pyval) : result solar_cells :=
  tiers <- _parse_solar_fit_tiers plan;;
  let '(fit_tier1_rate, fit_tier1_vol, fit_tier2_rate) :=
    match tiers with
    | t0 :: t1 :: _ => (PFloat (fst t0), PFloat (snd t0), PFloat (fst t1))
    | [t0] => (PFloat (fst t0), PInt 0, PInt 0)
    | [] => (PInt 0, PInt 0, PInt 0)
    end in
  Ok (SolarCells fit_tier1_rate fit_tier2_rate
                 (solar_credit_formula fit_tier1_vol)).

(** The value of a float as a rational. *)
Definition float_to_Q (f : pyfloat) : Q :=
  let m := Z_of_digits (fdigits f) in
  let m := if fneg f then (- m)%Z else m in
  let e := (fpt f - Z.of_nat (List.length (fdigits f)))%Z in
  if (0 <=? e)%Z then inject_Z (m * 10 ^ e)
  else Qmake m (Z.to_pos (10 ^ (- e))).

Definition num_to_Q (n : pynum) : Q :=
  match n with
  | PInt z => inject_Z z
  | PFloat f => float_to_Q f
  end.

(** The spreadsheet evaluates a formula over the current cell values;
    arithmetic is taken exact here. *)
Fixpoint eval_formula (env : cell -> Q) (f : formula) : Q :=
  match f with
  | FCell c => env c
  | FNum n => num_to_Q n
  | FMin a b => Qmin (eval_formula env a) (eval_formula env b)
  | FMax a b => Qmax (eval_formula env a) (eval_formula env b)
  | FMul a b => (eval_formula env a * eval_formula env b)%Q
  | FAdd a b => (eval_formula env a + eval_formula env b)%Q
  | FSub a b => (eval_formula env a - eval_formula env b)%Q
  end.

(** Column [Q] of a plan's row for a daily export of [export] kWh. *)
Definition solar_credit (cells : solar_cells) (export : Q) : Q :=
  eval_formula (fun c => match c with
                         | B5 => export
                         | ColI => num_to_Q (cell_I cells)
                         | ColJ => num_to_Q (cell_J cells)
                         end) (cell_Q cells).

(* ===================================================================== *)
(** ** Distributor selection *)
(* ===================================================================== *)

(** A distributor dict: [{"id": ..., "name": ..., "plan_count": ...}]. *)
Record distributor := Distributor {
  dist_id : string;
  dist_name : string;
  plan_count : option Z
}.

(** What the user types at the prompt, after [strip().upper()] and
    [int(...)]: the letter A, a number, or anything else. *)
Inductive choice := ChooseAll | ChooseNumber (n : Z) | ChooseOther.

(** The surroundings of a run: what [fetch_distributors] returns for the
    postcode, what [probe_distributor_plans] returns for a distributor id
    (the number of plans, or [-1] on any failure), and the lines the user
    will type. *)
Record world := World {
  fetch_distributors : list distributor;
  probe_distributor_plans : string -> Z;
  stdin : list choice
}.

(** How distributor resolution ends: a list of distributors to fetch for
    (possibly empty), or the end of input at the prompt ([EOFError]). *)
Inductive selection :=
| Selected (ds : list distributor)
| EndOfInput.

(** The probing loop: the distributors with a positive plan count, each
    with its count recorded. *)
Fixpoint probe_available (w : world) (ds : list distributor)
  : list distributor :=
  match ds with
  | [] => []
  | d :: rest =>
      let count := probe_distributor_plans w (dist_id d) in
      if 0 <? count
      then Distributor (dist_id d) (dist_name d) (Some count)
             :: probe_available w rest
      else probe_available w rest
  end.

(** The prompt loop [while True: ...]: it ends with the first valid
    choice. *)
Fixpoint prompt_choice (available : list distributor) (input : list choice)
  : selection :=
  match input with
  | [] => EndOfInput
  | ChooseAll :: _ => Selected available
  | ChooseNumber n :: rest =>
      let idx := n - 1 in
      if (0 <=? idx) && (idx <? Z.of_nat (List.length available)) then
        match nth_error available (Z.to_nat idx) with
        | Some d => Selected [d]
        | None => prompt_choice available rest
        end
      else prompt_choice available rest
  | ChooseOther :: rest => prompt_choice available rest
  end.

Definition select_distributor_interactive (w : world) : selection :=
  let distributors := fetch_distributors w in
  match distributors with
  | [] => Selected []
  | [_] => Selected distributors
  | _ =>
      let available := probe_available w distributors in
      match available with
      | [] => Selected []
      | [_] => Selected available
      | _ => prompt_choice available (stdin w)
      end
  end.

(** How [main] goes on after step 2. *)
Inductive outcome :=
| SysExit (code : Z)                      (* [sys.exit(code)] *)
| FetchPlans (dist_ids : list string)     (* step 3: one [fetch_plans] call
                                             per selected distributor, with
                                             this [dist_id] *)
| Uncaught.                               (* [EOFError] at the prompt *)

(** Step 2 of [main]: [--dist all], [--dist ID], or interactive. *)
Definition main_step2 (args_distributor : option string) (w : world)
  : selection :=
  match args_distributor with
  | Some d =>
      if negb (String.eqb d "") then
        if String.eqb (py_lower d) "all" then
          let selected := probe_available w (fetch_distributors w) in
          match selected with
          | [] => Selected [Distributor "" "Auto" (Some 0)]
          | _ => Selected selected
          end
        else
          let name :=
            match find (fun x => String.eqb (dist_id x) d)
                       (fetch_distributors w) with
            | Some x => dist_name x
            | None => "ID " ^^ d
            end in
          Selected [Distributor d name (Some 0)]
      else select_distributor_interactive w
  | None => select_distributor_interactive w
  end.

(** Steps 2 and 3 of [main], up to the plan fetches. *)
Definition main_resolve_and_fetch (args_distributor : option string)
    (w : world) : outcome :=
  match main_step2 args_distributor w with
  | EndOfInput => Uncaught
  | Selected [] => SysExit 1
  | Selected selected => FetchPlans (map dist_id selected)
  end.

(* ===================================================================== *)
(** ** Exact decimal arithmetic, an instance of [FloatOps] *)
(* ===================================================================== *)

(** The exact product of two decimals. *)
Definition decimal_mul (f g : pyfloat) : pyfloat :=
  let m := Z_of_digits (fdigits f) * Z_of_digits (fdigits g) in
  let e := (fpt f - Z.of_nat (List.length (fdigits f)))
           + (fpt g - Z.of_nat (List.length (fdigits g))) in
  let ds := digits_of_Z m in
  canon (xorb (fneg f) (fneg g)) ds (Z.of_nat (List.length ds) + e).

(** A decimal rounded to two places, ties to even. *)
Definition decimal_round2 (f : pyfloat) : pyfloat :=
  let e := fpt f - Z.of_nat (List.length (fdigits f)) in
  if -2 <=? e then f
  else
    let p := 10 ^ (- e - 2) in
    let m := Z_of_digits (fdigits f) in
    let q := m / p in
    let r := m mod p in
    let n := if 2 * r <? p then q
             else if p <? 2 * r then q + 1
             else if Z.even q then q else q + 1 in
    let ds := digits_of_Z n in
    canon (fneg f) ds (Z.of_nat (List.length ds) - 2).

(** Decimal arithmetic, to run the extractors on examples: it agrees with
    binary64 arithmetic wherever the product is exact and the rounded value
    is no tie. *)
#[export] Instance decimal_ops : FloatOps :=
  {| fmul := decimal_mul; round2 := decimal_round2 |}.

(* ===================================================================== *)
(** ** Python's comparisons, sets and sorting *)
(* ===================================================================== *)

(** [a == b] between numbers, by value. *)
Definition num_eqb (a b : pynum) : bool :=
  match float_cmp (to_float a) (to_float b) with Eq => true | _ => false end.

(** A value that can be a member of a set or a key of a dict: [None], a
    [bool], a number or a [str]; a list or a dict is unhashable. *)
Definition py_hashable (x : pyval) : bool :=
  match x with
  | VList _ | VDict _ => false
  | _ => true
  end.

(** [a == b] between hashable values: [None] equals [None], a [str] an
    equal [str], and numbers and [bool]s compare by value
    ([True == 1 == 1.0]). *)
Definition py_eq (a b : pyval) : bool :=
  match a, b with
  | VNone, VNone => true
  | VStr s, VStr t => String.eqb s t
  | _, _ =>
      match as_num a, as_num b with
      | Some n, Some m => num_eqb n m
      | _, _ => false
      end
  end.

(** [x in seen] for a set [seen]: [TypeError] for an unhashable [x]. *)
Definition py_in_set (x : pyval) (seen : list pyval) : result bool :=
  if py_hashable x then Ok (existsb (py_eq x) seen) else Raise TypeError.

(** [a < b]: numbers (and [bool]s) compare by value, strings by their
    code points, the shorter of a string and its extension first; [None],
    a dict, or a number against a string have no order ([TypeError]).  An
    order between two lists is not modelled: no key of the program's sorts
    is a JSON array. *)
Definition py_lt (a b : pyval) : result bool :=
  match a, b with
  | VStr s, VStr t => Ok (String.ltb s t)
  | _, _ =>
      match as_num a, as_num b with
      | Some n, Some m => Ok (num_ltb n m)
      | _, _ => Raise TypeError
      end
  end.

Section Sorting.
Context {A : Type} (lt : A -> A -> result bool).

(** A stable ascending sort: an element goes behind the elements that are
    less than it, and before the first one that is not.  Which pairs a
    sort compares is its own business; over keys that are all numbers or
    all strings every comparison succeeds and the stable result is unique,
    and over any other keys every sort of two or more elements meets a
    pair without an order and raises. *)
Fixpoint insert_ascending (x : A) (l : list A) : result (list A) :=
  match l with
  | [] => Ok [x]
  | y :: l' =>
      below <- lt y x;;
      if below then r <- insert_ascending x l';; Ok (y :: r)
      else Ok (x :: y :: l')
  end.

Fixpoint sort_ascending (l : list A) : result (list A) :=
  match l with
  | [] => Ok []
  | x :: l' => s <- sort_ascending l';; insert_ascending x s
  end.

(** The same with [reverse=True]: descending, elements with equal keys
    still in their original order. *)
Fixpoint insert_descending (x : A) (l : list A) : result (list A) :=
  match l with
  | [] => Ok [x]
  | y :: l' =>
      below <- lt x y;;
      if below then r <- insert_descending x l';; Ok (y :: r)
      else Ok (x :: y :: l')
  end.

Fixpoint sort_descending (l : list A) : result (list A) :=
  match l with
  | [] => Ok []
  | x :: l' => s <- sort_descending l';; insert_descending x s
  end.

End Sorting.

(** [sorted(l, key=key, reverse=reverse)]: the keys are computed first,
    one per element. *)
Definition py_sorted {A : Type} (key : A -> result pyval) (reverse : bool)
    (l : list A) : result (list A) :=
  keyed <- mapM (fun x => k <- key x;; Ok (k, x)) l;;
  s <- (if reverse then sort_descending else sort_ascending)
         (fun a b => py_lt (fst a) (fst b)) keyed;;
  Ok (map snd s).

(* ===================================================================== *)
(** ** Display text of a contract *)
(* ===================================================================== *)

Fixpoint lookup_text (k : string) (table : list (string * string))
  : option string :=
  match table with
  | [] => None
  | (k', v) :: rest => if String.eqb k k' then Some v else lookup_text k rest
  end.

(** [table.get(key, default)] for a dict literal [table] from strings to
    strings: a key that is no string is found nowhere, and an unhashable
    key raises. *)
Definition py_table_get (table : list (string * string))
    (key default : pyval) : result pyval :=
  match key with
  | VStr s =>
      Ok (match lookup_text s table with Some v => VStr v | None => default end)
  | VList _ | VDict _ => Raise TypeError
  | _ => Ok default
  end.

(** [sep.join(items)] for strings. *)
Fixpoint join_with (sep : string) (parts : list string) : string :=
  match parts with
  | [] => ""
  | [p] => p
  | p :: rest => p ^^ sep ^^ join_with sep rest
  end.

(** [sep.join(items)]: every item must be a [str]. *)
Definition py_join (sep : string) (items : list pyval) : result string :=
  parts <- mapM (fun v => match v with
                          | VStr s => Ok s
                          | _ => Raise TypeError
                          end) items;;
  Ok (join_with sep parts).

(** The loop [for r in l: if r not in seen: seen.add(r); unique.append(r)]:
    what it appends to [unique], from a given [seen]. *)
Fixpoint py_unique (seen l : list pyval) : result (list pyval) :=
  match l with
  | [] => Ok []
  | r :: l' =>
      dup <- py_in_set r seen;;
      if dup then py_unique seen l'
      else rest <- py_unique (r :: seen) l';; Ok (r :: rest)
  end.

Definition PAYMENT_OPTIONS : list (string * string) :=
  [("P", "Post/Mail"); ("DD", "Direct Debit"); ("CC", "Credit Card");
   ("BP", "BPay"); ("CP", "Centrepay")].

(** The text extractors of the row that format no number. *)
Module Display.

Definition term_map : list (string * string) :=
  [("E", "No lock-in"); ("1", "1 year"); ("2", "2 years"); ("3", "3 years")].

Definition extract_contract_term (contract : pyval) : result pyval :=
  term <- py_get contract "termType" (VStr "");;
  py_table_get term_map term (if truthy term then term else VStr "N/A").

Definition extract_benefit_period (contract : pyval) : result pyval :=
  bp <- py_get contract "benefitPeriod" (VStr "");;
  if negb (truthy bp) then Ok (VStr "N/A") else Ok bp.

Definition extract_payment_options (contract : pyval) : result pyval :=
  options <- py_get contract "paymentOption" (VList []);;
  if negb (truthy options) then Ok (VStr "N/A")
  else
    items <- py_iter options;;
    named <- mapM (fun o => py_table_get PAYMENT_OPTIONS o o) items;;
    text <- py_join ", " named;;
    Ok (VStr text).

Definition meter_map : list (string * string) :=
  [("Type 6", "Basic Meter"); ("Type 4", "Smart Meter");
   ("Type 4a", "Smart Meter (4a)"); ("Type 1", "Interval Meter")].

Definition extract_meter_types (contract : pyval) : result pyval :=
  meters <- py_get contract "meterType" (VList []);;
  if negb (truthy meters) then Ok (VStr "N/A")
  else
    items <- py_iter meters;;
    readable <- mapM (fun m => py_table_get meter_map m m) items;;
    unique <- py_unique [] readable;;
    text <- py_join ", " unique;;
    Ok (VStr text).

End Display.

(* ===================================================================== *)
(** ** Distributors of a postcode: the meta response *)
(* ===================================================================== *)

(** The functions of the API section, applied to the decoded JSON of the
    response. *)
Module Api.

(** [item.get("planData", {}).get("supplyArea", [])], as the inner loop
    visits it. *)
Definition supply_areas (item : pyval) : result (list pyval) :=
  plan_data <- py_get item "planData" (VDict []);;
  areas <- py_get plan_data "supplyArea" (VList []);;
  py_iter areas.

(** The inner loop of [fetch_distributors] on the state [(seen,
    distributors)]; the newest member of [seen] is first. *)
Fixpoint add_supply_areas (areas : list pyval)
    (st : list pyval * list pyval) : result (list pyval * list pyval) :=
  match areas with
  | [] => Ok st
  | sa :: rest =>
      key <- py_getitem sa "id";;
      known <- py_in_set key (fst st);;
      if known then add_supply_areas rest st
      else
        id <- py_getitem sa "id";;
        name <- py_getitem sa "name";;
        add_supply_areas rest
          (key :: fst st, snd st ++ [VDict [("id", id); ("name", name)]])
  end.

(** The outer loop. *)
Fixpoint add_items (items : list pyval) (st : list pyval * list pyval)
  : result (list pyval * list pyval) :=
  match items with
  | [] => Ok st
  | item :: rest =>
      areas <- supply_areas item;;
      st' <- add_supply_areas areas st;;
      add_items rest st'
  end.

(** [fetch_distributors], from the decoded response [data] on. *)
Definition fetch_distributors (data : pyval) : result (list pyval) :=
  d <- py_get data "data" (VList []);;
  items <- py_iter d;;
  st <- add_items items ([], []);;
  py_sorted (fun dist => py_getitem dist "name") false (snd st).

End Api.

(* ===================================================================== *)
(** ** Column groups of the sheets *)
(* ===================================================================== *)

Definition COLUMN_GROUPS : list (string * list string) :=
  [("identity",
    ["Plan ID"; "Plan Name"; "Retailer"; "Distributor"; "Plan URL"]);
   ("plan_type",
    ["Tariff Type"; "Pricing Model"; "Contract Term"; "Benefit Period"]);
   ("charges",
    ["Supply Charge (c/day)"; "Usage Rate Min (c/kWh)";
     "Usage Rate Max (c/kWh)"; "Peak Rate (c/kWh)";
     "Off-Peak Rate (c/kWh)"]);
   ("solar",
    ["Solar FIT Min (c/kWh)"; "Solar FIT Max (c/kWh)"; "Solar FIT Details"]);
   ("extras",
    ["Controlled Load"; "CL Rate (c/kWh)"; "CL Supply (c/day)"; "Discounts";
     "Fees"; "Payment Options"; "Meter Types"]);
   ("cost_disc",
    ["Est. Cost/Year (Low Usage)"; "Est. Cost/Year (Medium Usage)";
     "Est. Cost/Year (High Usage)"]);
   ("cost_no_disc",
    ["Est. Cost/Year (Low, No Disc.)"; "Est. Cost/Year (Medium, No Disc.)";
     "Est. Cost/Year (High, No Disc.)"])].

Definition NUMERIC_COLUMNS : list string :=
  ["Supply Charge (c/day)"; "Usage Rate Min (c/kWh)";
   "Usage Rate Max (c/kWh)"; "Peak Rate (c/kWh)"; "Off-Peak Rate (c/kWh)";
   "Solar FIT Min (c/kWh)"; "Solar FIT Max (c/kWh)"; "CL Rate (c/kWh)";
   "CL Supply (c/day)"; "Est. Cost/Year (Low Usage)";
   "Est. Cost/Year (Medium Usage)"; "Est. Cost/Year (High Usage)";
   "Est. Cost/Year (Low, No Disc.)"; "Est. Cost/Year (Medium, No Disc.)";
   "Est. Cost/Year (High, No Disc.)"].

(** [col_name in cols] for a list of strings. *)
Definition str_in (s : string) (l : list string) : bool :=
  existsb (String.eqb s) l.

(** The loop of [get_column_group] over the groups. *)
Fixpoint find_group (col_name : string) (groups : list (string * list string))
  : option string :=
  match groups with
  | [] => None
  | (group, cols) :: rest =>
      if str_in col_name cols then Some group else find_group col_name rest
  end.

Definition get_column_group (col_name : string) : option string :=
  find_group col_name COLUMN_GROUPS.

(* ===================================================================== *)
(** ** The sheets of the workbook *)
(* ===================================================================== *)

(** [x is not None]. *)
Definition is_not_none (x : pyval) : bool :=
  match x with VNone => false | _ => true end.

(** [x or d]. *)
Definition py_or (x d : pyval) : pyval := if truthy x then x else d.

(** [p["Pricing Model"] == model]. *)
Definition has_pricing_model (model : string) (p : pyval) : result bool :=
  pm <- py_getitem p "Pricing Model";; Ok (py_eq_str pm model).

(** The rows of the sheets "Single Rate Plans" and "Time of Use Plans". *)
Definition sr_plans (plans_data : list pyval) : result (list pyval) :=
  filterM (has_pricing_model "SR") plans_data.

Definition tou_plans (plans_data : list pyval) : result (list pyval) :=
  filterM (has_pricing_model "TOU") plans_data.

(** [p.get("Solar FIT Max (c/kWh)") or 0]. *)
Definition solar_fit_key (p : pyval) : result pyval :=
  v <- py_get p "Solar FIT Max (c/kWh)" VNone;;
  Ok (py_or v (VNum (PInt 0))).

(** The rows of the sheet "Best Solar FIT": the plans with a feed-in
    tariff, the highest first. *)
Definition solar_plans (plans_data : list pyval) : result (list pyval) :=
  with_fit <- filterM (fun p => k <- solar_fit_key p;; py_gt0 k) plans_data;;
  py_sorted solar_fit_key true with_fit.

(** The plans with an estimated cost for medium usage, the cheapest
    first. *)
Definition cheap_plans (plans_data : list pyval) : result (list pyval) :=
  with_cost <- filterM (fun p =>
                 c <- py_get p "Est. Cost/Year (Medium Usage)" VNone;;
                 Ok (is_not_none c)) plans_data;;
  py_sorted (fun p => py_getitem p "Est. Cost/Year (Medium Usage)") false
            with_cost.

(** The rows of the sheet "Cheapest Plans": [cheap_plans[:50]]. *)
Definition cheapest_sheet (plans_data : list pyval) : result (list pyval) :=
  cheap <- cheap_plans plans_data;;
  Ok (firstn 50 cheap).

(** The condition of the comprehension for [calc_plans]; [and] and [or]
    evaluate their right operand only when the left one does not decide. *)
Definition calc_eligible (p : pyval) : result bool :=
  supply <- py_get p "Supply Charge (c/day)" VNone;;
  if negb (is_not_none supply) then Ok false
  else
    usage <- py_get p "Usage Rate Max (c/kWh)" VNone;;
    single <- (if is_not_none usage then has_pricing_model "SR" p
               else Ok false);;
    if single then Ok true
    else
      peak <- py_get p "Peak Rate (c/kWh)" VNone;;
      if is_not_none peak then has_pricing_model "TOU" p else Ok false.

(** The rows of the sheet "Plan Calculator". *)
Definition calc_plans (plans_data : list pyval) : result (list pyval) :=
  filterM calc_eligible plans_data.

(* ===================================================================== *)
(** ** The summary sheet: plans by retailer and by distributor *)
(* ===================================================================== *)

(** [counts[r] = counts.get(r, 0) + 1] on a dict kept in insertion order:
    the count of the key equal to [r] goes up, or [r] is entered with the
    count 1. *)
Fixpoint count_up (r : pyval) (counts : list (pyval * Z))
  : list (pyval * Z) :=
  match counts with
  | [] => [(r, 1)]
  | (k, n) :: rest =>
      if py_eq r k then (k, n + 1) :: rest else (k, n) :: count_up r rest
  end.

(** The counting loop; a key that is a list or a dict is unhashable. *)
Fixpoint count_by (key : pyval -> result pyval) (plans_data : list pyval)
    (counts : list (pyval * Z)) : result (list (pyval * Z)) :=
  match plans_data with
  | [] => Ok counts
  | p :: rest =>
      r <- key p;;
      if py_hashable r then count_by key rest (count_up r counts)
      else Raise TypeError
  end.

Definition retailer_counts (plans_data : list pyval)
  : result (list (pyval * Z)) :=
  count_by (fun p => py_getitem p "Retailer") plans_data [].

Definition dist_counts (plans_data : list pyval)
  : result (list (pyval * Z)) :=
  count_by (fun p => py_get p "Distributor" (VStr "N/A")) plans_data [].

(** [a < b] between two items [(key, count)] of a dict: tuples compare by
    their first components that differ. *)
Definition py_lt_item (a b : pyval * Z) : result bool :=
  if py_eq (fst a) (fst b) then Ok (snd a <? snd b)
  else py_lt (fst a) (fst b).

(** The lines of a table of the summary sheet: [sorted(counts.items())]. *)
Definition summary_lines (counts : list (pyval * Z))
  : result (list (pyval * Z)) :=
  sort_ascending py_lt_item counts.

(** The two tables of the summary sheet, in the order the sheet is
    written: the lines of "Plans by Retailer", then those of "Plans by
    Distributor", a table that is written only when the rows have more
    than one distributor ([if len(dist_counts) > 1]). *)
Definition summary_tables (plans_data : list pyval)
  : result (list (pyval * Z) * option (list (pyval * Z))) :=
  counts <- retailer_counts plans_data;;
  retailer_lines <- summary_lines counts;;
  counts <- dist_counts plans_data;;
  if 1 <? Z.of_nat (List.length counts) then
    distributor_lines <- summary_lines counts;;
    Ok (retailer_lines, Some distributor_lines)
  else Ok (retailer_lines, None).

(* ===================================================================== *)
(** ** Step 3 of [main]: the plans of the selected distributors *)
(* ===================================================================== *)

(** [d[k] = v] on a dict in insertion order: the value of an existing key
    is replaced where it stands, a new key is entered last. *)
Fixpoint set_field (k : string) (v : pyval) (kvs : list (string * pyval))
  : list (string * pyval) :=
  match kvs with
  | [] => [(k, v)]
  | (k', v') :: rest =>
      if String.eqb k k' then (k', v) :: rest
      else (k', v') :: set_field k v rest
  end.

(** [x[k] = v] for a string key: only a dict takes it. *)
Definition py_setitem (x : pyval) (k : string) (v : pyval) : result pyval :=
  match x with
  | VDict kvs => Ok (VDict (set_field k v kvs))
  | _ => Raise TypeError
  end.

(** [data.get("data", {}).get("plans", [])]: what [fetch_plans] returns
    for the decoded response [data]. *)
Definition plans_of_response (data : pyval) : result pyval :=
  d <- py_get data "data" (VDict []);;
  py_get d "plans" (VList []).

(** Step 3 of [main] on the state [(all_raw_plans, distributor_names)].
    [response] gives the decoded response of the plans request for a
    distributor id, or nothing when the request fails with a
    [RequestException], which the loop passes over.  Each plan fetched for
    a distributor is given the distributor's name under the key
    ["_distributor_name"]. *)
Fixpoint main_step3 (response : string -> option pyval)
    (selected : list distributor) (st : list pyval * list string)
  : result (list pyval * list string) :=
  match selected with
  | [] => Ok st
  | dist :: rest =>
      let names := snd st ++ [dist_name dist] in
      match response (dist_id dist) with
      | None => main_step3 response rest (fst st, names)
      | Some data =>
          raw_plans <- plans_of_response data;;
          _ <- py_len raw_plans;;
          items <- py_iter raw_plans;;
          tagged <- mapM (fun plan =>
                            py_setitem plan "_distributor_name"
                                       (VStr (dist_name dist))) items;;
          main_step3 response rest (fst st ++ tagged, names)
      end
  end.

(* ===================================================================== *)
(** ** Step 3b of [main]: which plans are processed *)
(* ===================================================================== *)

(** [input(...).strip().upper() == "Y"]: the letter y in either case is
    the only text whose upper case is "Y". *)
Definition answers_yes (line : string) : bool :=
  let s := py_strip line in String.eqb s "Y" || String.eqb s "y".

(** Step 3b of [main].  [no_filter] and [include_controlled_load] are the
    two command line switches; [isatty] tells whether the standard input
    is a terminal, and [answer] is the line the user types when asked
    about a controlled load circuit, nothing at the end of the input,
    where [input] raises [EOFError] and the run ends ([None]). *)
Definition main_step3b (no_filter include_controlled_load isatty : bool)
    (answer : option string) (all_raw_plans : list pyval)
  : option (result (list pyval)) :=
  if no_filter then Some (Ok all_raw_plans)
  else
    let asked := negb include_controlled_load && isatty in
    match (if asked then answer else Some "") with
    | None => None
    | Some line =>
        let include_controlled_load :=
          if asked && answers_yes line then true
          else include_controlled_load in
        Some (r <- filter_plans all_raw_plans include_controlled_load false;;
              Ok (fst r))
    end.

(* ===================================================================== *)
(** ** The calculator sheet: the row of a plan *)
(* ===================================================================== *)

(** The floats [0.5], [0.6], [0.4], [0.75], [0.25], [0.3], [0.7], [0.1],
    [0.9], [1.0] and [30.44]. *)
Definition float_0_5 : pyfloat := PyFloat false [Dg5] 0.
Definition float_0_6 : pyfloat := PyFloat false [Dg6] 0.
Definition float_0_4 : pyfloat := PyFloat false [Dg4] 0.
Definition float_0_75 : pyfloat := PyFloat false [Dg7; Dg5] 0.
Definition float_0_25 : pyfloat := PyFloat false [Dg2; Dg5] 0.
Definition float_0_3 : pyfloat := PyFloat false [Dg3] 0.
Definition float_0_7 : pyfloat := PyFloat false [Dg7] 0.
Definition float_0_1 : pyfloat := PyFloat false [Dg1] 0.
Definition float_0_9 : pyfloat := PyFloat false [Dg9] 0.
Definition float_1 : pyfloat := PyFloat false [Dg1] 1.
Definition float_30_44 : pyfloat := PyFloat false [Dg3; Dg0; Dg4; Dg4] 2.

(** [USAGE_PROFILES]: the name of a profile with its [peak_pct] and its
    [offpeak_pct]. *)
Definition USAGE_PROFILES : list (string * (pyfloat * pyfloat)) :=
  [("Flat Usage", (float_0_5, float_0_5));
   ("Slight Peak", (float_0_6, float_0_4));
   ("Heavy Peak", (float_0_75, float_0_25));
   ("Off-Peak Heavy", (float_0_3, float_0_7));
   ("Battery Optimised", (float_0_1, float_0_9))].

(** The columns of the comparison table that hold a number or a formula,
    and what a formula can refer to: the inputs [$B$4] (daily usage),
    [$B$5] (daily solar export) and [$B$8] (controlled load usage), and
    the cells of the plan's own row. *)
Inductive calc_col :=
| ColumnE | ColumnF | ColumnG | ColumnH | ColumnI | ColumnJ | ColumnL
| ColumnM | ColumnN | ColumnO | ColumnP | ColumnQ | ColumnR | ColumnS
| ColumnT.

Inductive calc_ref := InputB4 | InputB5 | InputB8 | Own (c : calc_col).

(** The formulas of the table.  [KIfB6 name a b] is
    [IF($B$6="name",a,b)], [KIfB7] the same on [$B$7]. *)
Inductive calc_formula :=
| KRef (r : calc_ref)
| KNum (n : pynum)
| KAdd (a b : calc_formula)
| KSub (a b : calc_formula)
| KMul (a b : calc_formula)
| KDiv (a b : calc_formula)
| KMin (a b : calc_formula)
| KMax (a b : calc_formula)
| KIfB6 (name : string) (a b : calc_formula)
| KIfB7 (text : string) (a b : calc_formula).

(** What the loop writes into a cell: a value, or a formula. *)
Inductive content := Static (v : pyval) | Computed (f : calc_formula).

(** The nested [IF]s over the profiles, the first profile outermost, with
    the fallback [0.5]. *)
Definition share_formula (pct : pyfloat * pyfloat -> pyfloat)
  : calc_formula :=
  fold_right (fun profile inner =>
                KIfB6 (fst profile) (KNum (PFloat (pct (snd profile)))) inner)
             (KNum (PFloat float_0_5)) USAGE_PROFILES.

Definition peak_formula_inner : calc_formula := share_formula fst.
Definition offpeak_formula_inner : calc_formula := share_formula snd.

(** The formula of column [Q] among the formulas of the table. *)
Fixpoint calc_of_formula (f : formula) : calc_formula :=
  match f with
  | FCell B5 => KRef InputB5
  | FCell ColI => KRef (Own ColumnI)
  | FCell ColJ => KRef (Own ColumnJ)
  | FNum n => KNum n
  | FMin a b => KMin (calc_of_formula a) (calc_of_formula b)
  | FMax a b => KMax (calc_of_formula a) (calc_of_formula b)
  | FMul a b => KMul (calc_of_formula a) (calc_of_formula b)
  | FAdd a b => KAdd (calc_of_formula a) (calc_of_formula b)
  | FSub a b => KSub (calc_of_formula a) (calc_of_formula b)
  end.

(** [plan.get(name) or 0]. *)
Definition get_or_0 (plan : pyval) (name : string) : result pyval :=
  v <- py_get plan name VNone;; Ok (py_or v (VNum (PInt 0))).

(** The cells of columns [E] to [T] of the row of a plan, from the values
    the loop body has read from the plan. *)
Definition row_cells (is_tou : bool)
    (supply usage_rate peak_rate offpeak_rate cl_rate cl_supply : pyval)
    (solar : solar_cells) (c : calc_col) : content :=
  match c with
  | ColumnE => Static supply
  | ColumnF => Static (if is_tou then VStr "" else usage_rate)
  | ColumnG => Static (if is_tou then peak_rate else VStr "")
  | ColumnH => Static (if is_tou then offpeak_rate else VStr "")
  | ColumnI => Static (VNum (cell_I solar))
  | ColumnJ => Static (VNum (cell_J solar))
  | ColumnL => Static cl_rate
  | ColumnM => Static cl_supply
  | ColumnN => if is_tou then Computed peak_formula_inner
               else Static (VNum (PFloat float_1))
  | ColumnO => if is_tou then Computed offpeak_formula_inner
               else Static (VNum (PFloat float_zero))
  | ColumnP =>
      Computed
        (if is_tou
         then KMul (KRef InputB4)
                   (KAdd (KMul (KRef (Own ColumnN)) (KRef (Own ColumnG)))
                         (KMul (KRef (Own ColumnO)) (KRef (Own ColumnH))))
         else KMul (KRef InputB4) (KRef (Own ColumnF)))
  | ColumnQ => Computed (calc_of_formula (cell_Q solar))
  | ColumnR =>
      Computed (KIfB7 "Yes"
                  (KAdd (KMul (KRef InputB8) (KRef (Own ColumnL)))
                        (KRef (Own ColumnM)))
                  (KNum (PInt 0)))
  | ColumnS =>
      Computed (KAdd (KSub (KAdd (KRef (Own ColumnE)) (KRef (Own ColumnP)))
                           (KRef (Own ColumnQ)))
                     (KRef (Own ColumnR)))
  | ColumnT =>
      Computed (KDiv (KMul (KRef (Own ColumnS)) (KNum (PFloat float_30_44)))
                     (KNum (PInt 100)))
  end.

(** The body of the loop of [_write_calculator_sheet] for one plan. *)
Definition calculator_row (plan : pyval) : result (calc_col -> content) :=
  pm <- py_get plan "Pricing Model" VNone;;
  let is_tou := py_eq_str pm "TOU" in
  supply <- get_or_0 plan "Supply Charge (c/day)";;
  usage_rate <- get_or_0 plan "Usage Rate Max (c/kWh)";;
  peak_rate <- get_or_0 plan "Peak Rate (c/kWh)";;
  offpeak_rate <- get_or_0 plan "Off-Peak Rate (c/kWh)";;
  cl_rate <- get_or_0 plan "CL Rate (c/kWh)";;
  cl_supply <- get_or_0 plan "CL Supply (c/day)";;
  solar <- calculator_solar_cells plan;;
  Ok (row_cells is_tou supply usage_rate peak_rate offpeak_rate cl_rate
                cl_supply solar).

(** The inputs of the calculator: the numbers in [B4], [B5] and [B8], the
    profile name in [B6] and the text in [B7]. *)
Record calc_inputs := CalcInputs {
  input_B4 : Q;
  input_B5 : Q;
  input_B6 : string;
  input_B7 : string;
  input_B8 : Q
}.

Definition lift2 (op : Q -> Q -> Q) (a b : option Q) : option Q :=
  match a, b with
  | Some x, Some y => Some (op x y)
  | _, _ => None
  end.

(** The value the spreadsheet shows for a formula of the row, arithmetic
    taken exact: nothing ([None]) when the formula meets a cell that holds
    no number or divides by zero.  [text_eq] is the spreadsheet's
    comparison of two texts; an [IF] evaluates the branch it takes.
    [fuel] bounds the chain of references followed; the longest chain of
    the table has four links. *)
Fixpoint calc_value (fuel : nat) (text_eq : string -> string -> bool)
    (inp : calc_inputs) (row : calc_col -> content) (f : calc_formula)
  : option Q :=
  match fuel with
  | O => None
  | S fuel' =>
      (fix value (f : calc_formula) : option Q :=
         match f with
         | KRef InputB4 => Some (input_B4 inp)
         | KRef InputB5 => Some (input_B5 inp)
         | KRef InputB8 => Some (input_B8 inp)
         | KRef (Own c) =>
             match row c with
             | Static (VNum n) => Some (num_to_Q n)
             | Static _ => None
             | Computed g => calc_value fuel' text_eq inp row g
             end
         | KNum n => Some (num_to_Q n)
         | KAdd a b => lift2 Qplus (value a) (value b)
         | KSub a b => lift2 Qminus (value a) (value b)
         | KMul a b => lift2 Qmult (value a) (value b)
         | KDiv a b =>
             match value b with
             | Some y => if Qeq_bool y 0 then None
                         else lift2 Qdiv (value a) (Some y)
             | None => None
             end
         | KMin a b => lift2 Qmin (value a) (value b)
         | KMax a b => lift2 Qmax (value a) (value b)
         | KIfB6 name a b =>
             if text_eq (input_B6 inp) name then value a else value b
         | KIfB7 text a b =>
             if text_eq (input_B7 inp) text then value a else value b
         end) f
  end.

(** The value of a column of the row. *)
Definition column_value (text_eq : string -> string -> bool)
    (inp : calc_inputs) (row : calc_col -> content) (c : calc_col)
  : option Q :=
  calc_value 5 text_eq inp row (KRef (Own c)).

(* ===================================================================== *)
(** * Vocabulary of the properties, and example inputs *)
(* ===================================================================== *)

(* --------------------------------------------------------------------- *)
(** ** Plan batches and malformed plans *)

Definition stats_add (s c : filter_stats) : filter_stats :=
  FilterStats (total s) (demand_filtered s + demand_filtered c)
              (controlled_load_filtered s + controlled_load_filtered c)
              (kept s).

Definition stats_zero : filter_stats := FilterStats 0 0 0 0.

(** The gates of a plan can be evaluated. *)
Definition gates_defined (plan : pyval) : Prop :=
  (exists b, plan_has_demand_charge plan = Ok b)
  /\ (exists b, plan_has_controlled_load plan = Ok b).

(** A plan with a demand charge and a controlled load, and a plain one. *)
Definition plan_both_gates : pyval :=
  VDict [("planData", VDict [
    ("planName", VStr "Demand Saver");
    ("contract", VList [VDict [
       ("tariffPeriod",
          VList [VDict [("demandCharge", VList [VDict []])]]);
       ("controlledLoad", VList [VDict []])]])])].

Definition plan_plain : pyval :=
  VDict [("planData", VDict [
    ("planName", VStr "Everyday");
    ("contract", VList [VDict [("tariffPeriod", VList [VDict []])]])])].

(** The plan is a dict without the key ["planData"]. *)
Definition lacks_plan_data (plan : pyval) : bool :=
  match plan with
  | VDict kvs =>
      match lookup "planData" kvs with None => true | Some _ => false end
  | _ => false
  end.

(** The plan's [planData] is a dict without the key ["contract"]. *)
Definition lacks_contract_list (plan : pyval) : bool :=
  match plan with
  | VDict kvs =>
      match lookup "planData" kvs with
      | Some (VDict pd) =>
          match lookup "contract" pd with None => true | Some _ => false end
      | _ => false
      end
  | _ => false
  end.

(** The plan's contract list is empty. *)
Definition has_empty_contract_list (plan : pyval) : bool :=
  match plan with
  | VDict kvs =>
      match lookup "planData" kvs with
      | Some (VDict pd) =>
          match lookup "contract" pd with
          | Some (VList []) => true
          | _ => false
          end
      | _ => false
      end
  | _ => false
  end.

Definition malformed_plan (plan : pyval) : bool :=
  lacks_plan_data plan || lacks_contract_list plan
  || has_empty_contract_list plan.

(** The name the handler of step 4 prints for a plan. *)
Definition display_name (plan : pyval) : pyval :=
  match plan with
  | VDict kvs =>
      match lookup "planData" kvs with
      | Some (VDict pd) =>
          match lookup "planName" pd with
          | Some v => v
          | None => VStr "Unknown"
          end
      | _ => VStr "Unknown"
      end
  | _ => VStr "Unknown"
  end.

(* --------------------------------------------------------------------- *)
(** ** Display columns and plans for examples *)

(** An instance of [DisplayColumns] that relays the raw fields. *)
#[export] Instance raw_display : DisplayColumns :=
  {| build_plan_url := fun plan_id postcode => VList [plan_id; VStr postcode];
     extract_contract_term := fun c => py_get c "termType" (VStr "");
     extract_benefit_period := fun c => py_get c "benefitPeriod" (VStr "");
     extract_controlled_load := fun c => py_get c "controlledLoad" (VList []);
     extract_discounts := fun c => py_get c "discount" (VList []);
     extract_fees := fun c => py_get c "fee" (VList []);
     extract_payment_options := fun c => py_get c "paymentOption" (VList []);
     extract_meter_types := fun c => py_get c "meterType" (VList []) |}.

(** A plan without [planData], and one whose contract list is empty. *)
Definition plan_without_data : pyval :=
  VDict [("planId", VStr "AGL123"); ("_distributor_name", VStr "Ausgrid")].

Definition plan_without_contract : pyval :=
  VDict [("planData", VDict [("planName", VStr "Saver");
                             ("contract", VList [])])].

(* --------------------------------------------------------------------- *)
(** ** Distributor probes *)

(** No distributor of [ds] has a positive probed plan count: every probe
    returned [0] or the error value [-1]. *)
Definition none_available (w : world) (ds : list distributor) : Prop :=
  Forall (fun d => probe_distributor_plans w (dist_id d) <= 0) ds.

(** A boundary postcode with two distributors whose probes both find no
    plan. *)
Definition world_no_plans : world :=
  World [Distributor "13" "Endeavour Energy" None;
         Distributor "7" "Essential Energy" None]
        (fun _ => 0) [].

(* --------------------------------------------------------------------- *)
(** ** Government and retailer feed-in entries *)

(** A government (legacy scheme) feed-in entry: a dict with [type = "G"]. *)
Definition is_government_fit (fit : pyval) : bool :=
  match fit with
  | VDict kvs =>
      match lookup "type" kvs with
      | Some ty => py_eq_str ty "G"
      | None => false
      end
  | _ => false
  end.

Definition retailer_fits (fits : list pyval) : list pyval :=
  filter (fun fit => negb (is_government_fit fit)) fits.

(** The decimal [44.0]. *)
Definition float_44 : pyfloat := PyFloat false [Dg4; Dg4] 2.

(** A contract whose only feed-in entry is a government one at 44.0. *)
Definition contract_government_only : list (string * pyval) :=
  [("pricingModel", VStr "SR");
   ("solarFit", VList [VDict [("type", VStr "G");
                              ("rate", VNum (PFloat float_44))]])].

(* --------------------------------------------------------------------- *)
(** ** Prices of the raw data *)

(** The ex-GST unit prices [rs] of the block rates [brs]. *)
Definition unit_prices (brs : list pyval) (rs : list pynum) : Prop :=
  Forall2 (fun br r => py_getitem br "unitPrice" = Ok (VNum r)) brs rs.

(** The ex-GST usage prices of a contract in the raw data: the unit prices
    of the block rates of its first tariff period, or for a time-of-use
    contract those of all its time-of-use blocks, in order. *)
Inductive usage_prices (contract : pyval) : list pynum -> Prop :=
| usage_single_rate tp more pm brs rs :
    py_get contract "tariffPeriod" (VList []) = Ok (VList (tp :: more)) ->
    py_get contract "pricingModel" (VStr "SR") = Ok pm ->
    py_eq_str pm "TOU" = false ->
    py_get tp "blockRate" (VList []) = Ok (VList brs) ->
    unit_prices brs rs ->
    usage_prices contract rs
| usage_time_of_use tp more pm blocks rss :
    py_get contract "tariffPeriod" (VList []) = Ok (VList (tp :: more)) ->
    py_get contract "pricingModel" (VStr "SR") = Ok pm ->
    py_eq_str pm "TOU" = true ->
    py_get tp "touBlock" (VList []) = Ok (VList blocks) ->
    Forall2 (fun block rs =>
               exists brs,
                 py_get block "blockRate" (VList []) = Ok (VList brs)
                 /\ unit_prices brs rs) blocks rss ->
    usage_prices contract (List.concat rss).

(** The ex-GST daily supply charge of a contract in the raw data. *)
Definition supply_price (contract : pyval) (r : pynum) : Prop :=
  exists tp more,
    py_get contract "tariffPeriod" (VList []) = Ok (VList (tp :: more))
    /\ py_get tp "dailySupplyCharge" VNone = Ok (VNum r).

(** The feed-in rates of one entry in the raw data: none for a government
    entry, the flat [rate], or the unit prices of its tiers. *)
Inductive fit_raw_rates (fit : pyval) : list pyval -> Prop :=
| raw_government ty :
    py_get fit "type" VNone = Ok ty -> py_eq_str ty "G" = true ->
    fit_raw_rates fit []
| raw_flat ty r :
    py_get fit "type" VNone = Ok ty -> py_eq_str ty "G" = false ->
    py_get fit "rate" VNone = Ok (VNum r) ->
    fit_raw_rates fit [VNum r]
| raw_tiers ty srs ps :
    py_get fit "type" VNone = Ok ty -> py_eq_str ty "G" = false ->
    py_get fit "rate" VNone = Ok VNone ->
    py_get fit "singleTariffRates" (VList []) = Ok (VList srs) ->
    Forall2 (fun sr p => py_get sr "unitPrice" (VNum (PInt 0)) = Ok (VNum p))
            srs ps ->
    fit_raw_rates fit (map VNum ps).

(** [v > 0] for a value that is a number. *)
Definition positive (v : pyval) : bool :=
  match as_num v with
  | Some n => num_pos n
  | None => false
  end.

Definition is_number (v : pyval) : Prop := exists n, v = VNum n.

Section IncGst.
Context {ops : FloatOps}.

(** [round(r * 1.1, 2)]. *)
Definition inc_gst (r : pynum) : pyfloat :=
  round2 (fmul (to_float r) GST_MULTIPLIER).

End IncGst.

(** The decimals [90.0], [99.0], [25.0], [27.5], [20.0], [22.0], [35.0],
    [38.5], [7.0]. *)
Definition float_90 : pyfloat := PyFloat false [Dg9] 2.
Definition float_99 : pyfloat := PyFloat false [Dg9; Dg9] 2.
Definition float_25 : pyfloat := PyFloat false [Dg2; Dg5] 2.
Definition float_27_5 : pyfloat := PyFloat false [Dg2; Dg7; Dg5] 2.
Definition float_20 : pyfloat := PyFloat false [Dg2] 2.
Definition float_22 : pyfloat := PyFloat false [Dg2; Dg2] 2.
Definition float_35 : pyfloat := PyFloat false [Dg3; Dg5] 2.
Definition float_38_5 : pyfloat := PyFloat false [Dg3; Dg8; Dg5] 2.
Definition float_7 : pyfloat := PyFloat false [Dg7] 1.

(** A single-rate contract: supply 90.0 and one usage block at 25.0, both
    ex-GST, and a flat retailer feed-in rate of 7.0. *)
Definition contract_single_rate : pyval :=
  VDict [("pricingModel", VStr "SR");
         ("tariffPeriod", VList [VDict [
            ("dailySupplyCharge", VNum (PFloat float_90));
            ("blockRate", VList [VDict [("unitPrice", VNum (PFloat float_25))]])
          ]]);
         ("solarFit", VList [VDict [("type", VStr "R");
                                    ("rate", VNum (PFloat float_7))]])].

(** A time-of-use contract with two blocks at 20.0 and 35.0 ex-GST. *)
Definition contract_time_of_use : pyval :=
  VDict [("pricingModel", VStr "TOU");
         ("tariffPeriod", VList [VDict [
            ("dailySupplyCharge", VNum (PFloat float_90));
            ("touBlock", VList [
               VDict [("blockRate",
                       VList [VDict [("unitPrice", VNum (PFloat float_20))]])];
               VDict [("blockRate",
                       VList [VDict [("unitPrice", VNum (PFloat float_35))]])]
             ])
          ]])].

(* --------------------------------------------------------------------- *)
(** ** Flat feed-in rates *)

(** The feed-in entries [fits] are government entries and retailer entries
    that carry just a flat positive [rate] and no tier; [rs] are the flat
    rates, in order. *)
Inductive flat_fits : list pyval -> list pynum -> Prop :=
| flat_nil : flat_fits [] []
| flat_government fit ty fits rs :
    py_get fit "type" VNone = Ok ty -> py_eq_str ty "G" = true ->
    flat_fits fits rs ->
    flat_fits (fit :: fits) rs
| flat_retailer fit ty r fits rs :
    py_get fit "type" VNone = Ok ty -> py_eq_str ty "G" = false ->
    py_get fit "rate" VNone = Ok (VNum r) -> num_pos r = true ->
    py_get fit "singleTariffRates" (VList []) = Ok (VList []) ->
    flat_fits fits rs ->
    flat_fits (fit :: fits) (r :: rs).

(* --------------------------------------------------------------------- *)
(** ** Order of numbers *)

(** [a] is not above [b]. *)
Definition num_le (a b : pynum) : Prop := num_ltb b a = false.

(* --------------------------------------------------------------------- *)
(** ** Contracts and rows for examples *)

(** The decimal [0.004]. *)
Definition float_0_004 : pyfloat := PyFloat false [Dg4] (-2).

(** A contract whose only feed-in entry is a retailer entry with the flat
    rate 0.004 and no tier. *)
Definition contract_flat_fit_small : pyval :=
  VDict [("solarFit", VList [VDict [("type", VStr "R");
                                    ("rate", VNum (PFloat float_0_004))]])].

(** A plan whose primary contract has one flat retailer feed-in rate. *)
Definition plan_flat_fit : pyval :=
  VDict [("planData", VDict [
    ("planId", VStr "ORI1");
    ("planName", VStr "Solar Boost");
    ("fuelType", VStr "E");
    ("contract", VList [contract_single_rate])])].

(** A row, as far as the calculator reads its solar columns. *)
Definition row_with_details (details : string) : pyval :=
  VDict [("Solar FIT Details", VStr details)].

Definition float_10 : pyfloat := PyFloat false [Dg1] 2.
Definition float_8 : pyfloat := PyFloat false [Dg8] 1.
Definition float_3 : pyfloat := PyFloat false [Dg3] 1.

(** A contract whose retailer offers 10 c/kWh for the first 8 kWh a day and
    nothing beyond: the remainder tier has the price 0. *)
Definition contract_capped_only : pyval :=
  VDict [("solarFit", VList [VDict [
    ("type", VStr "R");
    ("singleTariffRates", VList [
       VDict [("unitPrice", VNum (PInt 10)); ("volume", VNum (PInt 8))];
       VDict [("unitPrice", VNum (PInt 0))]])]])].

(* --------------------------------------------------------------------- *)
(** ** Predicates on strings *)

Fixpoint str_forall (p : ascii -> bool) (s : string) : bool :=
  match s with
  | EmptyString => true
  | String c s' => p c && str_forall p s'
  end.

(** The first character of [s], if any, satisfies [p]. *)
Definition head_ok (p : ascii -> bool) (s : string) : bool :=
  match s with
  | EmptyString => true
  | String c _ => p c
  end.

Definition not_semi (c : ascii) : bool := negb (Ascii.eqb c ";").

(* --------------------------------------------------------------------- *)
(** ** Clauses of a feed-in description *)

(** A clause of a description: a rate, or a rate with a volume cap; both
    are written as numerals. *)
Inductive clause := Flat (rate : string) | Capped (rate volume : string).

(** ["<rate>c/kWh"] and ["<rate>c/kWh (first <cap>kWh/day)"]. *)
Definition render (c : clause) : string :=
  match c with
  | Flat r => r ^^ "c/kWh"
  | Capped r v => r ^^ "c/kWh (first " ^^ v ^^ "kWh/day)"
  end.

(** [s] is a numeral that reads as the float [f]: a non-empty string of
    digits and dots that [float] accepts. *)
Definition numeral (s : string) (f : pyfloat) : Prop :=
  s <> "" /\ str_forall is_digit_dot s = true /\ py_float s = Ok f.

(** The tier a clause stands for. *)
Inductive clause_tier : clause -> tier -> Prop :=
| flat_tier r rate :
    numeral r rate -> clause_tier (Flat r) (rate, float_zero)
| capped_tier r v rate volume :
    numeral r rate -> numeral v volume ->
    clause_tier (Capped r v) (rate, volume).

(* --------------------------------------------------------------------- *)
(** ** Order of tiers *)

(** A tier without a cap: its volume is [0.0]. *)
Definition uncapped (t : tier) : bool := float_is_zero (snd t).

(** [a] may stand before [b] in the parsed list: [b] is uncapped, or both
    are capped and the cap of [a] is not below the cap of [b]. *)
Definition before (a b : tier) : Prop :=
  uncapped b = true
  \/ (uncapped a = false /\ uncapped b = false
      /\ float_ltb (snd a) (snd b) = false).

(** The cap of a tier is not negative. *)
Definition nonneg_cap (t : tier) : Prop := fneg (snd t) = false.



(* --------------------------------------------------------------------- *)
(** ** Clauses for examples *)



(* --------------------------------------------------------------------- *)
(** ** Plain numbers *)

(** Digits as [repr] gives them: at least one, no leading zero, no trailing
    zero. *)
Definition canonical_digits (ds : list digit) : Prop :=
  ds <> [] /\ strip_leading ds = (ds, 0%nat) /\ strip_trailing ds = ds.

(** A positive float that prints in positional notation. *)
Definition plain_float (f : pyfloat) : Prop :=
  fneg f = false /\ canonical_digits (fdigits f) /\ -4 < fpt f <= 16.

(** A positive number whose text is plain digits with at most one dot, and
    which [float] reads back as the same number: a float in positional
    notation, or an [int] up to [2 ^ 53]. *)
Definition plain_number (n : pynum) : Prop :=
  match n with
  | PInt z => 0 < z <= 2 ^ 53
  | PFloat f => plain_float f
  end.

(* --------------------------------------------------------------------- *)
(** ** Tiers of the raw data *)

(** A tier of the raw data: unit price and volume of one
    [singleTariffRates] entry, each [0] when the key is absent. *)
Definition raw_tier : Type := (pynum * pynum)%type.

Definition tier_entry (sr : pyval) (e : raw_tier) : Prop :=
  py_get sr "unitPrice" (VNum (PInt 0)) = Ok (VNum (fst e))
  /\ py_get sr "volume" (VNum (PInt 0)) = Ok (VNum (snd e)).

(** The tiers of the retailer entries of a [solarFit] list, in order. *)
Inductive fit_tier_entries : list pyval -> list raw_tier -> Prop :=
| tiers_nil : fit_tier_entries [] []
| tiers_government fit ty fits es :
    py_get fit "type" VNone = Ok ty -> py_eq_str ty "G" = true ->
    fit_tier_entries fits es ->
    fit_tier_entries (fit :: fits) es
| tiers_retailer fit ty srs es1 fits es :
    py_get fit "type" VNone = Ok ty -> py_eq_str ty "G" = false ->
    py_get fit "singleTariffRates" (VList []) = Ok (VList srs) ->
    Forall2 tier_entry srs es1 ->
    fit_tier_entries fits es ->
    fit_tier_entries (fit :: fits) (es1 ++ es).

(** The tiers the formatter writes: those with a price above zero. *)
Definition formatted_tiers (es : list raw_tier) : list raw_tier :=
  filter (fun e => num_pos (fst e)) es.

(** The clause the formatter writes for a tier, and the tier it stands
    for: the volume counts as a cap only when it is above zero. *)
Definition clause_of (e : raw_tier) : clause :=
  if num_pos (snd e)
  then Capped (num_str (fst e)) (num_str (snd e))
  else Flat (num_str (fst e)).

Definition tier_of (e : raw_tier) : tier :=
  (to_float (fst e),
   if num_pos (snd e) then to_float (snd e) else float_zero).

(** Price and cap print as plain numbers. *)
Definition plain_tier (e : raw_tier) : Prop :=
  plain_number (fst e) /\ (num_pos (snd e) = true -> plain_number (snd e)).

(** The decimal [1e-05]. *)
Definition float_1e_5 : pyfloat := PyFloat false [Dg1] (-4).

(** A contract with one retailer tier at 1e-05 c/kWh, as [json.loads] reads
    the number 0.00001. *)
Definition contract_tiny_tier : pyval :=
  VDict [("solarFit", VList [VDict [
    ("type", VStr "R");
    ("singleTariffRates",
       VList [VDict [("unitPrice", VNum (PFloat float_1e_5))]])]])].

(** A contract with the tiers 3.0 (no volume) and 10 for the first 8.0
    kWh, after a government entry. *)
Definition contract_two_tiers : pyval :=
  VDict [("solarFit", VList [
    VDict [("type", VStr "G"); ("rate", VNum (PFloat float_44))];
    VDict [("type", VStr "R");
           ("singleTariffRates", VList [
              VDict [("unitPrice", VNum (PFloat float_3))];
              VDict [("unitPrice", VNum (PInt 10));
                     ("volume", VNum (PFloat float_8))]])]])].

(* --------------------------------------------------------------------- *)
(** ** The gates of the filter *)

(** The value of a gate that could be evaluated. *)
Definition gate_fires (r : result bool) : bool :=
  match r with Ok b => b | Raise _ => false end.

(** The demand gate removes the plan: the gate is active and the plan has a
    demand charge. *)
Definition removed_for_demand (include_demand : bool) (plan : pyval) : bool :=
  negb include_demand && gate_fires (plan_has_demand_charge plan).

(** The controlled load gate removes the plan: the demand gate let it pass,
    the gate is active and the plan has a controlled load. *)
Definition removed_for_controlled_load
    (include_controlled_load include_demand : bool) (plan : pyval) : bool :=
  negb (removed_for_demand include_demand plan)
  && negb include_controlled_load
  && gate_fires (plan_has_controlled_load plan).

Definition passes_gates (include_controlled_load include_demand : bool)
    (plan : pyval) : bool :=
  negb (removed_for_demand include_demand plan)
  && negb (removed_for_controlled_load include_controlled_load include_demand
             plan).

(* --------------------------------------------------------------------- *)
(** ** Tiers of any description *)

(** Neither the rate nor the cap of a tier is negative. *)
Definition nonneg_tier (t : tier) : Prop :=
  fneg (fst t) = false /\ fneg (snd t) = false.

(** A description with text around its two tiers. *)
Definition row_with_noise : pyval :=
  row_with_details
    "from 1 July; 3c/kWh thereafter;  10c/kWh (first 8kWh/day) approx; n/a".

(* --------------------------------------------------------------------- *)
(** ** Probed distributors and choices at the prompt *)

(** [d'] is the discovered distributor [d] with the probed plan count
    recorded in it. *)
Definition probed (w : world) (d d' : distributor) : Prop :=
  dist_id d' = dist_id d /\ dist_name d' = dist_name d
  /\ plan_count d' = Some (probe_distributor_plans w (dist_id d))
  /\ 0 < probe_distributor_plans w (dist_id d).

(** The distributor has plans: its probed plan count is above zero. *)
Definition has_plans (w : world) (d : distributor) : bool :=
  0 <? probe_distributor_plans w (dist_id d).

(** A choice the prompt accepts for a menu of [n] entries: the letter A or
    a number from 1 to [n]. *)
Definition valid_choice (n : nat) (c : choice) : bool :=
  match c with
  | ChooseAll => true
  | ChooseNumber k => (1 <=? k) && (k <=? Z.of_nat n)
  | ChooseOther => false
  end.

(** A boundary postcode with three distributors, two of them with plans,
    and a user who types a word, then 7, then 2. *)
Definition world_three : world :=
  World [Distributor "13" "Endeavour Energy" None;
         Distributor "5" "Ausgrid" None;
         Distributor "7" "Essential Energy" None]
        (fun id => if String.eqb id "13" then 1176
                   else if String.eqb id "7" then 998 else 0)
        [ChooseOther; ChooseNumber 7; ChooseNumber 2; ChooseAll].

(* --------------------------------------------------------------------- *)
(** ** The order of values *)

(** [a] is not above [b]: [b < a] is false. *)
Definition py_le (a b : pyval) : Prop := py_lt b a = Ok false.

(** Two elements whose keys are in order. *)
Definition keys_in_order {A} (key : A -> result pyval) (a b : A) : Prop :=
  exists ka kb, key a = Ok ka /\ key b = Ok kb /\ py_le ka kb.

(** A value that counts as a number: a number or a [bool]. *)
Definition numeric (v : pyval) : Prop := exists n, as_num v = Some n.

(* --------------------------------------------------------------------- *)
(** ** Display text *)

(** The readable name of a meter type. *)
Definition meter_name (m : string) : string :=
  match lookup_text m Display.meter_map with Some v => v | None => m end.

(** A contract with meter types that repeat, one of them under the name the
    table gives another. *)
Definition contract_meters : pyval :=
  VDict [("meterType",
          VList [VStr "Type 4"; VStr "Type 6"; VStr "Smart Meter";
                 VStr "Type 6"; VStr "Type 7"])].

(** A contract with an unknown term code and nothing else. *)
Definition contract_term_5 : pyval := VDict [("termType", VStr "5")].

(* --------------------------------------------------------------------- *)
(** ** Supply areas and distributor entries *)

(** The supply areas of a meta response, in the order the loops visit
    them. *)
Definition all_supply_areas (data : pyval) : result (list pyval) :=
  d <- py_get data "data" (VList []);;
  items <- py_iter d;;
  per_item <- mapM Api.supply_areas items;;
  Ok (List.concat per_item).

(** The distributor entry made from the supply area [sa]. *)
Definition entry_of (sa d : pyval) : Prop :=
  exists id name,
    py_getitem sa "id" = Ok id /\ py_getitem sa "name" = Ok name
    /\ d = VDict [("id", id); ("name", name)].

(** [d] is an entry for the id of the supply area [sa]. *)
Definition entry_for (sa d : pyval) : Prop :=
  exists i j,
    py_getitem sa "id" = Ok i /\ py_getitem d "id" = Ok j
    /\ py_eq i j = true.

(** Entries with equal ids are one entry. *)
Definition one_entry_per_id (ds : list pyval) : Prop :=
  forall a b i j,
    In a ds -> In b ds ->
    py_getitem a "id" = Ok i -> py_getitem b "id" = Ok j ->
    py_eq i j = true -> a = b.

(** A meta response that names Endeavour Energy twice, the second time
    under another name, and Ausgrid after it. *)
Definition meta_response : pyval :=
  VDict [("data", VList [
    VDict [("planData", VDict [("supplyArea", VList [
      VDict [("id", VStr "13"); ("name", VStr "Endeavour Energy")];
      VDict [("id", VStr "5"); ("name", VStr "Ausgrid")]])])];
    VDict [("planData", VDict [("supplyArea", VList [
      VDict [("id", VStr "13"); ("name", VStr "Endeavour")]])])]])].

(** What the loops keep true of [(seen, distributors)] once the supply
    areas [done] have been visited. *)
Definition dedup_state (done : list pyval) (st : list pyval * list pyval)
  : Prop :=
  Forall (fun d => exists sa, In sa done /\ entry_of sa d) (snd st)
  /\ Forall (fun sa => exists i,
                 py_getitem sa "id" = Ok i
                 /\ existsb (py_eq i) (fst st) = true) done
  /\ Forall (fun d => exists i,
                 py_getitem d "id" = Ok i /\ In i (fst st)) (snd st)
  /\ (forall i, In i (fst st) ->
        exists d, In d (snd st) /\ py_getitem d "id" = Ok i)
  /\ NoDup (snd st)
  /\ one_entry_per_id (snd st).

(* --------------------------------------------------------------------- *)
(** ** Columns of a row *)

(** The keys of the [row] dict of [process_plan], in order. *)
Definition row_columns : list string :=
  ["Plan ID"; "Plan Name"; "Retailer"; "Distributor"; "Plan URL";
   "Tariff Type"; "Pricing Model"; "Contract Term"; "Benefit Period";
   "Supply Charge (c/day)"; "Usage Rate Min (c/kWh)";
   "Usage Rate Max (c/kWh)"; "Peak Rate (c/kWh)"; "Off-Peak Rate (c/kWh)";
   "Solar FIT Min (c/kWh)"; "Solar FIT Max (c/kWh)"; "Solar FIT Details";
   "Controlled Load"; "CL Rate (c/kWh)"; "CL Supply (c/day)"; "Discounts";
   "Fees"; "Payment Options"; "Meter Types"; "Est. Cost/Year (Low Usage)";
   "Est. Cost/Year (Medium Usage)"; "Est. Cost/Year (High Usage)";
   "Est. Cost/Year (Low, No Disc.)"; "Est. Cost/Year (Medium, No Disc.)";
   "Est. Cost/Year (High, No Disc.)"].

(** The groups that list a column. *)
Definition groups_of (col_name : string) : list string :=
  map fst (filter (fun g => str_in col_name (snd g)) COLUMN_GROUPS).

(** The column [name] of a row holds what [r] returns. *)
Definition column (kvs : list (string * pyval)) (name : string)
    (r : result pyval) : Prop :=
  exists v, r = Ok v /\ lookup name kvs = Some v.

(** A plan whose primary contract is the single-rate example contract,
    and one with a controlled load. *)
Definition plan_single_rate : pyval :=
  VDict [("planData", VDict [
    ("planId", VStr "AGL9"); ("planName", VStr "Value Saver");
    ("fuelType", VStr "E");
    ("contract", VList [contract_single_rate])])].

Definition plan_controlled_load : pyval :=
  VDict [("planData", VDict [
    ("planId", VStr "AGL10"); ("planName", VStr "Hot Water Saver");
    ("fuelType", VStr "E");
    ("contract", VList [VDict [
       ("pricingModel", VStr "SR");
       ("controlledLoad", VList [VDict [
          ("singleRate", VDict [
             ("rates", VList [VDict [("unitPrice", VNum (PFloat float_20))]])
           ])]])]])])].

(* --------------------------------------------------------------------- *)
(** ** Rows of the sheets *)

(** Rows for examples: name, pricing model, highest feed-in rate and
    estimated cost for medium usage. *)
Definition example_row (name model : string) (fit cost : pyval) : pyval :=
  VDict [("Plan Name", VStr name); ("Pricing Model", VStr model);
         ("Solar FIT Max (c/kWh)", fit);
         ("Est. Cost/Year (Medium Usage)", cost)].

Definition example_rows : list pyval :=
  [example_row "A" "SR" (VNum (PFloat float_7)) (VNum (PInt 1500));
   example_row "B" "TOU" (VNum (PFloat float_zero)) (VNum (PInt 1200));
   example_row "C" "SR" (VNum (PFloat float_10)) VNone;
   example_row "D" "" (VNum (PFloat float_7)) (VNum (PInt 1350))].

(** The cost column of a row holds a value. *)
Definition has_cost (p : pyval) : bool :=
  gate_fires (c <- py_get p "Est. Cost/Year (Medium Usage)" VNone;;
              Ok (is_not_none c)).

(** The row has a feed-in tariff: its highest rate is above zero. *)
Definition has_fit (p : pyval) : bool :=
  gate_fires (k <- solar_fit_key p;; py_gt0 k).

(** A plan whose contract names no pricing model. *)
Definition plan_unnamed_model : pyval :=
  VDict [("planData", VDict [
    ("planId", VStr "EA7"); ("planName", VStr "Basic");
    ("fuelType", VStr "E");
    ("contract", VList [VDict [
       ("tariffPeriod", VList [VDict [
          ("dailySupplyCharge", VNum (PFloat float_90));
          ("blockRate", VList [VDict [("unitPrice", VNum (PFloat float_25))]])
        ]])]])])].

(* --------------------------------------------------------------------- *)
(** ** Lines of the summary tables *)

(** The number of rows whose key equals [k]. *)
Definition rows_with (key : pyval -> result pyval) (k : pyval)
    (plans_data : list pyval) : Z :=
  Z.of_nat (List.length
              (filter (fun p => match key p with
                                | Ok r => py_eq r k
                                | Raise _ => false
                                end) plans_data)).

Fixpoint sum_counts (lines : list (pyval * Z)) : Z :=
  match lines with
  | [] => 0
  | (_, n) :: rest => n + sum_counts rest
  end.

(** All rows have the same value under [key]. *)
Definition same_key (key : pyval -> result pyval) (plans_data : list pyval)
  : Prop :=
  forall p q, In p plans_data -> In q plans_data ->
    exists kp kq, key p = Ok kp /\ key q = Ok kq /\ py_eq kp kq = true.

(** Three rows of two retailers and one distributor. *)
Definition retailer_rows : list pyval :=
  [VDict [("Retailer", VStr "Origin"); ("Distributor", VStr "Ausgrid")];
   VDict [("Retailer", VStr "AGL"); ("Distributor", VStr "Ausgrid")];
   VDict [("Retailer", VStr "Origin"); ("Distributor", VStr "Ausgrid")]].

(** Three rows of two retailers and two distributors. *)
Definition two_distributor_rows : list pyval :=
  [VDict [("Retailer", VStr "Origin"); ("Distributor", VStr "Endeavour")];
   VDict [("Retailer", VStr "AGL"); ("Distributor", VStr "Ausgrid")];
   VDict [("Retailer", VStr "Origin"); ("Distributor", VStr "Ausgrid")]].

(** The keys of a dict are pairwise different. *)
Fixpoint distinct_keys (counts : list (pyval * Z)) : Prop :=
  match counts with
  | [] => True
  | (k, _) :: rest =>
      Forall (fun line => py_eq k (fst line) = false) rest
      /\ distinct_keys rest
  end.

(** The lines account for the rows: the counts add up to the number of
    rows; every line counts the rows whose key equals its own, at least
    one; every row is counted by a line; and two lines with equal keys are
    one line. *)
Definition accounts_for (key : pyval -> result pyval)
    (plans_data : list pyval) (lines : list (pyval * Z)) : Prop :=
  sum_counts lines = Z.of_nat (List.length plans_data)
  /\ Forall (fun line =>
               snd line = rows_with key (fst line) plans_data
               /\ 0 < snd line) lines
  /\ Forall (fun p => exists r line,
                 key p = Ok r /\ In line lines
                 /\ py_eq r (fst line) = true) plans_data
  /\ NoDup lines
  /\ (forall a b, In a lines -> In b lines ->
        py_eq (fst a) (fst b) = true -> a = b).

(** What the counting loop keeps true of the dict once the rows [done]
    have been counted. *)
Definition counted (key : pyval -> result pyval) (done : list pyval)
    (counts : list (pyval * Z)) : Prop :=
  distinct_keys counts
  /\ sum_counts counts = Z.of_nat (List.length done)
  /\ Forall (fun line =>
               py_hashable (fst line) = true
               /\ snd line = rows_with key (fst line) done
               /\ 0 < snd line) counts
  /\ Forall (fun p => exists r line,
                 key p = Ok r /\ In line counts
                 /\ py_eq r (fst line) = true) done.

(* --------------------------------------------------------------------- *)
(** ** Fetched plans *)

(** [plan'] is [plan] with the name of the distributor [d] entered under
    ["_distributor_name"]. *)
Definition named_for (d : distributor) (plan plan' : pyval) : Prop :=
  py_setitem plan "_distributor_name" (VStr (dist_name d)) = Ok plan'.

(** [plan'] is [plan] named for [d], and carries the name: step 4 reads
    the name back, the primary contract and the row are those of [plan],
    and the "Distributor" column of the row is the name, or "N/A" when the
    name is empty. *)
Definition carries_name {ops : FloatOps} {disp : DisplayColumns}
    (d : distributor) (plan plan' : pyval) : Prop :=
  named_for d plan plan'
  /\ py_get plan' "_distributor_name" (VStr "N/A") = Ok (VStr (dist_name d))
  /\ primary_contract plan' = primary_contract plan
  /\ (forall postcode dn,
        process_plan plan' postcode dn = process_plan plan postcode dn)
  /\ (forall postcode row,
        process_plan plan' postcode (VStr (dist_name d)) = Ok row ->
        py_get row "Distributor" VNone
        = Ok (VStr (if String.eqb (dist_name d) "" then "N/A"
                    else dist_name d))).

(** [group] is what step 3 keeps of the request for the distributor [d]:
    nothing when the request fails, and otherwise the plans of the
    response to the request with the id of [d], in the order of the
    response, each one related to the plan of the response by [tagged]. *)
Definition fetched_group (response : string -> option pyval)
    (tagged : distributor -> pyval -> pyval -> Prop)
    (d : distributor) (group : list pyval) : Prop :=
  match response (dist_id d) with
  | None => group = []
  | Some data =>
      exists raw_plans items,
        plans_of_response data = Ok raw_plans
        /\ py_iter raw_plans = Ok items
        /\ Forall2 (tagged d) items group
  end.

(** The plans request fails for Endeavour Energy and returns the example
    plan for Ausgrid. *)
Definition two_selected : list distributor :=
  [Distributor "13" "Endeavour Energy" (Some 1176);
   Distributor "5" "Ausgrid" (Some 998)].

Definition response_ausgrid (dist_id : string) : option pyval :=
  if String.eqb dist_id "5"
  then Some (VDict [("data", VDict [("plans", VList [plan_single_rate])])])
  else None.

(* --------------------------------------------------------------------- *)
(** ** Rows of step 4 *)

(** The row step 4 appends for a plan, if any. *)
Definition row_of_plan {ops : FloatOps} {disp : DisplayColumns}
    (postcode : string) (plan : pyval) : list pyval :=
  match py_get plan "_distributor_name" (VStr "N/A") with
  | Ok dist_name =>
      match process_plan plan postcode dist_name with
      | Ok row => [row]
      | Raise _ => []
      end
  | Raise _ => []
  end.

(** A plan with a demand charge in the primary contract of the example
    plan. *)
Definition plan_demand : pyval :=
  VDict [("planData", VDict [
    ("planId", VStr "EA9"); ("planName", VStr "Demand Max");
    ("fuelType", VStr "E");
    ("contract", VList [VDict [
       ("pricingModel", VStr "SR");
       ("tariffPeriod", VList [VDict [
          ("dailySupplyCharge", VNum (PFloat float_90));
          ("demandCharge", VList [VDict []]);
          ("blockRate", VList [VDict [("unitPrice", VNum (PFloat float_25))]])
        ]])]])])].

(* --------------------------------------------------------------------- *)
(** ** Feed-in entries with tiers only *)

(** The feed-in entries [fits] are government entries and retailer entries
    that carry tiers and no flat [rate]; [es] are the tiers of the
    retailer entries, in order. *)
Inductive tiered_fits : list pyval -> list raw_tier -> Prop :=
| tiered_nil : tiered_fits [] []
| tiered_government fit ty fits es :
    py_get fit "type" VNone = Ok ty -> py_eq_str ty "G" = true ->
    tiered_fits fits es ->
    tiered_fits (fit :: fits) es
| tiered_retailer fit ty srs es1 fits es :
    py_get fit "type" VNone = Ok ty -> py_eq_str ty "G" = false ->
    py_get fit "rate" VNone = Ok VNone ->
    py_get fit "singleTariffRates" (VList []) = Ok (VList srs) ->
    Forall2 tier_entry srs es1 ->
    tiered_fits fits es ->
    tiered_fits (fit :: fits) (es1 ++ es).

(** The unit prices of tiers, as values. *)
Definition tier_prices (es : list raw_tier) : list pyval :=
  map (fun e => VNum (fst e)) es.

(* --------------------------------------------------------------------- *)
(** ** Values of the calculator *)

(** The share a profile name selects: the percentage of the first profile
    of that name, [0.5] when there is none. *)
Definition share (text_eq : string -> string -> bool) (name : string)
    (pct : pyfloat * pyfloat -> pyfloat) : Q :=
  fold_right (fun profile inner =>
                if text_eq name (fst profile)
                then float_to_Q (pct (snd profile)) else inner)
             (float_to_Q float_0_5) USAGE_PROFILES.

(** The inputs [inp] with another daily solar export. *)
Definition with_export (inp : calc_inputs) (export : Q) : calc_inputs :=
  CalcInputs (input_B4 inp) export (input_B6 inp) (input_B7 inp)
             (input_B8 inp).

(** A value that is [None] or a number. *)
Definition number_or_none (v : pyval) : Prop :=
  v = VNone \/ exists n, v = VNum n.

(** A time-of-use plan with the blocks 20.0 and 35.0 ex-GST and a
    two-tier feed-in tariff. *)
Definition plan_time_of_use : pyval :=
  VDict [("planData", VDict [
    ("planId", VStr "RED1"); ("planName", VStr "Flexi");
    ("fuelType", VStr "E");
    ("contract", VList [VDict [
       ("pricingModel", VStr "TOU");
       ("tariffPeriod", VList [VDict [
          ("dailySupplyCharge", VNum (PFloat float_90));
          ("touBlock", VList [
             VDict [("blockRate",
                     VList [VDict [("unitPrice", VNum (PFloat float_20))]])];
             VDict [("blockRate",
                     VList [VDict [("unitPrice", VNum (PFloat float_35))]])]
           ])]]);
       ("solarFit", VList [VDict [
          ("type", VStr "R");
          ("singleTariffRates", VList [
             VDict [("unitPrice", VNum (PInt 10)); ("volume", VNum (PInt 8))];
             VDict [("unitPrice", VNum (PInt 3))]])]])]])])].

(* ===================================================================== *)
(** * Properties *)
(* ===================================================================== *)

(* ===================================================================== *)
(** ** Decimal arithmetic *)
(* ===================================================================== *)

Lemma strip_leading_length (ds : list digit) :
  List.length ds = (List.length (fst (strip_leading ds)) + snd (strip_leading ds))%nat.
Proof.
  induction ds as [|d ds IH]; [reflexivity|].
  destruct d; try (simpl; lia).
  simpl. destruct (strip_leading ds) as [r n]. simpl in *. lia.
Qed.

Lemma strip_trailing_length (ds : list digit) :
  (List.length (strip_trailing ds) <= List.length ds)%nat.
Proof.
  induction ds as [|d ds IH]; [simpl; lia|].
  simpl. destruct (strip_trailing ds) as [|x r].
  - destruct (digit_is_zero d); simpl; lia.
  - simpl in *. lia.
Qed.

Lemma canon_places (neg : bool) (ds : list digit) (pt : Z) :
  decimal_places (canon neg ds pt) <= Z.max 0 (Z.of_nat (List.length ds) - pt).
Proof.
  unfold canon, decimal_places.
  pose proof (strip_leading_length ds) as Hl.
  destruct (strip_leading ds) as [ds1 lz]. simpl in Hl.
  pose proof (strip_trailing_length ds1) as Ht.
  destruct (strip_trailing ds1) as [|x r]; simpl fdigits; simpl fpt.
  - simpl. lia.
  - lia.
Qed.

Lemma decimal_round2_places (f : pyfloat) :
  decimal_places (decimal_round2 f) <= 2.
Proof.
  unfold decimal_round2.
  destruct (Z.leb_spec (-2) (fpt f - Z.of_nat (List.length (fdigits f)))) as [H|H].
  - unfold decimal_places. lia.
  - etransitivity; [apply canon_places|]. lia.
Qed.

Lemma decimal_ops_rounds_to_two_places : rounds_to_two_places decimal_ops.
Proof. exact decimal_round2_places. Qed.

(* ===================================================================== *)
(** ** The exception monad *)
(* ===================================================================== *)

(** Inverts every successful [bind] among the hypotheses. *)
Ltac inv_bind :=
  repeat match goal with
  | H : bind ?r _ = Ok _ |- _ =>
      let a := fresh "a" in
      let Ha := fresh "Ha" in
      destruct r as [a|] eqn:Ha; cbn [bind] in H; [|discriminate H]
  | H : Ok _ = Ok _ |- _ => injection H as H; try subst
  end.

(* ===================================================================== *)
(** ** Plan filter *)
(* ===================================================================== *)

(** The loop only appends to [filtered] and only adds to the two counters:
    started from any state it does what it does from the empty state, on
    top of that state. *)
Lemma filter_loop_from (icl idem : bool) (plans : list pyval) :
  forall filtered stats,
    filter_loop icl idem plans filtered stats =
    match filter_loop icl idem plans [] stats_zero with
    | Ok (f, c) => Ok (filtered ++ f, stats_add stats c)
    | Raise e => Raise e
    end.
Proof.
  induction plans as [|plan rest IH]; intros filtered stats.
  - simpl. rewrite app_nil_r. destruct stats; unfold stats_add; simpl.
    now rewrite !Nat.add_0_r.
  - simpl.
    destruct (if negb idem then plan_has_demand_charge plan else Ok false)
      as [[|]|e]; simpl; [| |reflexivity].
    + rewrite IH. rewrite (IH [] (FilterStats _ _ _ _)).
      destruct (filter_loop icl idem rest [] stats_zero) as [[f c]|e];
        [|reflexivity].
      simpl. destruct stats, c; unfold stats_add; simpl.
      repeat f_equal; lia.
    + destruct (if negb icl then plan_has_controlled_load plan else Ok false)
        as [[|]|e]; simpl; [| |reflexivity].
      * rewrite IH. rewrite (IH [] (FilterStats _ _ _ _)).
        destruct (filter_loop icl idem rest [] stats_zero) as [[f c]|e];
          [|reflexivity].
        simpl. destruct stats, c; unfold stats_add; simpl.
        repeat f_equal; lia.
      * rewrite IH. rewrite (IH [plan] stats_zero).
        destruct (filter_loop icl idem rest [] stats_zero) as [[f c]|e];
          [|reflexivity].
        simpl. rewrite <- app_assoc. simpl.
        destruct stats, c; unfold stats_add; simpl. repeat f_equal; lia.
Qed.

(** Every plan of the batch ends in exactly one of the three places. *)
Lemma filter_loop_counts (icl idem : bool) (plans : list pyval) :
  forall f c,
    filter_loop icl idem plans [] stats_zero = Ok (f, c) ->
    (List.length f + demand_filtered c + controlled_load_filtered c
     = List.length plans)%nat.
Proof.
  induction plans as [|plan rest IH]; intros f c H.
  - simpl in H. injection H as <- <-. reflexivity.
  - simpl in H.
    destruct (if negb idem then plan_has_demand_charge plan else Ok false)
      as [[|]|e]; simpl in H; [| |discriminate].
    + rewrite filter_loop_from in H.
      destruct (filter_loop icl idem rest [] stats_zero) as [[f' c']|e] eqn:E;
        [|discriminate].
      injection H as <- <-. specialize (IH _ _ eq_refl). simpl in *. lia.
    + destruct (if negb icl then plan_has_controlled_load plan else Ok false)
        as [[|]|e]; simpl in H; [| |discriminate].
      * rewrite filter_loop_from in H.
        destruct (filter_loop icl idem rest [] stats_zero) as [[f' c']|e] eqn:E;
          [|discriminate].
        injection H as <- <-. specialize (IH _ _ eq_refl). simpl in *. lia.
      * rewrite filter_loop_from in H.
        destruct (filter_loop icl idem rest [] stats_zero) as [[f' c']|e] eqn:E;
          [|discriminate].
        injection H as <- <-. specialize (IH _ _ eq_refl). simpl in *. lia.
Qed.

(** [filter_plans] in terms of the loop run from the empty state. *)
Lemma filter_plans_unfold (plans : list pyval) (icl idem : bool) :
  filter_plans plans icl idem =
  match filter_loop icl idem plans [] stats_zero with
  | Ok (f, c) =>
      Ok (f, FilterStats (List.length plans) (demand_filtered c)
                         (controlled_load_filtered c) (List.length f))
  | Raise e => Raise e
  end.
Proof.
  unfold filter_plans. rewrite filter_loop_from.
  destruct (filter_loop icl idem plans [] stats_zero) as [[f c]|e];
    reflexivity.
Qed.

Lemma filter_loop_total (icl idem : bool) (plans : list pyval) :
  Forall gates_defined plans ->
  exists f c, filter_loop icl idem plans [] stats_zero = Ok (f, c).
Proof.
  induction 1 as [|plan rest [[d Hd] [c Hc]] _ IH].
  - simpl. eauto.
  - simpl. rewrite Hd, Hc. destruct IH as (f & c0 & IH).
    destruct idem, icl, d, c; simpl;
      rewrite filter_loop_from, IH; eauto.
Qed.

(** C2. For every batch of raw plans and every setting of the two switches:
    the stats [filter_plans] returns have [total] the length of the batch,
    [kept] the length of the returned list, and
    [kept + demand_filtered + controlled_load_filtered = total]; the filter
    does return whenever the gates of every plan can be evaluated; and with
    the demand gate active a plan with a demand charge adds one to
    [demand_filtered] and nothing else, whatever its controlled load: a plan
    failing both gates is counted once, under the demand gate. *)
Theorem filter_plans_accounting (plans : list pyval) (icl idem : bool) :
  (forall filtered stats,
      filter_plans plans icl idem = Ok (filtered, stats) ->
      total stats = List.length plans
      /\ kept stats = List.length filtered
      /\ (kept stats + demand_filtered stats + controlled_load_filtered stats
          = total stats)%nat)
  /\ (Forall gates_defined plans ->
      exists filtered stats, filter_plans plans icl idem = Ok (filtered, stats))
  /\ (forall plan filtered stats,
      plan_has_demand_charge plan = Ok true ->
      filter_plans plans icl false = Ok (filtered, stats) ->
      filter_plans (plan :: plans) icl false =
      Ok (filtered,
          FilterStats (S (total stats)) (S (demand_filtered stats))
                      (controlled_load_filtered stats) (kept stats))).
Proof.
  split; [|split].
  - intros filtered stats H. rewrite filter_plans_unfold in H.
    destruct (filter_loop icl idem plans [] stats_zero) as [[f c]|e] eqn:E;
      [|discriminate].
    injection H as <- <-. simpl.
    apply filter_loop_counts in E. repeat split; lia.
  - intros Hdef. destruct (filter_loop_total icl idem plans Hdef) as (f & c & E).
    rewrite filter_plans_unfold, E. eauto.
  - intros plan filtered stats Hd H.
    rewrite filter_plans_unfold in *. simpl. rewrite Hd. simpl.
    rewrite filter_loop_from.
    destruct (filter_loop icl false plans [] stats_zero) as [[f c]|e];
      [|discriminate].
    injection H as <- <-. reflexivity.
Qed.

(** C2 on a batch of two plans, the first failing both gates: it is counted
    once, under the demand gate, and the counts add up. *)
Lemma filter_plans_accounting_witness :
  filter_plans [plan_both_gates; plan_plain] false false
  = Ok ([plan_plain], FilterStats 2 1 0 1)
  /\ (1 + 1 + 0 = 2)%nat.
Proof.
  split.
  - apply (proj2 (proj2 (filter_plans_accounting [plan_plain] false false))
             plan_both_gates [plan_plain] (FilterStats 1 0 0 1));
      reflexivity.
  - exact (proj2 (proj2 (proj1 (filter_plans_accounting
                                  [plan_both_gates; plan_plain] false false)
                           [plan_plain] (FilterStats 2 1 0 1) eq_refl))).
Defined.

(* --------------------------------------------------------------------- *)
(** *** Malformed plans *)

Lemma malformed_primary_contract (plan : pyval) :
  malformed_plan plan = true ->
  exists e, primary_contract plan = Raise e /\ is_lookup_error e = true.
Proof.
  unfold malformed_plan, lacks_plan_data, lacks_contract_list,
    has_empty_contract_list, primary_contract.
  destruct plan as [| | | |l|kvs]; try discriminate. simpl.
  destruct (lookup "planData" kvs) as [pd|]; simpl; [|eauto].
  destruct pd as [| | | |l|pd]; try discriminate. simpl.
  destruct (lookup "contract" pd) as [cs|]; simpl; [|eauto].
  destruct cs as [| | | |[|c cs]|d]; try discriminate. simpl. eauto.
Qed.

Lemma malformed_gates_raise (plan : pyval) :
  malformed_plan plan = true ->
  exists e, plan_has_demand_charge plan = Raise e
            /\ plan_has_controlled_load plan = Raise e
            /\ is_lookup_error e = true.
Proof.
  intros H. destruct (malformed_primary_contract plan H) as (e & He & Hl).
  exists e. unfold plan_has_demand_charge, plan_has_controlled_load.
  rewrite He. auto.
Qed.

Lemma filter_loop_aborts (icl idem : bool) (plans : list pyval) (bad : pyval) :
  In bad plans -> malformed_plan bad = true ->
  icl = false \/ idem = false ->
  exists e, filter_loop icl idem plans [] stats_zero = Raise e.
Proof.
  intros Hin Hbad Hsw. induction plans as [|plan rest IH]; [destruct Hin|].
  simpl. destruct Hin as [->|Hin].
  - destruct (malformed_gates_raise bad Hbad) as (e & Hd & Hc & _).
    rewrite Hd, Hc. destruct idem; simpl; [|eauto].
    destruct Hsw as [->|Hsw]; [simpl; eauto | discriminate].
  - destruct (IH Hin) as (e & IHe).
    destruct (if negb idem then plan_has_demand_charge plan else Ok false)
      as [[|]|e1]; simpl; [| |eauto].
    + rewrite filter_loop_from, IHe. eauto.
    + destruct (if negb icl then plan_has_controlled_load plan else Ok false)
        as [[|]|e1]; simpl; [| |eauto];
        rewrite filter_loop_from, IHe; eauto.
Qed.

(** With both switches on no gate is evaluated. *)
Lemma filter_loop_unfiltered (plans : list pyval) :
  filter_loop true true plans [] stats_zero = Ok (plans, stats_zero).
Proof.
  induction plans as [|plan rest IH]; [reflexivity|].
  simpl. rewrite filter_loop_from, IH. reflexivity.
Qed.

(* ===================================================================== *)
(** ** Plan processing: step 4 of [main] *)
(* ===================================================================== *)

Section ProcessingFacts.
Context {ops : FloatOps} {disp : DisplayColumns}.

Lemma process_plan_raises (plan : pyval) (postcode : string) (dn : pyval)
    (e : exn) :
  primary_contract plan = Raise e -> process_plan plan postcode dn = Raise e.
Proof.
  unfold primary_contract, process_plan. intros H.
  destruct (py_getitem plan "planData") as [pd|e1]; simpl in *;
    [|congruence].
  destruct (py_getitem pd "contract") as [cs|e2]; simpl in *; [|congruence].
  destruct (py_index0 cs) as [c|e3]; simpl in *; congruence.
Qed.

Lemma main_step4_skips (plan : pyval) (rest : list pyval) (postcode : string)
    (st : step4_state) (e : exn) :
  malformed_plan plan = true ->
  primary_contract plan = Raise e ->
  main_step4 (plan :: rest) postcode st =
  main_step4 rest postcode
    (Step4 (all_plans_data st) (S (errors st))
           (warnings st ++ [Warning (display_name plan) e])).
Proof.
  intros Hbad He. simpl.
  destruct plan as [| | | |l|kvs]; try discriminate Hbad.
  unfold py_get at 1. simpl bind.
  rewrite (process_plan_raises _ _ _ _ He).
  unfold malformed_plan, lacks_plan_data, lacks_contract_list,
    has_empty_contract_list in Hbad.
  unfold display_name. simpl.
  destruct (lookup "planData" kvs) as [pd|]; simpl; [|reflexivity].
  destruct pd as [| | | |l|pd]; try discriminate Hbad. reflexivity.
Qed.

(** Every plan of step 4 ends as a row or as a counted warning. *)
Lemma main_step4_counts (plans : list pyval) (postcode : string) :
  forall st st',
    main_step4 plans postcode st = Ok st' ->
    (List.length (all_plans_data st') + errors st'
     = List.length (all_plans_data st) + errors st + List.length plans
     /\ List.length (warnings st') + errors st
        = List.length (warnings st) + errors st')%nat.
Proof.
  induction plans as [|plan rest IH]; intros st st' H.
  - simpl in H. injection H as <-. simpl. lia.
  - simpl in H.
    destruct (py_get plan "_distributor_name" (VStr "N/A")) as [dn|e0];
      simpl in H; [|discriminate].
    destruct (process_plan plan postcode dn) as [row|e].
    + apply IH in H. simpl in H. rewrite length_app in H. simpl in H |- *. lia.
    + destruct (py_get plan "planData" (VDict [])) as [pd|e1];
        simpl in H; [|discriminate].
      destruct (py_get pd "planName" (VStr "Unknown")) as [nm|e2];
        simpl in H; [|discriminate].
      apply IH in H. simpl in H. rewrite length_app in H. simpl in H |- *. lia.
Qed.

End ProcessingFacts.

(* ===================================================================== *)
(** ** Malformed plans: the filter aborts, step 4 skips *)
(* ===================================================================== *)

(** C10 as stated fails: with both switches on, the filter evaluates no gate
    and returns a batch that holds a plan without [planData] unchanged. *)
Lemma filter_plans_unfiltered_keeps_malformed :
  lacks_plan_data plan_without_data = true
  /\ filter_plans [plan_plain; plan_without_data] true true
     = Ok ([plan_plain; plan_without_data], FilterStats 2 0 0 2).
Proof. split; reflexivity. Qed.

(** C10 (amended). For a batch that holds a plan without the [planData] key
    or with an empty contract list: both gate predicates raise a lookup
    error on that plan; [filter_plans] raises, returning nothing of the
    batch, whenever at least one gate is active (a switch is off, as in
    [main], which always passes [include_demand=False]); with both switches
    on it evaluates no gate and returns the whole batch; and step 4 of
    [main], the later stage, skips that plan, counts it and goes on with
    the rest. *)
Theorem filter_plans_aborts_on_malformed_plan
    (plans : list pyval) (bad : pyval) (icl idem : bool) :
  In bad plans ->
  lacks_plan_data bad = true \/ has_empty_contract_list bad = true ->
  (exists e, plan_has_demand_charge bad = Raise e
             /\ plan_has_controlled_load bad = Raise e
             /\ is_lookup_error e = true)
  /\ (icl = false \/ idem = false ->
      exists e, filter_plans plans icl idem = Raise e)
  /\ filter_plans plans true true
     = Ok (plans, FilterStats (List.length plans) 0 0 (List.length plans))
  /\ (forall (ops : FloatOps) (disp : DisplayColumns) rest postcode st,
      exists e,
        main_step4 (bad :: rest) postcode st =
        main_step4 rest postcode
          (Step4 (all_plans_data st) (S (errors st))
                 (warnings st ++ [Warning (display_name bad) e]))).
Proof.
  intros Hin Hshape.
  assert (Hbad : malformed_plan bad = true).
  { unfold malformed_plan. destruct Hshape as [->| ->];
      [reflexivity | now rewrite orb_true_r]. }
  split; [|split; [|split]].
  - apply malformed_gates_raise, Hbad.
  - intros Hsw.
    destruct (filter_loop_aborts icl idem plans bad Hin Hbad Hsw) as (e & He).
    exists e. rewrite filter_plans_unfold, He. reflexivity.
  - rewrite filter_plans_unfold, filter_loop_unfiltered. reflexivity.
  - intros ops disp rest postcode st.
    destruct (malformed_primary_contract bad Hbad) as (e & He & _).
    exists e. now apply main_step4_skips.
Qed.

(** C10 on a batch whose second plan has an empty contract list: the
    default filter raises, the filter with both switches on returns the
    batch. *)
Lemma filter_plans_aborts_on_malformed_plan_witness :
  (exists e, filter_plans [plan_plain; plan_without_contract] false false
             = Raise e)
  /\ filter_plans [plan_plain; plan_without_contract] true true
     = Ok ([plan_plain; plan_without_contract], FilterStats 2 0 0 2).
Proof.
  pose proof (filter_plans_aborts_on_malformed_plan
                [plan_plain; plan_without_contract] plan_without_contract
                false false (or_intror (or_introl eq_refl))
                (or_intror eq_refl)) as (_ & Habort & Hall & _).
  split; [exact (Habort (or_introl eq_refl)) | exact Hall].
Defined.

(** C7 as stated fails: normalizing a plan without [planData] raises the raw
    lookup failure [KeyError], and an empty contract list the raw
    [IndexError]; the program has no other error for a malformed plan. *)
Lemma process_plan_raises_raw_lookup_error :
  (forall (ops : FloatOps) (disp : DisplayColumns) dn,
      process_plan plan_without_data "2000" dn = Raise KeyError)
  /\ (forall (ops : FloatOps) (disp : DisplayColumns) dn,
      process_plan plan_without_contract "2000" dn = Raise IndexError)
  /\ is_lookup_error KeyError = true
  /\ is_lookup_error IndexError = true.
Proof. repeat split. Qed.

(** C7 (amended). For every raw plan without [planData], without the
    contract list or with an empty one: [process_plan] raises a raw lookup
    error ([KeyError] or [IndexError]); step 4 of [main] catches it, leaves
    the plan out of the rows, adds one to the error count, prints a warning
    with the plan's name (or "Unknown" when the plan has no [planData]) and
    goes on with the remaining plans; and over a whole run of step 4 every
    plan ends as a row or in the error count, one warning per counted
    plan. *)
Theorem malformed_plan_is_skipped_and_counted
    {ops : FloatOps} {disp : DisplayColumns}
    (plan : pyval) (rest : list pyval) (postcode : string)
    (st : step4_state) :
  malformed_plan plan = true ->
  exists e,
    is_lookup_error e = true
    /\ (forall dn, process_plan plan postcode dn = Raise e)
    /\ main_step4 (plan :: rest) postcode st =
       main_step4 rest postcode
         (Step4 (all_plans_data st) (S (errors st))
                (warnings st ++ [Warning (display_name plan) e]))
    /\ (forall st',
        main_step4 (plan :: rest) postcode st = Ok st' ->
        (List.length (all_plans_data st') + errors st'
         = List.length (all_plans_data st) + errors st
           + S (List.length rest)
         /\ List.length (warnings st') + errors st
            = List.length (warnings st) + errors st')%nat).
Proof.
  intros Hbad.
  destruct (malformed_primary_contract plan Hbad) as (e & He & Hl).
  exists e. split; [exact Hl|]. split; [|split].
  - intros dn. now apply process_plan_raises.
  - now apply main_step4_skips.
  - intros st' H. apply main_step4_counts in H. exact H.
Qed.

(** C7 on a plan with an empty contract list: one warning with the plan's
    name, one counted error, no row. *)
Lemma malformed_plan_is_skipped_and_counted_witness :
  exists e,
    is_lookup_error e = true
    /\ (forall dn, process_plan plan_without_contract "2000" dn = Raise e)
    /\ main_step4 [plan_without_contract] "2000" (Step4 [] 0 [])
       = Ok (Step4 [] 1 [Warning (VStr "Saver") e]).
Proof.
  destruct (@malformed_plan_is_skipped_and_counted decimal_ops raw_display
              plan_without_contract [] "2000" (Step4 [] 0 []) eq_refl)
    as (e & Hl & Hp & Hs & _).
  exists e. split; [exact Hl|]. split; [exact Hp|]. exact Hs.
Defined.

(* ===================================================================== *)
(** ** Distributor selection *)
(* ===================================================================== *)

Lemma probe_available_none (w : world) (ds : list distributor) :
  none_available w ds -> probe_available w ds = [].
Proof.
  induction 1 as [|d rest Hd _ IH]; [reflexivity|].
  simpl. destruct (Z.ltb_spec 0 (probe_distributor_plans w (dist_id d)));
    [lia | exact IH].
Qed.

(** C8 as stated fails: under [--dist all] the run does not end when no
    distributor has plans; it fetches once, with the empty distributor id. *)
Lemma dist_all_falls_back_to_unscoped_fetch :
  (1 < List.length (fetch_distributors world_no_plans))%nat
  /\ none_available world_no_plans (fetch_distributors world_no_plans)
  /\ main_resolve_and_fetch (Some "all") world_no_plans = FetchPlans [""].
Proof.
  split; [simpl; lia|]. split; [|reflexivity].
  repeat constructor; simpl; lia.
Qed.

(** C8 (amended). When more than one distributor is discovered and no
    distributor has a probed plan count above zero: the interactive
    selection returns the empty selection and [main] ends with
    [sys.exit(1)] before any plan fetch; under [--dist all] (in any
    letter case) [main] instead falls back to one fetch with the empty
    distributor id. *)
Theorem no_available_distributor_outcomes (w : world) (all : string) :
  (1 < List.length (fetch_distributors w))%nat ->
  none_available w (fetch_distributors w) ->
  py_lower all = "all" ->
  select_distributor_interactive w = Selected []
  /\ main_resolve_and_fetch None w = SysExit 1
  /\ main_resolve_and_fetch (Some "") w = SysExit 1
  /\ main_resolve_and_fetch (Some all) w = FetchPlans [""].
Proof.
  intros Hlen Hnone Hall.
  assert (Hsel : select_distributor_interactive w = Selected []).
  { unfold select_distributor_interactive.
    rewrite (probe_available_none w _ Hnone).
    destruct (fetch_distributors w) as [|d1 [|d2 ds]]; simpl in Hlen;
      [lia | lia | reflexivity]. }
  split; [exact Hsel|].
  unfold main_resolve_and_fetch, main_step2. simpl. rewrite Hsel.
  split; [reflexivity|]. split; [reflexivity|].
  destruct (String.eqb_spec all "") as [->|Hne]; [discriminate Hall|].
  simpl. rewrite Hall. simpl.
  rewrite (probe_available_none w _ Hnone). reflexivity.
Qed.

(** C8 on a postcode with two distributors and no plans: exit in
    interactive mode, one unscoped fetch under [--dist ALL]. *)
Lemma no_available_distributor_outcomes_witness :
  main_resolve_and_fetch None world_no_plans = SysExit 1
  /\ main_resolve_and_fetch (Some "ALL") world_no_plans = FetchPlans [""].
Proof.
  assert (H1 : (1 < List.length (fetch_distributors world_no_plans))%nat)
    by (simpl; lia).
  assert (H2 : none_available world_no_plans
                 (fetch_distributors world_no_plans))
    by (repeat constructor; simpl; lia).
  destruct (no_available_distributor_outcomes world_no_plans "ALL" H1 H2
              eq_refl) as (_ & Hnone & _ & Hall).
  split; [exact Hnone | exact Hall].
Defined.

(* ===================================================================== *)
(** ** Loops over lists *)
(* ===================================================================== *)

Lemma mapM_Forall2 {A B} (f : A -> result B) (l : list A) (bs : list B) :
  Forall2 (fun a b => f a = Ok b) l bs -> mapM f l = Ok bs.
Proof.
  induction 1 as [|a b l bs Hab _ IH]; [reflexivity|].
  simpl. rewrite Hab. simpl. rewrite IH. reflexivity.
Qed.

(** Entries for which the loop body appends nothing can be left out of the
    list: the appended items and the first exception are the same. *)
Lemma mapM_concat_skip {A B C} (f : A -> result (list B)) (skip : A -> bool)
    (Hskip : forall a, skip a = true -> f a = Ok []) (l : list A) :
  forall k : list B -> result C,
    (r <- mapM f l;; k (List.concat r))
    = (r <- mapM f (filter (fun a => negb (skip a)) l);; k (List.concat r)).
Proof.
  induction l as [|a l IH]; intros k; [reflexivity|].
  simpl. destruct (skip a) eqn:Ea; simpl.
  - rewrite (Hskip a Ea). simpl.
    rewrite <- (IH k). destruct (mapM f l); reflexivity.
  - destruct (f a) as [b|e]; simpl; [|reflexivity].
    specialize (IH (fun c => k (b ++ c))). simpl in IH.
    destruct (mapM f l) as [bs|e]; simpl in *.
    + rewrite IH.
      destruct (mapM f (filter (fun a0 => negb (skip a0)) l)); reflexivity.
    + rewrite IH.
      destruct (mapM f (filter (fun a0 => negb (skip a0)) l)); reflexivity.
Qed.

Lemma filterM_Forall {A} (p : A -> result bool) (l r : list A) :
  filterM p l = Ok r -> Forall (fun a => p a = Ok true) r.
Proof.
  revert r. induction l as [|a l IH]; intros r H; simpl in H.
  - injection H as <-. constructor.
  - destruct (p a) as [keep|] eqn:Ea; simpl in H; [|discriminate].
    destruct (filterM p l) as [rest|]; simpl in H; [|discriminate].
    injection H as <-. destruct keep; auto.
Qed.

(** A comprehension over values on which the test cannot raise is a plain
    filter. *)
Lemma filterM_total {A} (p : A -> result bool) (q : A -> bool) (l : list A) :
  Forall (fun a => p a = Ok (q a)) l -> filterM p l = Ok (filter q l).
Proof.
  induction 1 as [|a l Ha _ IH]; [reflexivity|].
  simpl. rewrite Ha. simpl. rewrite IH. reflexivity.
Qed.

(* ===================================================================== *)
(** ** Solar feed-in extraction *)
(* ===================================================================== *)

Lemma government_fit_type (fit : pyval) :
  is_government_fit fit = true ->
  exists ty, py_get fit "type" VNone = Ok ty /\ py_eq_str ty "G" = true.
Proof.
  destruct fit as [| | | |l|kvs]; try discriminate. simpl.
  destruct (lookup "type" kvs) as [ty|]; [eauto | discriminate].
Qed.

Section SolarFacts.
Context {ops : FloatOps}.

Lemma government_fit_no_rates (fit : pyval) :
  is_government_fit fit = true -> solar_fit_entry_rates fit = Ok [].
Proof.
  intros H. destruct (government_fit_type fit H) as (ty & Hty & HG).
  unfold solar_fit_entry_rates. rewrite Hty. simpl. now rewrite HG.
Qed.

Lemma government_fit_no_details (fit : pyval) :
  is_government_fit fit = true -> solar_fit_entry_details fit = Ok [].
Proof.
  intros H. destruct (government_fit_type fit H) as (ty & Hty & HG).
  unfold solar_fit_entry_details. rewrite Hty. simpl. now rewrite HG.
Qed.

(** The two extractors on a contract whose [solarFit] is a list: the guard
    for an empty list agrees with running the loop on it. *)
Lemma collect_solar_fit_rates_list (contract : pyval) (fits : list pyval) :
  py_get contract "solarFit" (VList []) = Ok (VList fits) ->
  _collect_solar_fit_rates contract =
  (per_fit <- mapM solar_fit_entry_rates fits;;
   filterM py_gt0 (List.concat per_fit)).
Proof.
  intros H. unfold _collect_solar_fit_rates. rewrite H. simpl.
  destruct fits; reflexivity.
Qed.

Lemma extract_solar_fit_details_list (contract : pyval) (fits : list pyval) :
  py_get contract "solarFit" (VList []) = Ok (VList fits) ->
  extract_solar_fit_details contract =
  (per_fit <- mapM solar_fit_entry_details fits;;
   Ok (details_text (List.concat per_fit))).
Proof.
  intros H. unfold extract_solar_fit_details. rewrite H. simpl.
  destruct fits; reflexivity.
Qed.

Lemma retailer_fits_same_rates (fits : list pyval) :
  (per_fit <- mapM solar_fit_entry_rates fits;;
   filterM py_gt0 (List.concat per_fit))
  = (per_fit <- mapM solar_fit_entry_rates (retailer_fits fits);;
     filterM py_gt0 (List.concat per_fit)).
Proof.
  apply (mapM_concat_skip solar_fit_entry_rates is_government_fit
           government_fit_no_rates fits (fun c => filterM py_gt0 c)).
Qed.

Lemma retailer_fits_same_details (fits : list pyval) :
  (per_fit <- mapM solar_fit_entry_details fits;;
   Ok (details_text (List.concat per_fit)))
  = (per_fit <- mapM solar_fit_entry_details (retailer_fits fits);;
     Ok (details_text (List.concat per_fit))).
Proof.
  apply (mapM_concat_skip solar_fit_entry_details is_government_fit
           government_fit_no_details fits
           (fun c => Ok (details_text c))).
Qed.

Lemma retailer_fits_all_government (fits : list pyval) :
  forallb is_government_fit fits = true -> retailer_fits fits = [].
Proof.
  induction fits as [|fit fits IH]; [reflexivity|].
  simpl. intros H. apply andb_true_iff in H as [H1 H2].
  rewrite H1. simpl. auto.
Qed.

(** C6. For every contract whose [solarFit] is a list: the retailer rates
    collected for the minimum and maximum, the minimum, the maximum and the
    details text are those of the contract with its government
    ([type = "G"]) entries removed; when every entry is a government entry
    the minimum and the maximum are [0.0] and the details are "No solar
    feed-in tariff"; and every rate the collection keeps is above zero. *)
Theorem government_fit_entries_are_excluded
    (fields : list (string * pyval)) (fits : list pyval) :
  lookup "solarFit" fields = Some (VList fits) ->
  (_collect_solar_fit_rates (VDict fields)
   = _collect_solar_fit_rates
       (VDict (("solarFit", VList (retailer_fits fits)) :: fields))
   /\ extract_solar_fit_min (VDict fields)
      = extract_solar_fit_min
          (VDict (("solarFit", VList (retailer_fits fits)) :: fields))
   /\ extract_solar_fit_max (VDict fields)
      = extract_solar_fit_max
          (VDict (("solarFit", VList (retailer_fits fits)) :: fields))
   /\ extract_solar_fit_details (VDict fields)
      = extract_solar_fit_details
          (VDict (("solarFit", VList (retailer_fits fits)) :: fields)))
  /\ (forallb is_government_fit fits = true ->
      extract_solar_fit_min (VDict fields) = Ok (VNum (PFloat float_zero))
      /\ extract_solar_fit_max (VDict fields) = Ok (VNum (PFloat float_zero))
      /\ extract_solar_fit_details (VDict fields) = Ok NO_FIT)
  /\ (forall rates,
      _collect_solar_fit_rates (VDict fields) = Ok rates ->
      Forall (fun r => py_gt0 r = Ok true) rates).
Proof.
  intros Hfits.
  assert (H1 : py_get (VDict fields) "solarFit" (VList []) = Ok (VList fits))
    by (simpl; now rewrite Hfits).
  assert (H2 : py_get (VDict (("solarFit", VList (retailer_fits fits))
                                :: fields)) "solarFit" (VList [])
               = Ok (VList (retailer_fits fits))) by reflexivity.
  assert (Hc : _collect_solar_fit_rates (VDict fields)
               = _collect_solar_fit_rates
                   (VDict (("solarFit", VList (retailer_fits fits))
                             :: fields))).
  { rewrite (collect_solar_fit_rates_list _ _ H1),
      (collect_solar_fit_rates_list _ _ H2).
    apply retailer_fits_same_rates. }
  assert (Hd : extract_solar_fit_details (VDict fields)
               = extract_solar_fit_details
                   (VDict (("solarFit", VList (retailer_fits fits))
                             :: fields))).
  { rewrite (extract_solar_fit_details_list _ _ H1),
      (extract_solar_fit_details_list _ _ H2).
    apply retailer_fits_same_details. }
  split; [|split].
  - split; [exact Hc|]. split; [|split; [|exact Hd]].
    + unfold extract_solar_fit_min. now rewrite Hc.
    + unfold extract_solar_fit_max. now rewrite Hc.
  - intros Hall. apply retailer_fits_all_government in Hall.
    unfold extract_solar_fit_min, extract_solar_fit_max.
    rewrite Hd, Hc. rewrite Hall. repeat split.
  - intros rates H. rewrite (collect_solar_fit_rates_list _ _ H1) in H.
    destruct (mapM solar_fit_entry_rates fits) as [per_fit|];
      simpl in H; [|discriminate].
    now apply filterM_Forall in H.
Qed.

End SolarFacts.

(** C6 on the contract with a single government entry at 44.0. *)
Lemma government_fit_entries_are_excluded_witness :
  extract_solar_fit_min (VDict contract_government_only)
  = Ok (VNum (PFloat float_zero))
  /\ extract_solar_fit_max (VDict contract_government_only)
     = Ok (VNum (PFloat float_zero))
  /\ extract_solar_fit_details (VDict contract_government_only)
     = Ok "No solar feed-in tariff".
Proof.
  exact (proj1 (proj2 (@government_fit_entries_are_excluded decimal_ops
                         contract_government_only _ eq_refl)) eq_refl).
Defined.

(* ===================================================================== *)
(** ** GST on usage rates and supply charge *)
(* ===================================================================== *)

Lemma fit_raw_rates_numbers (fit : pyval) (raws : list pyval) :
  fit_raw_rates fit raws -> Forall is_number raws.
Proof.
  destruct 1 as [| ty r | ty srs ps _ _ _ _ _].
  - constructor.
  - repeat constructor. now exists r.
  - apply Forall_forall. intros v Hv. apply in_map_iff in Hv as (p & <- & _).
    now exists p.
Qed.

Lemma py_gt0_number (v : pyval) :
  is_number v -> py_gt0 v = Ok (positive v).
Proof. intros [n ->]. reflexivity. Qed.

Section GstFacts.
Context {ops : FloatOps}.

Lemma block_rates_inc_gst (brs : list pyval) (rs : list pynum) :
  unit_prices brs rs -> mapM block_rate_inc_gst brs = Ok (map inc_gst rs).
Proof.
  intros H. apply mapM_Forall2.
  induction H as [|br r brs rs Hbr _ IH]; constructor; [|exact IH].
  unfold block_rate_inc_gst. rewrite Hbr. reflexivity.
Qed.

Lemma fit_raw_rates_entry (fit : pyval) (raws : list pyval) :
  fit_raw_rates fit raws -> solar_fit_entry_rates fit = Ok raws.
Proof.
  unfold solar_fit_entry_rates.
  destruct 1 as [ty Hty HG | ty r Hty HG Hr | ty srs ps Hty HG Hr Hs Hp];
    rewrite Hty; simpl; rewrite HG.
  - reflexivity.
  - rewrite Hr. reflexivity.
  - rewrite Hr. simpl. rewrite Hs. simpl.
    rewrite (mapM_Forall2 _ srs (map VNum ps)); [reflexivity|].
    clear -Hp. induction Hp as [|sr p srs ps Hsr _ IH]; simpl; constructor;
      [exact Hsr | exact IH].
Qed.

(** C1. For every contract: the extracted daily supply charge is
    [round(r * 1.1, 2)] for the ex-GST charge [r] of the raw data; the
    extracted usage rates are [round(r * 1.1, 2)] for the ex-GST unit
    prices [r] of the raw data, one for one and in order; and the feed-in
    rates collected for the solar minimum and maximum are the positive ones
    among the raw feed-in rates themselves, with no multiplier. *)
Theorem gst_on_usage_and_supply_not_on_solar (contract : pyval) :
  (forall r,
      supply_price contract r ->
      extract_supply_charge contract = Ok (VNum (PFloat (inc_gst r))))
  /\ (forall rs,
      usage_prices contract rs ->
      _collect_usage_rates contract = Ok (map inc_gst rs))
  /\ (forall fits raws,
      py_get contract "solarFit" (VList []) = Ok (VList fits) ->
      Forall2 fit_raw_rates fits raws ->
      _collect_solar_fit_rates contract
      = Ok (filter positive (List.concat raws))).
Proof.
  split; [|split].
  - intros r (tp & more & Htp & Hc).
    unfold extract_supply_charge. rewrite Htp. simpl. rewrite Hc. reflexivity.
  - intros rs H. unfold _collect_usage_rates.
    destruct H as [tp more pm brs rs Htp Hpm HnT Hbr Hrs
                  | tp more pm blocks rss Htp Hpm HT Hbl Hrss];
      rewrite Htp; simpl; rewrite Hpm; simpl.
    + rewrite HnT, Hbr. simpl. now apply block_rates_inc_gst.
    + rewrite HT, Hbl. simpl.
      rewrite (mapM_Forall2 _ blocks (map (map inc_gst) rss)).
      * simpl. now rewrite concat_map.
      * clear -Hrss.
        induction Hrss as [|block rs blocks rss (brs & Hb & Hu) _ IH];
          simpl; constructor; [|exact IH].
        unfold tou_block_rates. rewrite Hb. simpl.
        now apply block_rates_inc_gst.
  - intros fits raws Hs Hraw.
    rewrite (collect_solar_fit_rates_list _ _ Hs).
    rewrite (mapM_Forall2 _ fits raws).
    + simpl. apply filterM_total.
      apply Forall_concat.
      clear -Hraw.
      induction Hraw as [|fit rw fits raws Hf _ IH]; [constructor|].
      constructor; [|exact IH].
      apply fit_raw_rates_numbers in Hf.
      eapply Forall_impl; [|exact Hf]. intros v Hv. now apply py_gt0_number.
    + clear -Hraw.
      induction Hraw as [|fit rw fits raws Hf _ IH]; [constructor|].
      constructor; [|exact IH].
      now apply fit_raw_rates_entry.
Qed.

End GstFacts.

(** C1 on the two example contracts, in decimal arithmetic: supply 90.0
    gives 99.0, usage 25.0 gives 27.5, the time-of-use blocks 20.0 and 35.0
    give 22.0 and 38.5, and the feed-in rate 7.0 stays 7.0. *)
Lemma gst_on_usage_and_supply_not_on_solar_witness :
  extract_supply_charge contract_single_rate = Ok (VNum (PFloat float_99))
  /\ _collect_usage_rates contract_single_rate = Ok [float_27_5]
  /\ _collect_usage_rates contract_time_of_use = Ok [float_22; float_38_5]
  /\ _collect_solar_fit_rates contract_single_rate
     = Ok [VNum (PFloat float_7)].
Proof.
  destruct (@gst_on_usage_and_supply_not_on_solar decimal_ops
              contract_single_rate) as (Hsupply & Husage & Hsolar).
  destruct (@gst_on_usage_and_supply_not_on_solar decimal_ops
              contract_time_of_use) as (_ & Htou & _).
  split; [|split; [|split]].
  - apply (Hsupply (PFloat float_90)). do 2 eexists. split; reflexivity.
  - apply (Husage [PFloat float_25]).
    eapply usage_single_rate; try reflexivity.
    repeat constructor.
  - apply (Htou [PFloat float_20; PFloat float_35]).
    apply (usage_time_of_use contract_time_of_use _ _ _ _
             [[PFloat float_20]; [PFloat float_35]]
             eq_refl eq_refl eq_refl eq_refl).
    repeat constructor; eexists; (split; [reflexivity|]); repeat constructor.
  - apply (Hsolar _ [[VNum (PFloat float_7)]] eq_refl).
    repeat constructor. eapply raw_flat; reflexivity.
Defined.

(* ===================================================================== *)
(** ** Strings *)
(* ===================================================================== *)

Lemma append_nil_r (s : string) : s ^^ "" = s.
Proof. induction s as [|c s IH]; simpl; congruence. Qed.

Lemma append_assoc (a b c : string) : (a ^^ b) ^^ c = a ^^ b ^^ c.
Proof. induction a as [|x a IH]; simpl; congruence. Qed.

Lemma str_forall_app (p : ascii -> bool) (a b : string) :
  str_forall p (a ^^ b) = str_forall p a && str_forall p b.
Proof.
  induction a as [|x a IH]; simpl; [reflexivity|].
  rewrite IH. now rewrite andb_assoc.
Qed.

(** A run of [p]-characters followed by a character outside [p] (or by
    nothing) is what [span] splits off. *)
Lemma span_app (p : ascii -> bool) (a b : string) :
  str_forall p a = true ->
  head_ok (fun c => negb (p c)) b = true ->
  span p (a ^^ b) = (a, b).
Proof.
  intros Ha Hb. induction a as [|x a IH]; simpl in *.
  - destruct b as [|y b]; [reflexivity|]. simpl in Hb |- *.
    destruct (p y); [discriminate Hb | reflexivity].
  - apply andb_true_iff in Ha as [Hx Ha]. rewrite Hx, (IH Ha). reflexivity.
Qed.

Lemma span_all (p : ascii -> bool) (a : string) :
  str_forall p a = true -> span p a = (a, "").
Proof.
  intros Ha. rewrite <- (append_nil_r a) at 1. now apply span_app.
Qed.

Lemma span_none (p : ascii -> bool) (s : string) :
  head_ok (fun c => negb (p c)) s = true -> span p s = ("", s).
Proof. intros H. now apply (span_app p "" s). Qed.

Lemma drop_prefix_app (lit s : string) : drop_prefix lit (lit ^^ s) = Some s.
Proof.
  induction lit as [|c lit IH]; simpl; [now destruct s|].
  now rewrite Ascii.eqb_refl.
Qed.

Lemma str_rev_acc_app (a b acc : string) :
  str_rev_acc acc (a ^^ b) = str_rev_acc (str_rev_acc acc a) b.
Proof.
  revert acc. induction a as [|x a IH]; intros acc; simpl; [reflexivity|].
  apply IH.
Qed.

Lemma str_rev_acc_acc (s acc : string) :
  str_rev_acc acc s = str_rev s ^^ acc.
Proof.
  unfold str_rev. revert acc.
  induction s as [|x s IH]; intros acc; simpl; [reflexivity|].
  rewrite IH, (IH (String x "")). now rewrite append_assoc.
Qed.

Lemma str_rev_app (a b : string) : str_rev (a ^^ b) = str_rev b ^^ str_rev a.
Proof.
  unfold str_rev at 1. rewrite str_rev_acc_app.
  now rewrite str_rev_acc_acc.
Qed.

Lemma str_rev_involutive (s : string) : str_rev (str_rev s) = s.
Proof.
  induction s as [|x s IH]; [reflexivity|].
  change (String x s) with (String x "" ^^ s) at 1.
  rewrite str_rev_app, str_rev_app, IH. reflexivity.
Qed.

(** A string that neither starts nor ends with white space is its own
    [strip()]. *)
Lemma py_strip_id (s : string) :
  head_ok (fun c => negb (is_space c)) s = true ->
  head_ok (fun c => negb (is_space c)) (str_rev s) = true ->
  py_strip s = s.
Proof.
  intros H1 H2. unfold py_strip.
  rewrite (span_none _ _ H1). simpl.
  rewrite (span_none _ _ H2). simpl.
  apply str_rev_involutive.
Qed.

(** The last character of [a ^^ b] is the last character of [b]. *)
Lemma head_ok_rev_app (p : ascii -> bool) (a b : string) :
  b <> "" -> head_ok p (str_rev (a ^^ b)) = head_ok p (str_rev b).
Proof.
  intros Hb. rewrite str_rev_app.
  destruct (str_rev b) as [|c s] eqn:E; [|reflexivity].
  exfalso. apply Hb. rewrite <- (str_rev_involutive b), E. reflexivity.
Qed.

(** [split] and [join]. *)

Lemma py_split_semi_cons (c : ascii) (s : string) :
  not_semi c = true ->
  py_split_semi (String c s) =
  match py_split_semi s with
  | h :: t => String c h :: t
  | [] => [String c ""]
  end.
Proof.
  unfold not_semi. intros H. simpl.
  destruct (Ascii.eqb c ";"); [discriminate|reflexivity].
Qed.

Lemma py_split_semi_none (s : string) :
  str_forall not_semi s = true -> py_split_semi s = [s].
Proof.
  induction s as [|c s IH]; intros H; [reflexivity|].
  simpl in H. apply andb_true_iff in H as [Hc Hs].
  rewrite (py_split_semi_cons _ _ Hc), (IH Hs). reflexivity.
Qed.

Lemma py_split_semi_app (a rest : string) :
  str_forall not_semi a = true ->
  py_split_semi (a ^^ "; " ^^ rest) = a :: py_split_semi rest.
Proof.
  induction a as [|c a IH]; intros H.
  - reflexivity.
  - simpl in H. apply andb_true_iff in H as [Hc Ha].
    change (String c a ^^ "; " ^^ rest) with (String c (a ^^ "; " ^^ rest)).
    rewrite (py_split_semi_cons _ _ Hc), (IH Ha). reflexivity.
Qed.

Lemma py_split_join (parts : list string) :
  parts <> [] ->
  Forall (fun p => str_forall not_semi p = true) parts ->
  py_split_semi (py_join_semi parts) = parts.
Proof.
  intros Hne H. induction H as [|p rest Hp Hrest IH]; [congruence|].
  destruct rest as [|q rest].
  - simpl. now apply py_split_semi_none.
  - change (py_join_semi (p :: q :: rest))
      with (p ^^ "; " ^^ py_join_semi (q :: rest)).
    rewrite (py_split_semi_app _ _ Hp), IH; [reflexivity | discriminate].
Qed.

(* ===================================================================== *)
(** ** The tier parser on well-formed descriptions *)
(* ===================================================================== *)

Lemma digit_dot_not_semi (s : string) :
  str_forall is_digit_dot s = true -> str_forall not_semi s = true.
Proof.
  induction s as [|c s IH]; [reflexivity|]. simpl. intros H.
  apply andb_true_iff in H as [Hc Hs]. rewrite (IH Hs), andb_true_r.
  unfold not_semi. destruct (Ascii.eqb_spec c ";") as [->|]; [|reflexivity].
  discriminate Hc.
Qed.

Lemma digit_dot_head_not_space (s : string) :
  str_forall is_digit_dot s = true ->
  head_ok (fun c => negb (is_space c)) s = true.
Proof.
  destruct s as [|c s]; [reflexivity|]. simpl. intros H.
  apply andb_true_iff in H as [Hc _].
  unfold is_digit_dot, is_digit, char_digit in Hc. unfold is_space.
  destruct c as [[] [] [] [] [] [] [] []]; try discriminate Hc; reflexivity.
Qed.

Lemma render_no_semi (c : clause) (t : tier) :
  clause_tier c t -> str_forall not_semi (render c) = true.
Proof.
  destruct 1 as [r rate (_ & Hr & _) | r v rate volume (_ & Hr & _) (_ & Hv & _)];
    cbn [render]; rewrite !str_forall_app;
    rewrite ?(digit_dot_not_semi _ Hr), ?(digit_dot_not_semi _ Hv);
    reflexivity.
Qed.

Lemma render_strip (c : clause) (t : tier) :
  clause_tier c t -> py_strip (render c) = render c.
Proof.
  intros H. apply py_strip_id.
  - destruct H as [r rate (Hne & Hr & _) | r v rate volume (Hne & Hr & _) _];
      simpl; (destruct r as [|x r]; [congruence|]);
      apply (digit_dot_head_not_space _ Hr).
  - destruct H as [r rate _ | r v rate volume _ _]; cbn [render].
    + rewrite head_ok_rev_app; [reflexivity | discriminate].
    + rewrite head_ok_rev_app; [|discriminate].
      rewrite head_ok_rev_app; [|destruct v; discriminate].
      rewrite head_ok_rev_app; [reflexivity | discriminate].
Qed.

Lemma match_tier_flat (r : string) :
  r <> "" -> str_forall is_digit_dot r = true ->
  match_tier (r ^^ "c/kWh") = Some (r, None).
Proof.
  intros Hne Hr. unfold match_tier.
  rewrite (span_app _ r "c/kWh" Hr eq_refl).
  destruct (String.eqb_spec r "") as [|_]; [congruence|].
  reflexivity.
Qed.

Lemma match_tier_capped (r v : string) :
  r <> "" -> str_forall is_digit_dot r = true ->
  v <> "" -> str_forall is_digit_dot v = true ->
  match_tier (r ^^ "c/kWh (first " ^^ v ^^ "kWh/day)") = Some (r, Some v).
Proof.
  intros Hne Hr Hnv Hv. unfold match_tier.
  rewrite (span_app _ r ("c/kWh (first " ^^ v ^^ "kWh/day)") Hr eq_refl).
  destruct (String.eqb_spec r "") as [|_]; [congruence|].
  change ("c/kWh (first " ^^ v ^^ "kWh/day)")
    with ("c/kWh" ^^ " (first " ^^ v ^^ "kWh/day)").
  rewrite drop_prefix_app. f_equal. f_equal.
  unfold match_first_clause.
  change (" (first " ^^ v ^^ "kWh/day)")
    with (" " ^^ "(first" ^^ " " ^^ v ^^ "kWh/day)").
  rewrite (span_app is_space " " ("(first" ^^ " " ^^ v ^^ "kWh/day)")
             eq_refl eq_refl). cbn [snd].
  rewrite drop_prefix_app.
  assert (Hhead : head_ok (fun c => negb (is_space c)) (v ^^ "kWh/day)")
                  = true).
  { destruct v as [|x v]; [congruence|].
    apply (digit_dot_head_not_space (String x v) Hv). }
  rewrite (span_app is_space " " _ eq_refl Hhead).
  cbn [String.eqb Ascii.eqb Bool.eqb].
  rewrite (span_app _ v "kWh/day)" Hv eq_refl).
  destruct (String.eqb_spec v "") as [|_]; [congruence|].
  reflexivity.
Qed.

Lemma parse_part_of_clause (c : clause) (t : tier) (rest : list string) :
  clause_tier c t ->
  parse_parts (render c :: rest) = (ts <- parse_parts rest;; Ok (t :: ts)).
Proof.
  intros H. cbn [parse_parts]. rewrite (render_strip c t H).
  destruct H as [r rate (Hne & Hr & Hf)
                | r v rate volume (Hne & Hr & Hf) (Hnv & Hv & Hfv)];
    cbn [render].
  - rewrite (match_tier_flat r Hne Hr), Hf. reflexivity.
  - rewrite (match_tier_capped r v Hne Hr Hnv Hv), Hf. simpl. rewrite Hfv.
    reflexivity.
Qed.

Lemma parse_parts_of_clauses (cs : list clause) (ts : list tier) :
  Forall2 clause_tier cs ts -> parse_parts (map render cs) = Ok ts.
Proof.
  induction 1 as [|c t cs ts Hc _ IH]; [reflexivity|].
  cbn [map]. rewrite (parse_part_of_clause c t _ Hc), IH. reflexivity.
Qed.

(** The parser on the joined clauses, before sorting. *)
Lemma parse_details_of_clauses (cs : list clause) (ts : list tier) :
  Forall2 clause_tier cs ts ->
  parse_details (py_join_semi (map render cs)) = Ok (sort_tiers ts).
Proof.
  intros H. unfold parse_details.
  destruct cs as [|c cs].
  - inversion H; subst. reflexivity.
  - rewrite py_split_join.
    + rewrite (parse_parts_of_clauses _ _ H). reflexivity.
    + discriminate.
    + clear -H. induction H as [|c' t' cs' ts' Hc' _ IH]; [constructor|].
      constructor; [now apply (render_no_semi c' t') | exact IH].
Qed.

(* ===================================================================== *)
(** ** The order of the parsed tiers *)
(* ===================================================================== *)

Lemma digits_cmp_antisym (a b : list digit) :
  digits_cmp b a = CompOpp (digits_cmp a b).
Proof.
  revert b. induction a as [|x a IH]; intros [|y b]; simpl; try reflexivity.
  rewrite (Z.compare_antisym (digit_val x) (digit_val y)).
  destruct (digit_val x ?= digit_val y); simpl; auto.
Qed.

Lemma mag_cmp_antisym (f g : pyfloat) : mag_cmp g f = CompOpp (mag_cmp f g).
Proof.
  unfold mag_cmp. rewrite (Z.compare_antisym (fpt f) (fpt g)).
  destruct (fpt f ?= fpt g); simpl; auto using digits_cmp_antisym.
Qed.

(** "Not below" is transitive on digit strings. *)
Lemma digits_cmp_trans (a b c : list digit) :
  digits_cmp a b <> Lt -> digits_cmp b c <> Lt -> digits_cmp a c <> Lt.
Proof.
  revert b c. induction a as [|x a IH]; intros [|y b] [|z c]; simpl;
    try congruence.
  destruct (Z.compare_spec (digit_val x) (digit_val y)) as [Exy|Hxy|Hxy];
    destruct (Z.compare_spec (digit_val y) (digit_val z)) as [Eyz|Hyz|Hyz];
    destruct (Z.compare_spec (digit_val x) (digit_val z)) as [Exz|Hxz|Hxz];
    try congruence; try lia.
  apply IH.
Qed.

Lemma mag_cmp_trans (f g h : pyfloat) :
  mag_cmp f g <> Lt -> mag_cmp g h <> Lt -> mag_cmp f h <> Lt.
Proof.
  unfold mag_cmp.
  destruct (Z.compare_spec (fpt f) (fpt g)) as [Efg|Hfg|Hfg];
    destruct (Z.compare_spec (fpt g) (fpt h)) as [Egh|Hgh|Hgh];
    destruct (Z.compare_spec (fpt f) (fpt h)) as [Efh|Hfh|Hfh];
    try congruence; try lia.
  apply digits_cmp_trans.
Qed.

(** The sort key on tiers with caps that are not negative. *)
Lemma tier_key_ltb_nonneg (a b : tier) :
  nonneg_cap a -> nonneg_cap b ->
  tier_key_ltb a b =
  match uncapped a, uncapped b with
  | false, true => true
  | false, false =>
      match mag_cmp (snd b) (snd a) with Lt => true | _ => false end
  | true, _ => false
  end.
Proof.
  unfold nonneg_cap, tier_key_ltb, uncapped, float_ltb, float_cmp, float_neg,
    float_is_zero.
  destruct a as [ra [na da pa]], b as [rb [nb db pb]]. simpl.
  intros -> ->. destruct da, db; reflexivity.
Qed.

Lemma float_ltb_nonneg (f g : pyfloat) :
  fneg f = false -> fneg g = false ->
  float_is_zero f = false -> float_is_zero g = false ->
  float_ltb f g = match mag_cmp f g with Lt => true | _ => false end.
Proof.
  unfold float_ltb, float_cmp. intros -> -> -> ->. reflexivity.
Qed.

Lemma key_ge_before (a b : tier) :
  nonneg_cap a -> nonneg_cap b -> tier_key_ltb b a = false -> before a b.
Proof.
  intros Ha Hb. rewrite (tier_key_ltb_nonneg b a Hb Ha). unfold before.
  destruct (uncapped b) eqn:Eb; [auto|].
  destruct (uncapped a) eqn:Ea; [discriminate|].
  intros H. right. repeat split.
  rewrite (float_ltb_nonneg _ _ Ha Hb Ea Eb). exact H.
Qed.

Lemma key_lt_before (a b : tier) :
  nonneg_cap a -> nonneg_cap b -> tier_key_ltb a b = true -> before a b.
Proof.
  intros Ha Hb. rewrite (tier_key_ltb_nonneg a b Ha Hb). unfold before.
  destruct (uncapped a) eqn:Ea; [discriminate|].
  destruct (uncapped b) eqn:Eb; [auto|].
  intros H. right. repeat split.
  rewrite (float_ltb_nonneg _ _ Ha Hb Ea Eb).
  rewrite (mag_cmp_antisym (snd a) (snd b)) in H.
  destruct (mag_cmp (snd a) (snd b)); simpl in H; congruence.
Qed.

Lemma before_trans (a b c : tier) :
  nonneg_cap a -> nonneg_cap b -> nonneg_cap c ->
  before a b -> before b c -> before a c.
Proof.
  unfold before. intros Ha Hb Hc [Hab|(Ea & Eb & Hab)] [Hbc|(Eb' & Ec & Hbc)];
    auto; try congruence.
  right. repeat split; auto.
  rewrite (float_ltb_nonneg _ _ Ha Hb Ea Eb) in Hab.
  rewrite (float_ltb_nonneg _ _ Hb Hc Eb Ec) in Hbc.
  rewrite (float_ltb_nonneg _ _ Ha Hc Ea Ec).
  assert (H : mag_cmp (snd a) (snd c) <> Lt).
  { apply (mag_cmp_trans _ (snd b)).
    - destruct (mag_cmp (snd a) (snd b)); congruence.
    - destruct (mag_cmp (snd b) (snd c)); congruence. }
  destruct (mag_cmp (snd a) (snd c)); congruence.
Qed.

(** Insertion keeps the elements and the order. *)
Lemma insert_tier_perm (t : tier) (l : list tier) :
  Permutation (t :: l) (insert_tier t l).
Proof.
  induction l as [|u l IH]; simpl; [reflexivity|].
  destruct (tier_key_ltb u t); [|reflexivity].
  rewrite perm_swap. now apply perm_skip.
Qed.

Lemma sort_tiers_perm (l : list tier) : Permutation l (sort_tiers l).
Proof.
  induction l as [|t l IH]; simpl; [constructor|].
  rewrite <- insert_tier_perm. now apply perm_skip.
Qed.

Lemma insert_tier_sorted (t : tier) (l : list tier) :
  nonneg_cap t -> Forall nonneg_cap l ->
  StronglySorted before l -> StronglySorted before (insert_tier t l).
Proof.
  intros Ht Hl Hs. induction Hs as [|u l Hs IH Hu]; simpl.
  - repeat constructor.
  - inversion Hl as [|? ? Hnu Hnl]; subst.
    destruct (tier_key_ltb u t) eqn:E.
    + constructor; [now apply IH|].
      apply (Permutation_Forall (insert_tier_perm t l)).
      constructor; [now apply key_lt_before | exact Hu].
    + constructor; [now constructor|].
      assert (Htu : before t u) by now apply key_ge_before.
      constructor; [exact Htu|].
      rewrite Forall_forall in Hu, Hnl |- *. intros x Hx.
      apply (before_trans t u x); auto.
Qed.

Lemma sort_tiers_sorted (l : list tier) :
  Forall nonneg_cap l -> StronglySorted before (sort_tiers l).
Proof.
  induction 1 as [|t l Ht Hl IH]; simpl; [constructor|].
  apply insert_tier_sorted; auto.
  apply (Permutation_Forall (sort_tiers_perm l)). exact Hl.
Qed.

(** What [float] reads from digits and dots is not negative. *)
Lemma py_float_nonneg (s : string) (f : pyfloat) :
  py_float s = Ok f -> fneg f = false.
Proof.
  unfold py_float. destruct (span is_digit s) as [ip rest].
  destruct (match rest with
            | String "." r => Some r
            | EmptyString => Some ""
            | _ => None
            end) as [fpart|]; [|discriminate].
  destruct (read_digits ip) as [i|]; [|discriminate].
  destruct (read_digits fpart) as [fr|]; [|discriminate].
  destruct (i ++ fr) as [|d ds]; [discriminate|].
  intros H. injection H as <-. unfold canon.
  destruct (strip_leading (d :: ds)) as [ds1 lz].
  destruct (strip_trailing ds1); reflexivity.
Qed.

Lemma clause_tier_nonneg (c : clause) (t : tier) :
  clause_tier c t -> nonneg_cap t.
Proof.
  destruct 1 as [r rate _ | r v rate volume _ (_ & _ & Hv)];
    unfold nonneg_cap; simpl; [reflexivity|].
  now apply (py_float_nonneg v).
Qed.

(* ===================================================================== *)
(** ** The order of floats *)
(* ===================================================================== *)

Lemma float_cmp_antisym (f g : pyfloat) :
  float_cmp g f = CompOpp (float_cmp f g).
Proof.
  unfold float_cmp.
  destruct (float_is_zero f), (float_is_zero g), (fneg f), (fneg g);
    try reflexivity; apply mag_cmp_antisym.
Qed.

(** "Not below" is transitive. *)
Lemma float_cmp_trans (f g h : pyfloat) :
  float_cmp f g <> Lt -> float_cmp g h <> Lt -> float_cmp f h <> Lt.
Proof.
  unfold float_cmp.
  destruct (float_is_zero f), (float_is_zero g), (float_is_zero h),
    (fneg f), (fneg g), (fneg h);
    try congruence;
    try apply mag_cmp_trans.
  intros H1 H2. apply (mag_cmp_trans h g f); assumption.
Qed.

Lemma num_le_refl (a : pynum) : num_le a a.
Proof.
  unfold num_le, num_ltb, float_ltb.
  pose proof (float_cmp_antisym (to_float a) (to_float a)) as H.
  destruct (float_cmp (to_float a) (to_float a)); simpl in H; congruence.
Qed.

Lemma num_le_trans (a b c : pynum) : num_le a b -> num_le b c -> num_le a c.
Proof.
  unfold num_le, num_ltb, float_ltb. intros H1 H2.
  assert (H : float_cmp (to_float c) (to_float a) <> Lt).
  { apply (float_cmp_trans _ (to_float b)).
    - destruct (float_cmp (to_float c) (to_float b)); congruence.
    - destruct (float_cmp (to_float b) (to_float a)); congruence. }
  destruct (float_cmp (to_float c) (to_float a)); congruence.
Qed.

Lemma num_ltb_le (a b : pynum) : num_ltb a b = true -> num_le a b.
Proof.
  unfold num_le, num_ltb, float_ltb.
  rewrite (float_cmp_antisym (to_float a) (to_float b)).
  destruct (float_cmp (to_float a) (to_float b)); simpl; congruence.
Qed.

(** [min] returns an element that no element is below, [max] one that no
    element is above. *)
Lemma min_from_least (xs : list pynum) :
  forall cur, exists m,
    In m (cur :: xs)
    /\ min_from cur (VNum cur) (map VNum xs) = Ok (VNum m)
    /\ Forall (num_le m) (cur :: xs).
Proof.
  induction xs as [|x xs IH]; intros cur.
  - exists cur. simpl. repeat split; auto using num_le_refl.
  - simpl. destruct (num_ltb x cur) eqn:E.
    + destruct (IH x) as (m & Hm & Em & Hall). exists m.
      inversion Hall as [|? ? Hmx Hrest]; subst.
      split; [simpl in *; tauto|]. split; [exact Em|].
      constructor; [|now constructor].
      apply (num_le_trans m x cur); [exact Hmx | now apply num_ltb_le].
    + destruct (IH cur) as (m & Hm & Em & Hall). exists m.
      inversion Hall as [|? ? Hmc Hrest]; subst.
      split; [simpl in *; tauto|]. split; [exact Em|].
      constructor; [exact Hmc|]. constructor; [|exact Hrest].
      apply (num_le_trans m cur x); [exact Hmc | exact E].
Qed.

Lemma max_from_greatest (xs : list pynum) :
  forall cur, exists m,
    In m (cur :: xs)
    /\ max_from cur (VNum cur) (map VNum xs) = Ok (VNum m)
    /\ Forall (fun x => num_le x m) (cur :: xs).
Proof.
  induction xs as [|x xs IH]; intros cur.
  - exists cur. simpl. repeat split; auto using num_le_refl.
  - simpl. destruct (num_ltb cur x) eqn:E.
    + destruct (IH x) as (m & Hm & Em & Hall). exists m.
      inversion Hall as [|? ? Hxm Hrest]; subst.
      split; [simpl in *; tauto|]. split; [exact Em|].
      constructor; [|now constructor].
      apply (num_le_trans cur x m); [now apply num_ltb_le | exact Hxm].
    + destruct (IH cur) as (m & Hm & Em & Hall). exists m.
      inversion Hall as [|? ? Hcm Hrest]; subst.
      split; [simpl in *; tauto|]. split; [exact Em|].
      constructor; [exact Hcm|]. constructor; [|exact Hrest].
      apply (num_le_trans x cur m); [exact E | exact Hcm].
Qed.

Lemma py_min_least (r : pynum) (rs : list pynum) :
  exists m,
    In m (r :: rs) /\ py_min (map VNum (r :: rs)) = Ok (VNum m)
    /\ Forall (num_le m) (r :: rs).
Proof.
  destruct rs as [|x xs].
  - exists r. simpl. repeat split; auto using num_le_refl.
  - destruct (min_from_least (x :: xs) r) as (m & Hm & E & Hall). exists m. auto.
Qed.

Lemma py_max_greatest (r : pynum) (rs : list pynum) :
  exists m,
    In m (r :: rs) /\ py_max (map VNum (r :: rs)) = Ok (VNum m)
    /\ Forall (fun x => num_le x m) (r :: rs).
Proof.
  destruct rs as [|x xs].
  - exists r. simpl. repeat split; auto using num_le_refl.
  - destruct (max_from_greatest (x :: xs) r) as (m & Hm & E & Hall).
    exists m. auto.
Qed.

(* ===================================================================== *)
(** ** Flat feed-in rates: reported, but without a tier text *)
(* ===================================================================== *)

Section FlatFitFacts.
Context {ops : FloatOps}.

Lemma flat_fits_rates (fits : list pyval) (rs : list pynum) :
  flat_fits fits rs ->
  exists per_fit,
    mapM solar_fit_entry_rates fits = Ok per_fit
    /\ List.concat per_fit = map VNum rs.
Proof.
  induction 1 as [| fit ty fits rs Hty HG _ (pf & Hm & Hc)
                  | fit ty r fits rs Hty HG Hr Hpos Hs _ (pf & Hm & Hc)].
  - exists []. split; reflexivity.
  - exists ([] :: pf). simpl. unfold solar_fit_entry_rates at 1.
    rewrite Hty. simpl. rewrite HG, Hm. simpl. auto.
  - exists ([VNum r] :: pf). simpl. unfold solar_fit_entry_rates at 1.
    rewrite Hty. simpl. rewrite HG, Hr, Hm. simpl. now rewrite Hc.
Qed.

Lemma flat_fits_details (fits : list pyval) (rs : list pynum) :
  flat_fits fits rs ->
  exists per_fit,
    mapM solar_fit_entry_details fits = Ok per_fit
    /\ List.concat per_fit = [].
Proof.
  induction 1 as [| fit ty fits rs Hty HG _ (pf & Hm & Hc)
                  | fit ty r fits rs Hty HG Hr Hpos Hs _ (pf & Hm & Hc)].
  - exists []. split; reflexivity.
  - exists ([] :: pf). simpl. unfold solar_fit_entry_details at 1.
    rewrite Hty. simpl. rewrite HG, Hm. simpl. auto.
  - exists ([] :: pf). simpl. unfold solar_fit_entry_details at 1.
    rewrite Hty. simpl. rewrite HG, Hs, Hm. simpl. auto.
Qed.

Lemma flat_fits_positive (fits : list pyval) (rs : list pynum) :
  flat_fits fits rs -> Forall (fun r => num_pos r = true) rs.
Proof. induction 1; auto. Qed.

Lemma filterM_positive_numbers (rs : list pynum) :
  Forall (fun r => num_pos r = true) rs ->
  filterM py_gt0 (map VNum rs) = Ok (map VNum rs).
Proof.
  induction 1 as [|r rs Hr _ IH]; [reflexivity|].
  cbn [map filterM]. rewrite IH. unfold py_gt0. simpl. now rewrite Hr.
Qed.

End FlatFitFacts.

Section RowFacts.
Context {ops : FloatOps} {disp : DisplayColumns}.

(** The solar columns of a row are the three solar extractors applied to the
    primary contract. *)
Lemma process_plan_solar_columns (plan : pyval) (postcode : string)
    (dn row : pyval) :
  process_plan plan postcode dn = Ok row ->
  exists contract fit_min fit_max details,
    primary_contract plan = Ok contract
    /\ extract_solar_fit_min contract = Ok fit_min
    /\ extract_solar_fit_max contract = Ok fit_max
    /\ extract_solar_fit_details contract = Ok details
    /\ py_get row "Solar FIT Min (c/kWh)" VNone = Ok fit_min
    /\ py_get row "Solar FIT Max (c/kWh)" VNone = Ok fit_max
    /\ py_get row "Solar FIT Details" (VStr "") = Ok (VStr details).
Proof.
  unfold process_plan, primary_contract. intros H.
  destruct (py_getitem plan "planData") as [pd|]; simpl in H |- *;
    [|discriminate].
  destruct (py_getitem pd "contract") as [cs|]; simpl in H |- *;
    [|discriminate].
  destruct (py_index0 cs) as [contract|]; simpl in H |- *; [|discriminate].
  inv_bind.
  exists contract. do 3 eexists.
  repeat match goal with |- _ /\ _ => split end;
    try reflexivity; eassumption.
Qed.

End RowFacts.

(** C9 as stated fails: the reported minimum and maximum are not the flat
    rate itself but [round(rate, 2)].  For the positive flat rate 0.004 no
    rounding to two places returns 0.004, whatever the float arithmetic,
    and in decimal arithmetic the reported maximum is 0.0: a feed-in
    tariff reported as zero. *)
Lemma flat_fit_rate_is_reported_rounded :
  flat_fits [VDict [("type", VStr "R"); ("rate", VNum (PFloat float_0_004))]]
            [PFloat float_0_004]
  /\ (forall ops : FloatOps,
      rounds_to_two_places ops ->
      extract_solar_fit_min contract_flat_fit_small
      <> Ok (VNum (PFloat float_0_004)))
  /\ (forall ops : FloatOps,
      rounds_to_two_places ops ->
      extract_solar_fit_max contract_flat_fit_small
      <> Ok (VNum (PFloat float_0_004)))
  /\ @extract_solar_fit_max decimal_ops contract_flat_fit_small
     = Ok (VNum (PFloat float_zero)).
Proof.
  split; [|split; [|split]].
  - eapply flat_retailer; try reflexivity. constructor.
  - intros ops Hops H. injection H as H.
    pose proof (Hops float_0_004) as Hp.
    rewrite H in Hp. vm_compute in Hp. now apply Hp.
  - intros ops Hops H. injection H as H.
    pose proof (Hops float_0_004) as Hp.
    rewrite H in Hp. vm_compute in Hp. now apply Hp.
  - reflexivity.
Qed.

Section FlatFitClaim.
Context {ops : FloatOps} {disp : DisplayColumns}.

(** C9 (amended). For every contract whose retailer (non-"G") feed-in
    entries carry only a flat positive [rate] and no tier, with at least one
    such entry: the collected rates are these flat rates; the reported
    minimum is [round(lo, 2)] for the smallest flat rate [lo] and the
    reported maximum [round(hi, 2)] for the largest one [hi]; the details
    text is "No solar feed-in tariff"; and for every row [process_plan]
    builds from a plan with this primary contract, the parsed tier list is
    empty and the solar credit of the calculator is zero for every
    export. *)
Theorem flat_fit_rate_reported_but_not_credited
    (contract : pyval) (fits : list pyval) (rs : list pynum) :
  py_get contract "solarFit" (VList []) = Ok (VList fits) ->
  flat_fits fits rs ->
  rs <> [] ->
  _collect_solar_fit_rates contract = Ok (map VNum rs)
  /\ (exists lo hi,
        In lo rs /\ Forall (num_le lo) rs
        /\ In hi rs /\ Forall (fun r => num_le r hi) rs
        /\ extract_solar_fit_min contract = py_round2 (VNum lo)
        /\ extract_solar_fit_max contract = py_round2 (VNum hi))
  /\ extract_solar_fit_details contract = Ok NO_FIT
  /\ (forall plan postcode dn row,
        primary_contract plan = Ok contract ->
        process_plan plan postcode dn = Ok row ->
        _parse_solar_fit_tiers row = Ok []
        /\ exists cells,
             calculator_solar_cells row = Ok cells
             /\ forall export, (solar_credit cells export == 0)%Q).
Proof.
  intros Hs Hflat Hne.
  assert (Hc : _collect_solar_fit_rates contract = Ok (map VNum rs)).
  { rewrite (collect_solar_fit_rates_list _ _ Hs).
    destruct (flat_fits_rates fits rs Hflat) as (pf & Hm & Hcat).
    rewrite Hm. simpl. rewrite Hcat.
    apply filterM_positive_numbers. now apply flat_fits_positive in Hflat. }
  assert (Hd : extract_solar_fit_details contract = Ok NO_FIT).
  { rewrite (extract_solar_fit_details_list _ _ Hs).
    destruct (flat_fits_details fits rs Hflat) as (pf & Hm & Hcat).
    rewrite Hm. simpl. now rewrite Hcat. }
  split; [exact Hc|]. split; [|split; [exact Hd|]].
  - destruct rs as [|r rs]; [congruence|].
    destruct (py_min_least r rs) as (lo & Hlo & Emin & Hleast).
    destruct (py_max_greatest r rs) as (hi & Hhi & Emax & Hgreatest).
    exists lo, hi. unfold extract_solar_fit_min, extract_solar_fit_max.
    rewrite Hc. cbn [bind map]. cbn [map] in Emin, Emax.
    rewrite Emin, Emax. repeat split; assumption.
  - intros plan postcode dn row Hpc Hrow.
    destruct (process_plan_solar_columns plan postcode dn row Hrow)
      as (c & mn & mx & details & Hpc' & _ & _ & Hd' & _ & _ & Hget).
    rewrite Hpc in Hpc'. injection Hpc' as <-.
    rewrite Hd in Hd'. injection Hd' as <-.
    assert (Hp : _parse_solar_fit_tiers row = Ok []).
    { unfold _parse_solar_fit_tiers. rewrite Hget. reflexivity. }
    split; [exact Hp|].
    unfold calculator_solar_cells. rewrite Hp. simpl.
    eexists. split; [reflexivity|].
    intros export. unfold solar_credit. simpl. ring.
Qed.

End FlatFitClaim.

(** C9 on a plan with the flat feed-in rate 7.0: the reported maximum is
    7.0, the description is the sentinel and the credit at an export of 12
    is zero. *)
Lemma flat_fit_rate_reported_but_not_credited_witness :
  extract_solar_fit_max contract_single_rate = Ok (VNum (PFloat float_7))
  /\ extract_solar_fit_details contract_single_rate
     = Ok "No solar feed-in tariff"
  /\ exists row cells,
       process_plan plan_flat_fit "2000" (VStr "Ausgrid") = Ok row
       /\ calculator_solar_cells row = Ok cells
       /\ (solar_credit cells 12 == 0)%Q.
Proof.
  destruct (@flat_fit_rate_reported_but_not_credited decimal_ops raw_display
              contract_single_rate
              [VDict [("type", VStr "R"); ("rate", VNum (PFloat float_7))]]
              [PFloat float_7] eq_refl)
    as (_ & _ & Hd & Hrow).
  - eapply flat_retailer; try reflexivity. constructor.
  - discriminate.
  - split; [reflexivity|]. split; [exact Hd|].
    destruct (Hrow plan_flat_fit "2000" (VStr "Ausgrid") _ eq_refl eq_refl)
      as (_ & cells & Hcells & Hcredit).
    eexists. exists cells. split; [reflexivity|]. split; [exact Hcells|].
    apply Hcredit.
Defined.

(* ===================================================================== *)
(** ** The calculator sheet: solar credit *)
(* ===================================================================== *)

(** With two tiers or more the credit is the capped formula when the first
    tier has a volume, and the flat one otherwise. *)
Lemma solar_credit_two_tiers (row : pyval) (r1 cap r2 c2 : pyfloat)
    (rest : list tier) (export : Q) :
  _parse_solar_fit_tiers row = Ok ((r1, cap) :: (r2, c2) :: rest) ->
  exists cells,
    calculator_solar_cells row = Ok cells
    /\ solar_credit cells export =
       if float_pos cap then
         (Qmin export (float_to_Q cap) * float_to_Q r1
          + Qmax (export - float_to_Q cap) 0 * float_to_Q r2)%Q
       else (export * float_to_Q r1)%Q.
Proof.
  intros H. unfold calculator_solar_cells. rewrite H. simpl.
  eexists. split; [reflexivity|].
  unfold solar_credit, solar_credit_formula. simpl.
  destruct (float_pos cap); reflexivity.
Qed.

(** With a single tier the credit is flat, whatever the tier's volume. *)
Lemma solar_credit_one_tier (row : pyval) (r1 cap : pyfloat) (export : Q) :
  _parse_solar_fit_tiers row = Ok [(r1, cap)] ->
  exists cells,
    calculator_solar_cells row = Ok cells
    /\ solar_credit cells export = (export * float_to_Q r1)%Q.
Proof.
  intros H. unfold calculator_solar_cells. rewrite H. simpl.
  eexists. split; reflexivity.
Qed.

(** C3. The calculator on a single tier with a cap.  The formatter writes
    [contract_capped_only] as "10c/kWh (first 8kWh/day)" (the tier at price
    0 is dropped); the first parsed tier has the cap 8 > 0, yet column Q holds
    the flat formula [=$B$5*I] and the credit for an export of 12 is 120,
    where the capped formula of the claim gives
    [min(12,8)*10 + max(12-8,0)*0 = 80].  With the remainder tier present,
    "10c/kWh (first 8kWh/day); 3c/kWh", the credit for an export of 12 is
    the 92 of the claim. *)
Theorem single_capped_tier_credit_ignores_cap :
  extract_solar_fit_details contract_capped_only
  = Ok "10c/kWh (first 8kWh/day)"
  /\ _parse_solar_fit_tiers (row_with_details "10c/kWh (first 8kWh/day)")
     = Ok [(float_10, float_8)]
  /\ float_pos float_8 = true
  /\ calculator_solar_cells (row_with_details "10c/kWh (first 8kWh/day)")
     = Ok (SolarCells (PFloat float_10) (PInt 0) (FMul (FCell B5) (FCell ColI)))
  /\ (solar_credit
        (SolarCells (PFloat float_10) (PInt 0) (FMul (FCell B5) (FCell ColI)))
        12 == 120)%Q
  /\ (Qmin 12 (float_to_Q float_8) * float_to_Q float_10
      + Qmax (12 - float_to_Q float_8) 0 * 0 == 80)%Q
  /\ (exists cells,
        calculator_solar_cells
          (row_with_details "10c/kWh (first 8kWh/day); 3c/kWh") = Ok cells
        /\ (solar_credit cells 12 == 92)%Q).
Proof.
  split; [reflexivity|].
  split; [reflexivity|]. split; [reflexivity|]. split; [reflexivity|].
  split; [reflexivity|]. split; [reflexivity|].
  eexists. split; reflexivity.
Qed.

(* ===================================================================== *)
(** ** The tier parser on the description of a row *)
(* ===================================================================== *)

Lemma join_render_head (c : clause) (cs : list clause) (t : tier) :
  clause_tier c t ->
  exists x rest,
    py_join_semi (map render (c :: cs)) = String x rest
    /\ is_digit_dot x = true.
Proof.
  intros H.
  assert (Hr : exists x r', render c = String x r' /\ is_digit_dot x = true).
  { destruct H as [r rate (Hne & Hr & _) | r v rate volume (Hne & Hr & _) _];
      (destruct r as [|x r]; [congruence|]);
      simpl in Hr; apply andb_true_iff in Hr as [Hx _];
      simpl; eauto. }
  destruct Hr as (x & r' & Er & Hx).
  destruct cs as [|c' cs].
  - simpl. rewrite Er. eauto.
  - change (py_join_semi (map render (c :: c' :: cs)))
      with (render c ^^ "; " ^^ py_join_semi (map render (c' :: cs))).
    rewrite Er. simpl. eauto.
Qed.

(** The parser on a row whose description is the joined clauses. *)
Lemma parse_row_of_clauses (row : pyval) (cs : list clause) (ts : list tier) :
  py_get row "Solar FIT Details" (VStr "")
  = Ok (VStr (py_join_semi (map render cs))) ->
  Forall2 clause_tier cs ts ->
  _parse_solar_fit_tiers row = Ok (sort_tiers ts).
Proof.
  intros Hrow H. unfold _parse_solar_fit_tiers. rewrite Hrow. cbn [bind].
  destruct H as [|c t cs ts Hc Hcs]; [reflexivity|].
  destruct (join_render_head c cs t Hc) as (x & rest & E & Hx).
  assert (Hguard : negb (truthy (VStr (String x rest)))
                   || py_eq_str (VStr (String x rest)) NO_FIT = false).
  { simpl. destruct (Ascii.eqb_spec x "N") as [->|]; [discriminate Hx|].
    reflexivity. }
  rewrite E, Hguard, <- E.
  apply parse_details_of_clauses. now constructor.
Qed.




(* ===================================================================== *)
(** ** Printing a number and reading it back *)
(* ===================================================================== *)

Lemma digit_char_digit (d : digit) : char_digit (digit_char d) = Some d.
Proof. destruct d; reflexivity. Qed.

Lemma read_str_digits (ds : list digit) : read_digits (str_digits ds) = Some ds.
Proof.
  induction ds as [|d ds IH]; [reflexivity|].
  simpl. rewrite digit_char_digit, IH. reflexivity.
Qed.

Lemma str_digits_app (a b : list digit) :
  str_digits (a ++ b) = str_digits a ^^ str_digits b.
Proof. induction a as [|d a IH]; simpl; congruence. Qed.

Lemma str_digits_all_digits (ds : list digit) :
  str_forall is_digit (str_digits ds) = true.
Proof.
  induction ds as [|d ds IH]; [reflexivity|].
  simpl. rewrite IH. unfold is_digit. now rewrite digit_char_digit.
Qed.

Lemma str_digits_digit_dot (ds : list digit) :
  str_forall is_digit_dot (str_digits ds) = true.
Proof.
  induction ds as [|d ds IH]; [reflexivity|].
  simpl. rewrite IH. unfold is_digit_dot, is_digit.
  now rewrite digit_char_digit.
Qed.

Lemma str_digits_nonempty (ds : list digit) : ds <> [] -> str_digits ds <> "".
Proof. destruct ds; [congruence | discriminate]. Qed.

(** [float] on an integer part and a fraction part of digits. *)
Lemma py_float_point (i fr : list digit) :
  py_float (str_digits i ^^ String "." (str_digits fr)) =
  match i ++ fr with
  | [] => Raise ValueError
  | d :: ds => Ok (canon false (d :: ds) (Z.of_nat (List.length i)))
  end.
Proof.
  unfold py_float.
  rewrite (span_app is_digit (str_digits i) (String "." (str_digits fr))
             (str_digits_all_digits i) eq_refl).
  rewrite !read_str_digits. reflexivity.
Qed.

Lemma py_float_digits (i : list digit) :
  py_float (str_digits i) =
  match i with
  | [] => Raise ValueError
  | d :: ds => Ok (canon false (d :: ds) (Z.of_nat (List.length i)))
  end.
Proof.
  unfold py_float.
  rewrite (span_all is_digit _ (str_digits_all_digits i)).
  rewrite read_str_digits. simpl. rewrite app_nil_r. reflexivity.
Qed.

Lemma strip_leading_zeros (n : nat) (ds : list digit) :
  strip_leading (repeat Dg0 n ++ ds) =
  (fst (strip_leading ds), (n + snd (strip_leading ds))%nat).
Proof.
  induction n as [|n IH]; simpl; [now destruct (strip_leading ds)|].
  rewrite IH. reflexivity.
Qed.

Lemma strip_leading_app (ds more : list digit) :
  ds <> [] -> strip_leading ds = (ds, 0%nat) ->
  strip_leading (ds ++ more) = (ds ++ more, 0%nat).
Proof.
  destruct ds as [|d ds]; [congruence|]. intros _ H.
  destruct d; try reflexivity.
  simpl in H. destruct (strip_leading ds). discriminate.
Qed.

Lemma strip_trailing_zeros (n : nat) (ds : list digit) :
  strip_trailing (ds ++ repeat Dg0 n) = strip_trailing ds.
Proof.
  induction ds as [|d ds IH]; simpl.
  - induction n as [|n IHn]; [reflexivity|]. simpl. now rewrite IHn.
  - now rewrite IH.
Qed.

Lemma canon_canonical (ds : list digit) (pt : Z) :
  canonical_digits ds -> canon false ds pt = PyFloat false ds pt.
Proof.
  intros (Hne & Hl & Ht). unfold canon. rewrite Hl, Ht.
  destruct ds; [congruence|]. f_equal. lia.
Qed.

Lemma append_nonempty_r (a b : string) : b <> "" -> a ^^ b <> "".
Proof. destruct a; simpl; [auto | discriminate]. Qed.

(** [float(repr(f)) == f] for a float in positional notation, and the text
    is digits with one dot. *)
Lemma float_repr_numeral (f : pyfloat) :
  plain_float f -> numeral (float_repr f) f.
Proof.
  destruct f as [neg ds pt]. unfold plain_float. simpl.
  intros (-> & Hcan & Hlo & Hhi).
  pose proof Hcan as (Hne & Hl & Ht).
  destruct ds as [|d rest]; [congruence|].
  unfold float_repr. cbn [fneg fdigits fpt].
  set (ds := d :: rest) in *.
  assert (Hrange : (-4 <? pt) && (pt <=? 16) = true).
  { apply andb_true_iff. split; [apply Z.ltb_lt | apply Z.leb_le]; lia. }
  rewrite Hrange. cbn [String.append].
  destruct (Z.leb_spec pt 0) as [Hpt|Hpt].
  - (* 0.000ddd *)
    split; [discriminate|]. split.
    + cbn [str_forall]. now rewrite str_digits_digit_dot.
    + change (String "0" (String "."
                (str_digits (repeat Dg0 (Z.to_nat (- pt)) ++ ds))))
        with (str_digits [Dg0]
              ^^ String "." (str_digits (repeat Dg0 (Z.to_nat (- pt)) ++ ds))).
      rewrite py_float_point. cbn [app].
      unfold canon.
      change (Dg0 :: repeat Dg0 (Z.to_nat (- pt)) ++ ds)
        with (repeat Dg0 (S (Z.to_nat (- pt))) ++ ds).
      rewrite strip_leading_zeros, Hl. cbn [fst snd]. rewrite Ht.
      unfold ds at 1. f_equal. f_equal. simpl List.length. lia.
  - destruct (Z.ltb_spec pt (Z.of_nat (List.length ds))) as [Hk|Hk].
    + (* dd.ddd *)
      split; [|split].
      * apply append_nonempty_r. discriminate.
      * rewrite str_forall_app, str_digits_digit_dot.
        cbn [String.append str_forall]. now rewrite str_digits_digit_dot.
      * rewrite py_float_point, firstn_skipn.
        unfold ds at 1. rewrite (canon_canonical ds _ Hcan).
        f_equal. f_equal. rewrite length_firstn. lia.
    + (* ddd000.0 *)
      split; [|split].
      * apply append_nonempty_r. discriminate.
      * rewrite str_forall_app, str_digits_digit_dot. reflexivity.
      * change ".0" with (String "." (str_digits [Dg0])).
        rewrite py_float_point.
        rewrite <- app_assoc. unfold ds at 1. cbn [app].
        unfold canon.
        change (d :: rest
                  ++ repeat Dg0 (Z.to_nat (pt - Z.of_nat (List.length ds)))
                  ++ [Dg0])
          with (ds ++ repeat Dg0 (Z.to_nat (pt - Z.of_nat (List.length ds)))
                   ++ repeat Dg0 1).
        rewrite (strip_leading_app ds _ Hne Hl).
        rewrite <- repeat_app, strip_trailing_zeros, Ht.
        unfold ds at 1. f_equal. f_equal.
        rewrite length_app, repeat_length. lia.
Qed.

Lemma digits_of_Z_pos_nonempty (z : Z) : 0 < z -> digits_of_Z z <> [].
Proof.
  destruct z as [|p|p]; try lia. intros _. simpl.
  pose proof (DecimalPos.Unsigned.to_uint_nonnil p) as H.
  destruct (Pos.to_uint p); [congruence | discriminate ..].
Qed.

Lemma int_str_numeral (z : Z) : 0 < z -> numeral (int_str z) (float_of_Z z).
Proof.
  intros Hz. unfold int_str, float_of_Z.
  destruct (Z.ltb_spec z 0) as [|_]; [lia|]. cbn [String.append].
  pose proof (digits_of_Z_pos_nonempty z Hz) as Hne.
  split; [now apply str_digits_nonempty|]. split.
  - apply str_digits_digit_dot.
  - rewrite py_float_digits. destruct (digits_of_Z z); [congruence|].
    reflexivity.
Qed.

(** The text of a plain number is a numeral that reads as the number. *)
Lemma num_str_numeral (n : pynum) :
  plain_number n -> numeral (num_str n) (to_float n).
Proof.
  destruct n as [z|f]; simpl.
  - intros [Hz _]. now apply int_str_numeral.
  - apply float_repr_numeral.
Qed.

(* ===================================================================== *)
(** ** Round trip: the formatter's text read back by the parser *)
(* ===================================================================== *)

Lemma clause_of_tier (e : raw_tier) :
  plain_tier e -> clause_tier (clause_of e) (tier_of e).
Proof.
  intros [Hp Hv]. unfold clause_of, tier_of.
  destruct (num_pos (snd e)).
  - constructor; apply num_str_numeral; auto.
  - constructor. now apply num_str_numeral.
Qed.

Lemma tier_detail_entry (sr : pyval) (e : raw_tier) :
  tier_entry sr e ->
  tier_detail sr = Ok (if num_pos (fst e) then [render (clause_of e)] else []).
Proof.
  intros [Hp Hv]. unfold tier_detail, clause_of. rewrite Hp, Hv.
  cbn [bind py_gt0 as_num py_format].
  destruct (num_pos (fst e)); [|reflexivity].
  destruct (num_pos (snd e)); reflexivity.
Qed.

Lemma concat_kept (es : list raw_tier) :
  List.concat
    (map (fun e => if num_pos (fst e) then [render (clause_of e)] else []) es)
  = map render (map clause_of (formatted_tiers es)).
Proof.
  induction es as [|e es IH]; [reflexivity|].
  simpl. destruct (num_pos (fst e)); simpl; now rewrite IH.
Qed.

Lemma tier_details_entries (srs : list pyval) (es : list raw_tier) :
  Forall2 tier_entry srs es ->
  mapM tier_detail srs
  = Ok (map (fun e => if num_pos (fst e) then [render (clause_of e)] else [])
            es).
Proof.
  intros H. apply mapM_Forall2.
  induction H as [|sr e srs es He _ IH]; simpl; constructor; auto.
  now apply tier_detail_entry.
Qed.

Lemma formatted_tiers_app (a b : list raw_tier) :
  formatted_tiers (a ++ b) = formatted_tiers a ++ formatted_tiers b.
Proof. apply filter_app. Qed.

Lemma fit_details_entries (fits : list pyval) (es : list raw_tier) :
  fit_tier_entries fits es ->
  exists per_fit,
    mapM solar_fit_entry_details fits = Ok per_fit
    /\ List.concat per_fit = map render (map clause_of (formatted_tiers es)).
Proof.
  induction 1 as [| fit ty fits es Hty HG _ (pf & Hm & Hc)
                  | fit ty srs es1 fits es Hty HG Hs He _ (pf & Hm & Hc)].
  - exists []. split; reflexivity.
  - exists ([] :: pf). cbn [mapM]. unfold solar_fit_entry_details at 1.
    rewrite Hty. cbn [bind]. rewrite HG, Hm. auto.
  - exists (map render (map clause_of (formatted_tiers es1)) :: pf).
    cbn [mapM]. unfold solar_fit_entry_details at 1.
    rewrite Hty. cbn [bind]. rewrite HG, Hs. cbn [bind py_iter].
    rewrite (tier_details_entries _ _ He). cbn [bind].
    rewrite concat_kept, Hm. split; [reflexivity|].
    cbn [List.concat]. rewrite Hc, formatted_tiers_app, !map_app.
    reflexivity.
Qed.

(** C5 as stated fails: the formatter writes the tier (1e-05, uncapped) as
    "1e-05c/kWh", which the tier pattern does not match, so the parser
    returns no tier at all. *)
Lemma exponent_notation_breaks_round_trip :
  fit_tier_entries
    [VDict [("type", VStr "R");
            ("singleTariffRates",
               VList [VDict [("unitPrice", VNum (PFloat float_1e_5))]])]]
    [(PFloat float_1e_5, PInt 0)]
  /\ formatted_tiers [(PFloat float_1e_5, PInt 0)]
     = [(PFloat float_1e_5, PInt 0)]
  /\ extract_solar_fit_details contract_tiny_tier = Ok "1e-05c/kWh"
  /\ _parse_solar_fit_tiers (row_with_details "1e-05c/kWh") = Ok []
  /\ ~ Permutation [tier_of (PFloat float_1e_5, PInt 0)] [].
Proof.
  split; [|split; [|split; [|split]]]; try reflexivity.
  - apply (tiers_retailer _ (VStr "R")
             [VDict [("unitPrice", VNum (PFloat float_1e_5))]]
             [(PFloat float_1e_5, PInt 0)] [] []); try reflexivity.
    + repeat constructor.
    + constructor.
  - intros H. apply Permutation_length in H. discriminate H.
Qed.

(** C5 (amended). For every contract whose [solarFit] is a list with
    numeric tier entries: when the price and the cap of every tier the
    formatter writes (price above zero) print as plain numbers, i.e. floats
    in positional notation (not below 0.0001, below 1e16) or ints up to
    2^53, the description [extract_solar_fit_details] returns is parsed by
    the tier parser into exactly those tiers, as floats, the cap [0.0] for
    a tier without volume: a permutation ordered capped first by
    descending cap, uncapped last. *)
Theorem parse_recovers_formatted_tiers
    (contract : pyval) (fits : list pyval) (es : list raw_tier) :
  py_get contract "solarFit" (VList []) = Ok (VList fits) ->
  fit_tier_entries fits es ->
  Forall plain_tier (formatted_tiers es) ->
  exists details,
    extract_solar_fit_details contract = Ok details
    /\ forall row,
         py_get row "Solar FIT Details" (VStr "") = Ok (VStr details) ->
         _parse_solar_fit_tiers row
         = Ok (sort_tiers (map tier_of (formatted_tiers es)))
         /\ Permutation (map tier_of (formatted_tiers es))
                        (sort_tiers (map tier_of (formatted_tiers es)))
         /\ StronglySorted before
              (sort_tiers (map tier_of (formatted_tiers es))).
Proof.
  intros Hs Hes Hplain.
  destruct (fit_details_entries fits es Hes) as (pf & Hm & Hc).
  exists (details_text (map render (map clause_of (formatted_tiers es)))).
  split.
  - rewrite (extract_solar_fit_details_list _ _ Hs), Hm. cbn [bind].
    now rewrite Hc.
  - intros row Hrow.
    assert (Hct : Forall2 clause_tier (map clause_of (formatted_tiers es))
                          (map tier_of (formatted_tiers es))).
    { clear -Hplain. induction Hplain as [|e l He _ IH]; simpl; constructor;
        auto using clause_of_tier. }
    split; [|split].
    + destruct (formatted_tiers es) as [|e l] eqn:E.
      * unfold _parse_solar_fit_tiers. rewrite Hrow. reflexivity.
      * apply (parse_row_of_clauses row _ _ Hrow Hct).
    + apply sort_tiers_perm.
    + apply sort_tiers_sorted.
      clear -Hct. induction Hct as [|c t cs ts Hc _ IH]; constructor; auto.
      now apply (clause_tier_nonneg c).
Qed.

(** C5 on the contract with two tiers: the formatter's text and what the
    parser reads back from it. *)
Lemma parse_recovers_formatted_tiers_witness :
  extract_solar_fit_details contract_two_tiers
  = Ok "3.0c/kWh; 10c/kWh (first 8.0kWh/day)"
  /\ _parse_solar_fit_tiers
       (row_with_details "3.0c/kWh; 10c/kWh (first 8.0kWh/day)")
     = Ok [(float_10, float_8); (float_3, float_zero)].
Proof.
  destruct (parse_recovers_formatted_tiers contract_two_tiers _
              [(PFloat float_3, PInt 0); (PInt 10, PFloat float_8)] eq_refl)
    as (details & Hd & Hrow).
  - eapply tiers_government; try reflexivity.
    apply (tiers_retailer
             (VDict [("type", VStr "R");
                     ("singleTariffRates", VList [
                        VDict [("unitPrice", VNum (PFloat float_3))];
                        VDict [("unitPrice", VNum (PInt 10));
                               ("volume", VNum (PFloat float_8))]])])
             (VStr "R")
             [VDict [("unitPrice", VNum (PFloat float_3))];
              VDict [("unitPrice", VNum (PInt 10));
                     ("volume", VNum (PFloat float_8))]]
             [(PFloat float_3, PInt 0); (PInt 10, PFloat float_8)] [] []);
      try reflexivity.
    + repeat constructor.
    + constructor.
  - repeat constructor; simpl; try lia; try discriminate.
  - split; [reflexivity|].
    assert (E : Ok details
                = Ok "3.0c/kWh; 10c/kWh (first 8.0kWh/day)")
      by (rewrite <- Hd; reflexivity).
    injection E as ->.
    exact (proj1 (Hrow (row_with_details
                          "3.0c/kWh; 10c/kWh (first 8.0kWh/day)") eq_refl)).
Defined.

(* ===================================================================== *)
(** ** The filter as a list filter *)
(* ===================================================================== *)

(** What the loop of [filter_plans] returns, in terms of the gates. *)
Lemma filter_loop_filter (icl idem : bool) (plans : list pyval) :
  forall f c,
    filter_loop icl idem plans [] stats_zero = Ok (f, c) ->
    f = filter (passes_gates icl idem) plans
    /\ demand_filtered c
       = List.length (filter (removed_for_demand idem) plans)
    /\ controlled_load_filtered c
       = List.length (filter (removed_for_controlled_load icl idem) plans).
Proof.
  induction plans as [|plan rest IH]; intros f c H.
  - simpl in H. injection H as <- <-. repeat split.
  - simpl in H. unfold passes_gates, removed_for_controlled_load,
      removed_for_demand. simpl.
    destruct idem, icl; simpl in H |- *;
      repeat match type of H with
      | context [plan_has_demand_charge plan] =>
          destruct (plan_has_demand_charge plan) as [[|]|?]; simpl in H |- *
      | context [plan_has_controlled_load plan] =>
          destruct (plan_has_controlled_load plan) as [[|]|?]; simpl in H |- *
      end;
      try discriminate;
      rewrite filter_loop_from in H;
      destruct (filter_loop _ _ rest [] stats_zero) as [[f' c']|e'] eqn:E;
      try discriminate;
      injection H as <- <-; destruct (IH _ _ eq_refl) as (-> & H2 & H3);
      simpl; rewrite ?H2, ?H3; repeat split; reflexivity.
Qed.

(** On a list the loop has kept, the loop keeps everything. *)
Lemma filter_loop_kept_again (icl idem : bool) (plans : list pyval) :
  forall f c,
    filter_loop icl idem plans [] stats_zero = Ok (f, c) ->
    filter_loop icl idem f [] stats_zero = Ok (f, stats_zero).
Proof.
  induction plans as [|plan rest IH]; intros f c H.
  - simpl in H. injection H as <- <-. reflexivity.
  - simpl in H.
    destruct (if negb idem then plan_has_demand_charge plan else Ok false)
      as [[|]|e] eqn:Ed; simpl in H; [| |discriminate].
    + rewrite filter_loop_from in H.
      destruct (filter_loop icl idem rest [] stats_zero) as [[f' c']|e] eqn:E;
        [|discriminate].
      injection H as <- <-. now apply (IH _ c').
    + destruct (if negb icl then plan_has_controlled_load plan else Ok false)
        as [[|]|e] eqn:Ec; simpl in H; [| |discriminate].
      * rewrite filter_loop_from in H.
        destruct (filter_loop icl idem rest [] stats_zero)
          as [[f' c']|e] eqn:E; [|discriminate].
        injection H as <- <-. now apply (IH _ c').
      * rewrite filter_loop_from in H.
        destruct (filter_loop icl idem rest [] stats_zero)
          as [[f' c']|e] eqn:E; [|discriminate].
        injection H as <- <-. simpl. rewrite Ed. simpl. rewrite Ec. simpl.
        rewrite filter_loop_from, (IH _ _ eq_refl). reflexivity.
Qed.

(** X1. Whenever [filter_plans] returns, the list it returns is the input
    list without the plans an active gate removes, in the input order, and
    the two counters count the plans removed by the demand gate and, among
    the plans that gate let pass, by the controlled load gate. *)
Theorem filter_plans_keeps_ungated_plans_in_order
    (plans filtered : list pyval) (icl idem : bool) (stats : filter_stats) :
  filter_plans plans icl idem = Ok (filtered, stats) ->
  filtered = filter (passes_gates icl idem) plans
  /\ demand_filtered stats
     = List.length (filter (removed_for_demand idem) plans)
  /\ controlled_load_filtered stats
     = List.length (filter (removed_for_controlled_load icl idem) plans).
Proof.
  intros H. rewrite filter_plans_unfold in H.
  destruct (filter_loop icl idem plans [] stats_zero) as [[f c]|e] eqn:E;
    [|discriminate].
  injection H as <- <-. simpl. now apply filter_loop_filter.
Qed.

Lemma filter_plans_keeps_ungated_plans_in_order_witness :
  filter (passes_gates false false) [plan_plain; plan_both_gates; plan_plain]
  = [plan_plain; plan_plain]
  /\ List.length (filter (removed_for_demand false)
                    [plan_plain; plan_both_gates; plan_plain]) = 1%nat.
Proof.
  destruct (filter_plans_keeps_ungated_plans_in_order
              [plan_plain; plan_both_gates; plan_plain]
              [plan_plain; plan_plain] false false (FilterStats 3 1 0 2)
              eq_refl) as (H1 & H2 & _).
  split; [now rewrite <- H1 | now rewrite <- H2].
Defined.

(** X2. Filtering is idempotent: the list [filter_plans] returns passes the
    same filter unchanged, with nothing counted as removed. *)
Theorem filter_plans_idempotent
    (plans filtered : list pyval) (icl idem : bool) (stats : filter_stats) :
  filter_plans plans icl idem = Ok (filtered, stats) ->
  filter_plans filtered icl idem
  = Ok (filtered,
        FilterStats (List.length filtered) 0 0 (List.length filtered)).
Proof.
  intros H. rewrite filter_plans_unfold in H.
  destruct (filter_loop icl idem plans [] stats_zero) as [[f c]|e] eqn:E;
    [|discriminate].
  injection H as <- _.
  rewrite filter_plans_unfold, (filter_loop_kept_again _ _ _ _ _ E).
  reflexivity.
Qed.

Lemma filter_plans_idempotent_witness :
  filter_plans [plan_plain] false false
  = Ok ([plan_plain], FilterStats 1 0 0 1).
Proof.
  exact (filter_plans_idempotent [plan_both_gates; plan_plain] [plan_plain]
           false false (FilterStats 2 1 0 1) eq_refl).
Defined.

(* ===================================================================== *)
(** ** Usage rates: minimum, maximum, peak and off-peak *)
(* ===================================================================== *)

Lemma float_vals_map (rates : list pyfloat) :
  float_vals rates = map VNum (map PFloat rates).
Proof. unfold float_vals. now rewrite map_map. Qed.

Section UsageRateFacts.
Context {ops : FloatOps}.

(** X3. The usage columns of a contract.  With no usage rate the minimum
    and the maximum are [None]; otherwise they are rates of the contract,
    no rate is below the minimum and none above the maximum.  For a
    contract whose [pricingModel] is "TOU" the peak rate is the maximum
    and the off-peak rate the minimum, so the off-peak rate is never above
    the peak rate; for any other pricing model both are [None]. *)
Theorem usage_rate_columns_are_extremes (contract : pyval) :
  (forall rates,
      _collect_usage_rates contract = Ok rates ->
      match rates with
      | [] =>
          extract_usage_rate_min contract = Ok VNone
          /\ extract_usage_rate_max contract = Ok VNone
      | _ =>
          exists lo hi,
            In lo rates /\ In hi rates
            /\ extract_usage_rate_min contract = Ok (VNum (PFloat lo))
            /\ extract_usage_rate_max contract = Ok (VNum (PFloat hi))
            /\ Forall (fun r => num_le (PFloat lo) (PFloat r)
                                /\ num_le (PFloat r) (PFloat hi)) rates
      end)
  /\ (forall pm,
      py_get contract "pricingModel" VNone = Ok pm ->
      if py_eq_str pm "TOU" then
        extract_tou_peak_rate contract = extract_usage_rate_max contract
        /\ extract_tou_offpeak_rate contract = extract_usage_rate_min contract
      else
        extract_tou_peak_rate contract = Ok VNone
        /\ extract_tou_offpeak_rate contract = Ok VNone).
Proof.
  split.
  - intros rates H.
    unfold extract_usage_rate_min, extract_usage_rate_max. rewrite H.
    cbn [bind]. destruct rates as [|r rs]; [split; reflexivity|].
    rewrite float_vals_map.
    destruct (py_min_least (PFloat r) (map PFloat rs))
      as (lo & Hlo & Emin & Hleast).
    destruct (py_max_greatest (PFloat r) (map PFloat rs))
      as (hi & Hhi & Emax & Hgreatest).
    change (PFloat r :: map PFloat rs) with (map PFloat (r :: rs)) in *.
    apply in_map_iff in Hlo as (lo' & <- & Hlo).
    apply in_map_iff in Hhi as (hi' & <- & Hhi).
    exists lo', hi'. rewrite Emin, Emax.
    repeat split; try assumption.
    rewrite Forall_map in Hleast, Hgreatest.
    apply Forall_forall. intros x Hx.
    rewrite Forall_forall in Hleast, Hgreatest. auto.
  - intros pm Hpm. unfold extract_tou_peak_rate, extract_tou_offpeak_rate.
    rewrite Hpm. cbn [bind]. destruct (py_eq_str pm "TOU"); split; reflexivity.
Qed.

End UsageRateFacts.

(** X3 on the time-of-use contract with the blocks 20.0 and 35.0 ex-GST:
    off-peak 22.0, peak 38.5. *)
Lemma usage_rate_columns_are_extremes_witness :
  extract_tou_offpeak_rate contract_time_of_use
  = Ok (VNum (PFloat float_22))
  /\ extract_tou_peak_rate contract_time_of_use
     = Ok (VNum (PFloat float_38_5))
  /\ num_le (PFloat float_22) (PFloat float_38_5).
Proof.
  destruct (@usage_rate_columns_are_extremes decimal_ops contract_time_of_use)
    as (Hext & Htou).
  destruct (Htou (VStr "TOU") eq_refl) as (Hpeak & Hoff).
  specialize (Hext [float_22; float_38_5] eq_refl).
  destruct Hext as (lo & hi & _ & _ & Emin & Emax & Hall).
  rewrite Hoff, Hpeak.
  split; [reflexivity|]. split; [reflexivity|]. reflexivity.
Defined.

(* ===================================================================== *)
(** ** The tier parser on any description *)
(* ===================================================================== *)

Lemma parse_parts_nonneg (parts : list string) :
  forall ts, parse_parts parts = Ok ts -> Forall nonneg_tier ts.
Proof.
  induction parts as [|part rest IH]; intros ts H; simpl in H.
  - injection H as <-. constructor.
  - destruct (match_tier (py_strip part)) as [[g1 g2]|]; [|now apply IH].
    destruct (py_float g1) as [rate|] eqn:Er; simpl in H; [|discriminate].
    destruct (match g2 with Some s => py_float s | None => Ok float_zero end)
      as [volume|] eqn:Ev; simpl in H; [|discriminate].
    destruct (parse_parts rest) as [ts'|]; simpl in H; [|discriminate].
    injection H as <-. constructor; [|now apply IH].
    split; simpl.
    + now apply (py_float_nonneg g1).
    + destruct g2 as [s|]; [now apply (py_float_nonneg s)|].
      now injection Ev as <-.
Qed.

Lemma nonneg_tier_cap (t : tier) : nonneg_tier t -> nonneg_cap t.
Proof. now intros [_ H]. Qed.

(** What the parser returns on any row. *)
Lemma parse_row_sorted (row : pyval) (tiers : list tier) :
  _parse_solar_fit_tiers row = Ok tiers ->
  StronglySorted before tiers /\ Forall nonneg_tier tiers.
Proof.
  unfold _parse_solar_fit_tiers. intros H.
  destruct (py_get row "Solar FIT Details" (VStr "")) as [details|];
    simpl in H; [|discriminate].
  destruct (negb (truthy details) || py_eq_str details NO_FIT).
  - injection H as <-. split; constructor.
  - destruct details as [| | |s| |]; try discriminate.
    unfold parse_details in H.
    destruct (parse_parts (py_split_semi s)) as [ts|] eqn:E; simpl in H;
      [|discriminate].
    injection H as <-. apply parse_parts_nonneg in E.
    split.
    + apply sort_tiers_sorted.
      eapply Forall_impl; [|exact E]. apply nonneg_tier_cap.
    + apply (Permutation_Forall (sort_tiers_perm ts)). exact E.
Qed.

(** X4. Whatever text the row holds as its feed-in description: when the
    parser returns, the tiers it returns are ordered, every tier standing
    before the tiers that are uncapped or have a cap that is not greater,
    and no rate and no cap is negative. *)
Theorem parsed_tiers_are_ordered_for_any_text
    (row : pyval) (tiers : list tier) :
  _parse_solar_fit_tiers row = Ok tiers ->
  StronglySorted before tiers /\ Forall nonneg_tier tiers.
Proof. apply parse_row_sorted. Qed.

(** X4 on a description with text around its clauses: the parts that do
    not start with a rate are skipped, the two tiers come out ordered. *)
Lemma parsed_tiers_are_ordered_for_any_text_witness :
  _parse_solar_fit_tiers row_with_noise
  = Ok [(float_10, float_8); (float_3, float_zero)]
  /\ StronglySorted before [(float_10, float_8); (float_3, float_zero)].
Proof.
  split; [reflexivity|].
  exact (proj1 (parsed_tiers_are_ordered_for_any_text row_with_noise
                  [(float_10, float_8); (float_3, float_zero)] eq_refl)).
Defined.

(* ===================================================================== *)
(** ** The solar credit grows with the export *)
(* ===================================================================== *)

Lemma Z_of_digits_acc_nonneg (ds : list digit) :
  forall acc, (0 <= acc)%Z -> (0 <= Z_of_digits_acc acc ds)%Z.
Proof.
  induction ds as [|d ds IH]; intros acc H; cbn [Z_of_digits_acc];
    [exact H|].
  apply IH. destruct d; unfold digit_val; lia.
Qed.

Lemma float_to_Q_nonneg (f : pyfloat) :
  fneg f = false -> (0 <= float_to_Q f)%Q.
Proof.
  intros H. unfold float_to_Q. rewrite H.
  pose proof (Z_of_digits_acc_nonneg (fdigits f) 0 (Z.le_refl 0)) as Hm.
  fold (Z_of_digits (fdigits f)) in Hm.
  destruct (0 <=? fpt f - Z.of_nat (List.length (fdigits f)))%Z eqn:E.
  - apply Z.leb_le in E. unfold Qle. simpl.
    rewrite Z.mul_1_r. apply Z.mul_nonneg_nonneg; [exact Hm|].
    now apply Z.pow_nonneg.
  - unfold Qle. simpl. lia.
Qed.

(** The credit of a flat formula and of a capped one grows with the
    export, from zero. *)
Lemma flat_credit_monotone (r e1 e2 : Q) :
  (0 <= r)%Q -> (0 <= e1)%Q -> (e1 <= e2)%Q ->
  (0 <= e1 * r /\ e1 * r <= e2 * r)%Q.
Proof.
  intros Hr H1 H2. split.
  - now apply Qmult_le_0_compat.
  - now apply Qmult_le_compat_r.
Qed.

Lemma capped_credit_monotone (r1 r2 cap e1 e2 : Q) :
  (0 <= r1)%Q -> (0 <= r2)%Q -> (0 <= cap)%Q ->
  (0 <= e1)%Q -> (e1 <= e2)%Q ->
  (0 <= Qmin e1 cap * r1 + Qmax (e1 - cap) 0 * r2
   /\ Qmin e1 cap * r1 + Qmax (e1 - cap) 0 * r2
      <= Qmin e2 cap * r1 + Qmax (e2 - cap) 0 * r2)%Q.
Proof.
  intros Hr1 Hr2 Hc H1 H2. split.
  - apply (Qplus_le_compat 0 _ 0 _).
    + apply Qmult_le_0_compat; [|exact Hr1]. now apply Q.min_glb.
    + apply Qmult_le_0_compat; [|exact Hr2]. apply Q.le_max_r.
  - apply Qplus_le_compat.
    + apply Qmult_le_compat_r; [|exact Hr1]. now apply Q.min_le_compat_r.
    + apply Qmult_le_compat_r; [|exact Hr2]. apply Q.max_le_compat_r.
      unfold Qminus. now apply Qplus_le_compat; [|apply Qle_refl].
Qed.

Lemma solar_credit_monotone
    (row : pyval) (cells : solar_cells) :
  calculator_solar_cells row = Ok cells ->
  (solar_credit cells 0 == 0)%Q
  /\ (forall e1 e2 : Q,
      (0 <= e1)%Q -> (e1 <= e2)%Q ->
      (0 <= solar_credit cells e1)%Q
      /\ (solar_credit cells e1 <= solar_credit cells e2)%Q).
Proof.
  unfold calculator_solar_cells. intros H.
  destruct (_parse_solar_fit_tiers row) as [tiers|] eqn:E; simpl in H;
    [|discriminate].
  apply parse_row_sorted in E as [_ Hnn].
  destruct tiers as [|[r1 cap] [|[r2 c2] rest]]; injection H as <-.
  - unfold solar_credit. simpl. split; [reflexivity|].
    intros e1 e2 H1 H2. now apply flat_credit_monotone.
  - inversion Hnn as [|? ? [Hr1 _] _]; subst. simpl in Hr1.
    unfold solar_credit. simpl. split; [ring|].
    intros e1 e2 H1 H2. apply flat_credit_monotone; auto.
    now apply float_to_Q_nonneg.
  - inversion Hnn as [|? ? [Hr1 Hcap] Hrest]; subst.
    inversion Hrest as [|? ? [Hr2 _] _]; subst. simpl in Hr1, Hcap, Hr2.
    apply float_to_Q_nonneg in Hr1, Hr2, Hcap.
    unfold solar_credit, solar_credit_formula. simpl.
    destruct (float_pos cap); simpl.
    + split.
      * rewrite Q.min_l by exact Hcap.
        rewrite Q.max_r; [ring|].
        unfold Qminus. rewrite Qplus_0_l.
        apply (Qopp_le_compat 0). exact Hcap.
      * intros e1 e2 H1 H2. now apply capped_credit_monotone.
    + split; [ring|].
      intros e1 e2 H1 H2. now apply flat_credit_monotone.
Qed.

(** X5. The solar credit of the calculator, for any row the calculator's
    solar cells can be computed from: no export gives no credit, and for
    exports that are not negative the credit is not negative and grows
    with the export. *)
Theorem solar_credit_is_monotone_from_zero
    (row : pyval) (cells : solar_cells) :
  calculator_solar_cells row = Ok cells ->
  (solar_credit cells 0 == 0)%Q
  /\ (forall e1 e2 : Q,
      (0 <= e1)%Q -> (e1 <= e2)%Q ->
      (0 <= solar_credit cells e1)%Q
      /\ (solar_credit cells e1 <= solar_credit cells e2)%Q).
Proof. apply solar_credit_monotone. Qed.

(** X5 on the two-tier description: the credit at an export of 12 is not
    below the credit at an export of 8. *)
Lemma solar_credit_is_monotone_from_zero_witness :
  exists cells,
    calculator_solar_cells
      (row_with_details "10c/kWh (first 8kWh/day); 3c/kWh") = Ok cells
    /\ (solar_credit cells 8 <= solar_credit cells 12)%Q.
Proof.
  exists (SolarCells (PFloat float_10) (PFloat float_3)
            (solar_credit_formula (PFloat float_8))).
  split; [reflexivity|].
  refine (proj2 (proj2 (solar_credit_is_monotone_from_zero
                          (row_with_details "10c/kWh (first 8kWh/day); 3c/kWh")
                          _ eq_refl)
                   8%Q 12%Q _ _));
    unfold Qle; simpl; lia.
Defined.

(* ===================================================================== *)
(** ** Distributor selection: probes, prompt and [--dist] *)
(* ===================================================================== *)

Lemma probe_available_probed (w : world) (ds : list distributor) :
  Forall (fun d' => exists d, In d ds /\ probed w d d') (probe_available w ds).
Proof.
  induction ds as [|d rest IH]; simpl; [constructor|].
  destruct (Z.ltb_spec 0 (probe_distributor_plans w (dist_id d))) as [H|H].
  - constructor.
    + exists d. split; [now left|]. repeat split; auto.
    + eapply Forall_impl; [|exact IH].
      intros d' (d0 & Hin & Hp). exists d0. split; [now right | exact Hp].
  - eapply Forall_impl; [|exact IH].
    intros d' (d0 & Hin & Hp). exists d0. split; [now right | exact Hp].
Qed.

Lemma probe_available_ids (w : world) (ds : list distributor) :
  map dist_id (probe_available w ds) = map dist_id (filter (has_plans w) ds).
Proof.
  induction ds as [|d rest IH]; [reflexivity|].
  simpl. unfold has_plans at 1.
  destruct (0 <? probe_distributor_plans w (dist_id d)); simpl; congruence.
Qed.

Lemma prompt_choice_among (available : list distributor)
    (input : list choice) (ds : list distributor) :
  prompt_choice available input = Selected ds ->
  ds <> [] -> incl ds available.
Proof.
  induction input as [|c rest IH]; simpl; [discriminate|].
  destruct c as [|n|]; [| |exact IH].
  - intros H _. injection H as <-. apply incl_refl.
  - destruct ((0 <=? n - 1) && (n - 1 <? Z.of_nat (List.length available)));
      [|exact IH].
    destruct (nth_error available (Z.to_nat (n - 1))) as [d|] eqn:E;
      [|exact IH].
    intros H _. injection H as <-.
    intros x [<-|[]]. eapply nth_error_In, E.
Qed.

Lemma prompt_choice_skips (available : list distributor)
    (bad rest : list choice) :
  Forall (fun c => valid_choice (List.length available) c = false) bad ->
  prompt_choice available (bad ++ rest) = prompt_choice available rest.
Proof.
  induction 1 as [|c bad Hc _ IH]; [reflexivity|].
  simpl. destruct c as [|n|]; [discriminate Hc| |exact IH].
  simpl in Hc.
  replace ((0 <=? n - 1) && (n - 1 <? Z.of_nat (List.length available)))
    with false; [exact IH|].
  symmetry. apply andb_false_iff. apply andb_false_iff in Hc.
  destruct Hc as [Hc|Hc]; [left | right].
  - apply Z.leb_gt in Hc. apply Z.leb_gt. lia.
  - apply Z.leb_gt in Hc. apply Z.ltb_ge. lia.
Qed.

(** X6. What the interactive selection can return.  A single discovered
    distributor is returned as it is, without a probe.  With two or more
    discovered, every distributor returned is a discovered one with its
    probed plan count recorded, and that count is above zero. *)
Theorem interactive_selection_is_discovered_with_plans
    (w : world) (ds : list distributor) :
  select_distributor_interactive w = Selected ds ->
  (forall d, fetch_distributors w = [d] -> ds = [d])
  /\ ((1 < List.length (fetch_distributors w))%nat ->
      Forall (fun d' => exists d, In d (fetch_distributors w) /\ probed w d d')
             ds).
Proof.
  unfold select_distributor_interactive. intros H. split.
  - intros d E. rewrite E in H. now injection H as <-.
  - intros Hlen.
    pose proof (probe_available_probed w (fetch_distributors w)) as Hp.
    destruct (fetch_distributors w) as [|d1 [|d2 rest]] eqn:E;
      simpl in Hlen; try lia.
    destruct (probe_available w (d1 :: d2 :: rest)) as [|a1 [|a2 arest]] eqn:Ea.
    + injection H as <-. constructor.
    + injection H as <-. exact Hp.
    + destruct ds as [|x xs]; [constructor|].
      apply prompt_choice_among in H; [|discriminate].
      apply Forall_forall. intros y Hy.
      rewrite Forall_forall in Hp. apply Hp, H, Hy.
Qed.

(** X6 on the postcode with three distributors: the second menu entry is
    Essential Energy with its 998 plans. *)
Lemma interactive_selection_is_discovered_with_plans_witness :
  select_distributor_interactive world_three
  = Selected [Distributor "7" "Essential Energy" (Some 998)]
  /\ exists d, In d (fetch_distributors world_three)
               /\ probed world_three d
                    (Distributor "7" "Essential Energy" (Some 998)).
Proof.
  split; [reflexivity|].
  pose proof (proj2 (interactive_selection_is_discovered_with_plans
                       world_three
                       [Distributor "7" "Essential Energy" (Some 998)]
                       eq_refl)) as H.
  assert (Hlen : (1 < List.length (fetch_distributors world_three))%nat)
    by (simpl; lia).
  specialize (H Hlen). inversion H as [|? ? Hd _]; subst. exact Hd.
Defined.

(** X7. The prompt of the interactive selection, when two or more
    distributors have plans: entries that are neither the letter A nor a
    number of the menu are passed over, and the first valid entry decides:
    A selects every distributor with plans, the number [k] the [k]-th of
    them. *)
Theorem prompt_takes_first_valid_choice
    (w : world) (bad rest : list choice) (c : choice) :
  let available := probe_available w (fetch_distributors w) in
  (1 < List.length available)%nat ->
  stdin w = bad ++ c :: rest ->
  Forall (fun b => valid_choice (List.length available) b = false) bad ->
  valid_choice (List.length available) c = true ->
  select_distributor_interactive w =
  Selected match c with
           | ChooseNumber k => firstn 1 (skipn (Z.to_nat (k - 1)) available)
           | _ => available
           end
  /\ match c with
     | ChooseNumber k =>
         exists d, nth_error available (Z.to_nat (k - 1)) = Some d
                   /\ firstn 1 (skipn (Z.to_nat (k - 1)) available) = [d]
     | _ => True
     end.
Proof.
  intros available Hlen Hin Hbad Hc.
  assert (Hsel : select_distributor_interactive w
                 = prompt_choice available (stdin w)).
  { unfold select_distributor_interactive. subst available.
    destruct (fetch_distributors w) as [|d1 [|d2 r]].
    - simpl in Hlen. lia.
    - simpl in Hlen.
      destruct (0 <? probe_distributor_plans w (dist_id d1));
        simpl in Hlen; lia.
    - destruct (probe_available w (d1 :: d2 :: r)) as [|a1 [|a2 ar]];
        simpl in Hlen; try lia.
      reflexivity. }
  rewrite Hsel, Hin, (prompt_choice_skips available bad (c :: rest) Hbad).
  destruct c as [|k|]; [split; auto| |discriminate Hc].
  cbn [valid_choice] in Hc. cbn [prompt_choice].
  apply andb_true_iff in Hc as [H1 H2].
  apply Z.leb_le in H1, H2.
  replace ((0 <=? k - 1) && (k - 1 <? Z.of_nat (List.length available)))
    with true
    by (symmetry; apply andb_true_iff; split;
        [apply Z.leb_le | apply Z.ltb_lt]; lia).
  assert (Hn : (Z.to_nat (k - 1) < List.length available)%nat) by lia.
  destruct (nth_error available (Z.to_nat (k - 1))) as [d|] eqn:E.
  - assert (Hf : firstn 1 (skipn (Z.to_nat (k - 1)) available) = [d]).
    { clear -E. revert E. generalize (Z.to_nat (k - 1)) as n.
      induction available as [|a l IH]; intros [|n] E; simpl in *;
        try discriminate.
      - injection E as ->. reflexivity.
      - now apply IH. }
    rewrite Hf. split; [reflexivity|]. exists d. auto.
  - apply nth_error_None in E. lia.
Qed.

(** X7 on the postcode with three distributors: the word and the number 7
    are passed over, the number 2 selects the second distributor with
    plans. *)
Lemma prompt_takes_first_valid_choice_witness :
  select_distributor_interactive world_three
  = Selected [Distributor "7" "Essential Energy" (Some 998)].
Proof.
  exact (proj1 (prompt_takes_first_valid_choice world_three
                  [ChooseOther; ChooseNumber 7] [ChooseAll] (ChooseNumber 2)
                  ltac:(simpl; lia) eq_refl
                  ltac:(repeat constructor) eq_refl)).
Defined.

(** X8. Step 2 of [main] under [--dist].  A distributor id given on the
    command line is fetched as it is, one fetch with that id, whatever
    distributors the postcode has and whatever their probes return.  Under
    [--dist all] (in any letter case), when some distributor has plans, the
    fetches are those of the discovered distributors with plans, in
    discovery order; no choice is read from the user in either case. *)
Theorem dist_argument_decides_the_fetches (w : world) (d : string) :
  d <> "" ->
  (py_lower d <> "all" -> main_resolve_and_fetch (Some d) w = FetchPlans [d])
  /\ (py_lower d = "all" ->
      filter (has_plans w) (fetch_distributors w) <> [] ->
      main_resolve_and_fetch (Some d) w
      = FetchPlans (map dist_id (filter (has_plans w) (fetch_distributors w)))).
Proof.
  intros Hd. unfold main_resolve_and_fetch, main_step2.
  destruct (String.eqb_spec d "") as [|_]; [contradiction|]. simpl.
  split.
  - intros Hall. destruct (String.eqb_spec (py_lower d) "all") as [|_];
      [contradiction|]. reflexivity.
  - intros Hall Hne. rewrite Hall. simpl.
    pose proof (probe_available_ids w (fetch_distributors w)) as Hids.
    destruct (probe_available w (fetch_distributors w)) as [|a ar] eqn:E.
    + simpl in Hids.
      destruct (filter (has_plans w) (fetch_distributors w));
        [contradiction | discriminate].
    + now rewrite <- Hids.
Qed.

(** X8 on the postcode with three distributors: [--dist 99] fetches for
    the id 99, [--dist All] for the two distributors with plans. *)
Lemma dist_argument_decides_the_fetches_witness :
  main_resolve_and_fetch (Some "99") world_three = FetchPlans ["99"]
  /\ main_resolve_and_fetch (Some "All") world_three = FetchPlans ["13"; "7"].
Proof.
  split.
  - apply (proj1 (dist_argument_decides_the_fetches world_three "99"
                    ltac:(discriminate))).
    discriminate.
  - apply (proj2 (dist_argument_decides_the_fetches world_three "All"
                    ltac:(discriminate))).
    + reflexivity.
    + discriminate.
Defined.

(* ===================================================================== *)
(** ** The order of strings and of values *)
(* ===================================================================== *)

Lemma ascii_compare_refl (a : ascii) : Ascii.compare a a = Eq.
Proof. apply N.compare_refl. Qed.

Lemma string_compare_refl (s : string) : String.compare s s = Eq.
Proof.
  induction s as [|c s IH]; [reflexivity|].
  simpl. now rewrite ascii_compare_refl.
Qed.

Lemma ascii_compare_eq (a b : ascii) : Ascii.compare a b = Eq -> a = b.
Proof. apply Ascii.compare_eq_iff. Qed.

(** [<=] between strings is transitive. *)
Lemma string_compare_trans (a : string) :
  forall b c,
    String.compare a b <> Gt -> String.compare b c <> Gt ->
    String.compare a c <> Gt.
Proof.
  induction a as [|x a IH]; intros [|y b] [|z c]; simpl; try congruence.
  destruct (Ascii.compare x y) eqn:Exy; try congruence;
    destruct (Ascii.compare y z) eqn:Eyz; try congruence.
  - apply ascii_compare_eq in Exy, Eyz. subst.
    rewrite ascii_compare_refl. apply IH.
  - apply ascii_compare_eq in Exy. subst. rewrite Eyz. congruence.
  - apply ascii_compare_eq in Eyz. subst. rewrite Exy. congruence.
  - unfold Ascii.compare in *.
    rewrite N.compare_lt_iff in Exy, Eyz.
    assert (H : (N_of_ascii x < N_of_ascii z)%N) by lia.
    apply N.compare_lt_iff in H. rewrite H. congruence.
Qed.

Lemma string_ltb_false (s t : string) :
  String.ltb s t = false <-> String.compare t s <> Gt.
Proof.
  unfold String.ltb. rewrite (String.compare_antisym t s).
  destruct (String.compare s t); simpl; split; congruence.
Qed.

Lemma py_le_refl_str (s : string) : py_le (VStr s) (VStr s).
Proof.
  unfold py_le. simpl. f_equal. apply string_ltb_false.
  rewrite string_compare_refl. congruence.
Qed.

(** Values that have an order with a common value have one with each
    other, and [<=] is transitive. *)
Lemma py_le_trans (a b c : pyval) : py_le a b -> py_le b c -> py_le a c.
Proof.
  unfold py_le, py_lt. intros H1 H2.
  destruct a as [| ba | na | sa | |], b as [| bb | nb | sb | |]; simpl in H1;
    try discriminate;
    destruct c as [| bc | nc | sc | |]; simpl in H2 |- *; try discriminate;
    try (injection H1 as H1; injection H2 as H2; f_equal;
         first [ apply string_ltb_false;
                 apply string_ltb_false in H1, H2;
                 eapply string_compare_trans; eassumption
               | eapply num_le_trans; unfold num_le; eassumption ]).
Qed.

(* ===================================================================== *)
(** ** Sorting *)
(* ===================================================================== *)

Section SortingFacts.
Context {A : Type} (lt : A -> A -> result bool).

Lemma insert_ascending_perm (x : A) (l s : list A) :
  insert_ascending lt x l = Ok s -> Permutation (x :: l) s.
Proof.
  revert s. induction l as [|y l IH]; intros s H; simpl in H.
  - injection H as <-. reflexivity.
  - destruct (lt y x) as [[|]|]; simpl in H; try discriminate.
    + destruct (insert_ascending lt x l) as [r|]; simpl in H;
        [|discriminate].
      injection H as <-. rewrite perm_swap. constructor. now apply IH.
    + injection H as <-. reflexivity.
Qed.

Lemma sort_ascending_perm (l s : list A) :
  sort_ascending lt l = Ok s -> Permutation l s.
Proof.
  revert s. induction l as [|x l IH]; intros s H; simpl in H.
  - injection H as <-. constructor.
  - destruct (sort_ascending lt l) as [r|]; simpl in H; [|discriminate].
    apply insert_ascending_perm in H. rewrite <- H. constructor. now apply IH.
Qed.

Lemma insert_descending_perm (x : A) (l s : list A) :
  insert_descending lt x l = Ok s -> Permutation (x :: l) s.
Proof.
  revert s. induction l as [|y l IH]; intros s H; simpl in H.
  - injection H as <-. reflexivity.
  - destruct (lt x y) as [[|]|]; simpl in H; try discriminate.
    + destruct (insert_descending lt x l) as [r|]; simpl in H;
        [|discriminate].
      injection H as <-. rewrite perm_swap. constructor. now apply IH.
    + injection H as <-. reflexivity.
Qed.

Lemma sort_descending_perm (l s : list A) :
  sort_descending lt l = Ok s -> Permutation l s.
Proof.
  revert s. induction l as [|x l IH]; intros s H; simpl in H.
  - injection H as <-. constructor.
  - destruct (sort_descending lt l) as [r|]; simpl in H; [|discriminate].
    apply insert_descending_perm in H. rewrite <- H. constructor.
    now apply IH.
Qed.

(** [a] is not above [b], and [<=] is transitive with an antisymmetric
    strict part: what the order of numbers and the order of strings
    satisfy. *)
Let le (a b : A) : Prop := lt b a = Ok false.

Hypothesis le_trans : forall a b c, le a b -> le b c -> le a c.
Hypothesis lt_le : forall a b, lt a b = Ok true -> le a b.

Lemma insert_ascending_sorted (x : A) (l s : list A) :
  StronglySorted le l -> insert_ascending lt x l = Ok s ->
  StronglySorted le s.
Proof.
  intros Hs. revert s. induction Hs as [|y l Hs IH Hy]; intros s H;
    simpl in H.
  - injection H as <-. repeat constructor.
  - destruct (lt y x) as [[|]|] eqn:E; simpl in H; try discriminate.
    + destruct (insert_ascending lt x l) as [r|] eqn:Er; simpl in H;
        [|discriminate].
      injection H as <-. constructor; [now apply IH|].
      apply (Permutation_Forall (insert_ascending_perm x l r Er)).
      constructor; [now apply lt_le | exact Hy].
    + injection H as <-. constructor; [now constructor|].
      constructor; [exact E|].
      eapply Forall_impl; [|exact Hy]. intros z Hz.
      now apply (le_trans x y z).
Qed.

Lemma sort_ascending_sorted (l s : list A) :
  sort_ascending lt l = Ok s -> StronglySorted le s.
Proof.
  revert s. induction l as [|x l IH]; intros s H; simpl in H.
  - injection H as <-. constructor.
  - destruct (sort_ascending lt l) as [r|]; simpl in H; [|discriminate].
    eapply insert_ascending_sorted; [|exact H]. now apply IH.
Qed.

Lemma insert_descending_sorted (x : A) (l s : list A) :
  StronglySorted (fun a b => le b a) l -> insert_descending lt x l = Ok s ->
  StronglySorted (fun a b => le b a) s.
Proof.
  intros Hs. revert s. induction Hs as [|y l Hs IH Hy]; intros s H;
    simpl in H.
  - injection H as <-. repeat constructor.
  - destruct (lt x y) as [[|]|] eqn:E; simpl in H; try discriminate.
    + destruct (insert_descending lt x l) as [r|] eqn:Er; simpl in H;
        [|discriminate].
      injection H as <-. constructor; [now apply IH|].
      apply (Permutation_Forall (insert_descending_perm x l r Er)).
      constructor; [now apply lt_le | exact Hy].
    + injection H as <-. constructor; [now constructor|].
      constructor; [exact E|].
      eapply Forall_impl; [|exact Hy]. intros z Hz.
      now apply (le_trans z y x).
Qed.

Lemma sort_descending_sorted (l s : list A) :
  sort_descending lt l = Ok s -> StronglySorted (fun a b => le b a) s.
Proof.
  revert s. induction l as [|x l IH]; intros s H; simpl in H.
  - injection H as <-. constructor.
  - destruct (sort_descending lt l) as [r|]; simpl in H; [|discriminate].
    eapply insert_descending_sorted; [|exact H]. now apply IH.
Qed.

End SortingFacts.

Lemma py_lt_le (a b : pyval) : py_lt a b = Ok true -> py_le a b.
Proof.
  unfold py_le, py_lt.
  destruct a as [| ba | na | sa | |], b as [| bb | nb | sb | |]; simpl;
    try discriminate; intros H; injection H as H; f_equal;
    try (apply string_ltb_false; unfold String.ltb in H;
         destruct (String.compare sa sb); congruence);
    now apply num_ltb_le in H.
Qed.

Lemma mapM_keys {A} (key : A -> result pyval) (l : list A) :
  forall keyed,
    mapM (fun x => k <- key x;; Ok (k, x)) l = Ok keyed ->
    map snd keyed = l /\ Forall (fun p => key (snd p) = Ok (fst p)) keyed.
Proof.
  induction l as [|x l IH]; intros keyed H; simpl in H.
  - injection H as <-. split; constructor.
  - destruct (key x) as [k|] eqn:E; simpl in H; [|discriminate].
    destruct (mapM (fun x => k <- key x;; Ok (k, x)) l) as [r|];
      simpl in H; [|discriminate].
    injection H as <-. destruct (IH r eq_refl) as [H1 H2].
    split; [simpl; now rewrite H1 | now constructor].
Qed.

Lemma sorted_keyed_snd {A} (key : A -> result pyval)
    (R : pyval -> pyval -> Prop) (s : list (pyval * A)) :
  Forall (fun p => key (snd p) = Ok (fst p)) s ->
  StronglySorted (fun a b => R (fst a) (fst b)) s ->
  StronglySorted (fun a b => exists ka kb,
                      key a = Ok ka /\ key b = Ok kb /\ R ka kb)
                 (map snd s).
Proof.
  intros Hk Hs. induction Hs as [|p s Hs IH Hp]; simpl; [constructor|].
  inversion Hk as [|? ? Hkp Hks]; subst.
  constructor; [now apply IH|].
  apply Forall_map. rewrite Forall_forall in Hp, Hks |- *.
  intros q Hq. exists (fst p), (fst q). auto.
Qed.

(** What [sorted] returns is a rearrangement of the list, in the order of
    the keys: ascending, or descending under [reverse=True]. *)
Lemma py_sorted_spec {A} (key : A -> result pyval) (reverse : bool)
    (l s : list A) :
  py_sorted key reverse l = Ok s ->
  Permutation l s
  /\ StronglySorted (if reverse
                     then fun a b => keys_in_order key b a
                     else keys_in_order key) s.
Proof.
  unfold py_sorted. intros H.
  destruct (mapM (fun x => k <- key x;; Ok (k, x)) l) as [keyed|] eqn:Ek;
    simpl in H; [|discriminate].
  destruct (mapM_keys key l keyed Ek) as [Hl Hk].
  set (lt := fun a b : pyval * A => py_lt (fst a) (fst b)) in *.
  assert (Htrans : forall a b c : pyval * A,
             lt b a = Ok false -> lt c b = Ok false -> lt c a = Ok false).
  { intros a b c. apply py_le_trans. }
  assert (Hlt : forall a b : pyval * A, lt a b = Ok true -> lt b a = Ok false).
  { intros a b. apply py_lt_le. }
  destruct reverse.
  - destruct (sort_descending lt keyed) as [r|] eqn:Es; simpl in H;
      [|discriminate].
    injection H as <-. split.
    + rewrite <- Hl. apply Permutation_map.
      now apply (sort_descending_perm lt).
    + pose proof (sort_descending_sorted lt Htrans Hlt keyed r Es) as Hs.
      apply (sorted_keyed_snd key (fun ka kb => py_le kb ka)) in Hs.
      * eapply StronglySorted_ind with (P := fun l => StronglySorted _ l);
          [constructor | | exact Hs].
        intros a l0 _ IH Ha. constructor; [exact IH|].
        eapply Forall_impl; [|exact Ha].
        intros b (ka & kb & H1 & H2 & H3). exists kb, ka. auto.
      * apply (Permutation_Forall (sort_descending_perm lt keyed r Es)).
        exact Hk.
  - destruct (sort_ascending lt keyed) as [r|] eqn:Es; simpl in H;
      [|discriminate].
    injection H as <-. split.
    + rewrite <- Hl. apply Permutation_map.
      now apply (sort_ascending_perm lt).
    + pose proof (sort_ascending_sorted lt Htrans Hlt keyed r Es) as Hs.
      apply (sorted_keyed_snd key py_le) in Hs; [exact Hs|].
      apply (Permutation_Forall (sort_ascending_perm lt keyed r Es)).
      exact Hk.
Qed.

(** Sorting cannot fail when every key is a number. *)
Lemma insert_ascending_total {A} (lt : A -> A -> result bool)
    (P : A -> Prop)
    (Hlt : forall a b, P a -> P b -> exists r, lt a b = Ok r)
    (x : A) (l : list A) :
  P x -> Forall P l -> exists s, insert_ascending lt x l = Ok s.
Proof.
  intros Hx. induction 1 as [|y l Hy _ IH]; simpl; [eauto|].
  destruct (Hlt y x Hy Hx) as [[|] ->]; simpl; [|eauto].
  destruct IH as [r ->]. simpl. eauto.
Qed.

Lemma insert_descending_total {A} (lt : A -> A -> result bool)
    (P : A -> Prop)
    (Hlt : forall a b, P a -> P b -> exists r, lt a b = Ok r)
    (x : A) (l : list A) :
  P x -> Forall P l -> exists s, insert_descending lt x l = Ok s.
Proof.
  intros Hx. induction 1 as [|y l Hy _ IH]; simpl; [eauto|].
  destruct (Hlt x y Hx Hy) as [[|] ->]; simpl; [|eauto].
  destruct IH as [r ->]. simpl. eauto.
Qed.

Lemma sort_total {A} (lt : A -> A -> result bool) (P : A -> Prop)
    (Hlt : forall a b, P a -> P b -> exists r, lt a b = Ok r)
    (reverse : bool) (l : list A) :
  Forall P l ->
  exists s, (if reverse then sort_descending else sort_ascending) lt l = Ok s.
Proof.
  intros H.
  assert (Hboth : (exists s, sort_descending lt l = Ok s)
                  /\ (exists s, sort_ascending lt l = Ok s)).
  { induction H as [|x l Hx Hl [[d IHd] [a IHa]]]; simpl; [eauto|].
    rewrite IHd, IHa. simpl. split.
    - apply (insert_descending_total lt P Hlt); [exact Hx|].
      apply (Permutation_Forall (sort_descending_perm lt l d IHd)), Hl.
    - apply (insert_ascending_total lt P Hlt); [exact Hx|].
      apply (Permutation_Forall (sort_ascending_perm lt l a IHa)), Hl. }
  destruct reverse; tauto.
Qed.

Lemma py_sorted_total {A} (key : A -> result pyval) (reverse : bool)
    (l : list A) :
  Forall (fun x => exists k, key x = Ok k /\ numeric k) l ->
  exists s, py_sorted key reverse l = Ok s.
Proof.
  intros H. unfold py_sorted.
  assert (Hk : exists keyed,
             mapM (fun x => k <- key x;; Ok (k, x)) l = Ok keyed
             /\ Forall (fun p : pyval * A => numeric (fst p)) keyed).
  { induction H as [|x l (k & Hk & Hn) _ (keyed & Hm & Hf)]; simpl.
    - exists []. split; constructor.
    - rewrite Hk, Hm. simpl. eexists. split; [reflexivity|].
      now constructor. }
  destruct Hk as (keyed & -> & Hn). simpl.
  destruct (sort_total (fun a b : pyval * A => py_lt (fst a) (fst b))
              (fun p => numeric (fst p))) with (reverse := reverse)
              (l := keyed) as [s Hs].
  - intros a b [n Ha] [m Hb]. unfold py_lt.
    destruct (fst a) as [| | | | |], (fst b) as [| | | | |];
      simpl in Ha, Hb |- *; try discriminate; eauto.
  - exact Hn.
  - rewrite Hs. simpl. eauto.
Qed.

(* ===================================================================== *)
(** ** Display text *)
(* ===================================================================== *)

Lemma py_table_get_truthy (table : list (string * string))
    (key default v : pyval) :
  Forall (fun kv => snd kv <> "") table ->
  truthy default = true ->
  py_table_get table key default = Ok v -> truthy v = true.
Proof.
  intros Ht Hd. unfold py_table_get.
  destruct key as [| | | s | |]; try discriminate;
    try (intros H; injection H as <-; exact Hd).
  intros H. injection H as <-.
  destruct (lookup_text s table) as [t|] eqn:E; [|exact Hd].
  simpl. apply negb_true_iff. apply String.eqb_neq.
  clear -Ht E. induction Ht as [|[k x] table Hx _ IH]; simpl in E;
    [discriminate|].
  destruct (String.eqb s k); [now injection E as <- | auto].
Qed.

(** X9. The contract term and the benefit period of a row are never
    blank: whatever the contract holds, a value the extractors return is
    truthy, "N/A" standing for an absent or empty value.  The payment
    options and the meter types are "N/A" for an absent or empty value,
    and the benefit period of a dict never raises. *)
Theorem display_text_is_never_blank (contract : pyval) :
  (forall v, Display.extract_contract_term contract = Ok v -> truthy v = true)
  /\ (forall v,
      Display.extract_benefit_period contract = Ok v -> truthy v = true)
  /\ (forall fields,
      contract = VDict fields ->
      exists v, Display.extract_benefit_period contract = Ok v)
  /\ (forall x,
      py_get contract "paymentOption" (VList []) = Ok x -> truthy x = false ->
      Display.extract_payment_options contract = Ok (VStr "N/A"))
  /\ (forall x,
      py_get contract "meterType" (VList []) = Ok x -> truthy x = false ->
      Display.extract_meter_types contract = Ok (VStr "N/A")).
Proof.
  split; [|split; [|split; [|split]]].
  - unfold Display.extract_contract_term. intros v H.
    destruct (py_get contract "termType" (VStr "")) as [term|]; simpl in H;
      [|discriminate].
    apply py_table_get_truthy in H; [exact H | |].
    + repeat constructor; discriminate.
    + destruct (truthy term) eqn:E; [exact E | reflexivity].
  - unfold Display.extract_benefit_period. intros v H.
    destruct (py_get contract "benefitPeriod" (VStr "")) as [bp|];
      simpl in H; [|discriminate].
    destruct (truthy bp) eqn:E; simpl in H; injection H as <-;
      [exact E | reflexivity].
  - intros fields ->. unfold Display.extract_benefit_period. simpl.
    destruct (truthy _); simpl; eauto.
  - intros x Hx Hf. unfold Display.extract_payment_options.
    rewrite Hx. simpl. now rewrite Hf.
  - intros x Hx Hf. unfold Display.extract_meter_types.
    rewrite Hx. simpl. now rewrite Hf.
Qed.

(** X9 on a contract with the unknown term code 5 and no benefit period:
    the code is shown as it is, the benefit period is "N/A". *)
Lemma display_text_is_never_blank_witness :
  Display.extract_contract_term contract_term_5 = Ok (VStr "5")
  /\ truthy (VStr "5") = true
  /\ Display.extract_benefit_period contract_term_5 = Ok (VStr "N/A")
  /\ Display.extract_meter_types contract_term_5 = Ok (VStr "N/A").
Proof.
  destruct (display_text_is_never_blank contract_term_5)
    as (Hterm & _ & _ & _ & Hmeter).
  split; [reflexivity|]. split; [exact (Hterm (VStr "5") eq_refl)|].
  split; [reflexivity|]. exact (Hmeter (VList []) eq_refl eq_refl).
Defined.

(* --------------------------------------------------------------------- *)
(** *** Meter types *)

Lemma py_eq_str_eq (a b : string) : py_eq (VStr a) (VStr b) = String.eqb a b.
Proof. reflexivity. Qed.

Lemma existsb_py_eq_str (a : string) (seen : list string) :
  existsb (py_eq (VStr a)) (map VStr seen) = true <-> In a seen.
Proof.
  induction seen as [|b seen IH]; simpl; [split; [discriminate | tauto]|].
  rewrite orb_true_iff, IH, String.eqb_eq. split; intros [H|H]; auto.
Qed.

(** The loop over strings keeps the first occurrence of each string that
    is not yet in [seen]. *)
Lemma py_unique_strings (l : list string) :
  forall seen, exists u,
    py_unique (map VStr seen) (map VStr l) = Ok (map VStr u)
    /\ NoDup u
    /\ (forall x, In x u <-> In x l /\ ~ In x seen).
Proof.
  induction l as [|a l IH]; intros seen; simpl.
  - exists []. split; [reflexivity|]. split; [constructor|].
    simpl. tauto.
  - destruct (existsb (py_eq (VStr a)) (map VStr seen)) eqn:E; simpl.
    + apply existsb_py_eq_str in E.
      destruct (IH seen) as (u & Hu & Hnd & Hin). exists u.
      split; [exact Hu|]. split; [exact Hnd|].
      intros x. rewrite Hin. split.
      * intros [H1 H2]. auto.
      * intros [[<-|H1] H2]; [contradiction | auto].
    + assert (Ha : ~ In a seen).
      { intros H. apply existsb_py_eq_str in H. congruence. }
      destruct (IH (a :: seen)) as (u & Hu & Hnd & Hin).
      change (VStr a :: map VStr seen) with (map VStr (a :: seen)).
      rewrite Hu. simpl. exists (a :: u).
      split; [reflexivity|]. split.
      * constructor; [|exact Hnd]. intros H. apply Hin in H as [_ H].
        apply H. now left.
      * intros x. simpl. rewrite Hin. simpl. split.
        -- intros [<-|[H1 H2]]; [auto|]. split; [auto|]. tauto.
        -- intros [[<-|H1] H2]; [auto|].
           destruct (String.eqb_spec a x) as [->|Hne]; [auto|].
           right. split; [exact H1|]. intros [H|H]; contradiction.
Qed.

Lemma py_join_strings (sep : string) (u : list string) :
  py_join sep (map VStr u) = Ok (join_with sep u).
Proof.
  unfold py_join.
  assert (H : mapM (fun v => match v with
                             | VStr s => Ok s
                             | _ => Raise TypeError
                             end) (map VStr u) = Ok u).
  { induction u as [|a u IH]; simpl; [reflexivity|]. now rewrite IH. }
  now rewrite H.
Qed.

Lemma py_table_get_name (table : list (string * string)) (m : string) :
  py_table_get table (VStr m) (VStr m)
  = Ok (VStr match lookup_text m table with Some v => v | None => m end).
Proof. unfold py_table_get. now destruct (lookup_text m table). Qed.

Lemma meter_names_readable (ms : list string) :
  mapM (fun m => py_table_get Display.meter_map m m) (map VStr ms)
  = Ok (map VStr (map meter_name ms)).
Proof.
  induction ms as [|m ms IH]; [reflexivity|].
  cbn [map mapM]. rewrite py_table_get_name, IH. reflexivity.
Qed.

(** X10. The meter types of a contract whose [meterType] is a non-empty
    list of strings: the text is the readable names joined by ", ", each
    name once, a name being listed exactly when it is the readable name of
    one of the contract's meter types. *)
Theorem meter_types_are_listed_once (contract : pyval) (ms : list string) :
  py_get contract "meterType" (VList []) = Ok (VList (map VStr ms)) ->
  ms <> [] ->
  exists names,
    Display.extract_meter_types contract = Ok (VStr (join_with ", " names))
    /\ NoDup names
    /\ (forall n, In n names <-> exists m, In m ms /\ n = meter_name m).
Proof.
  intros Hget Hne. unfold Display.extract_meter_types. rewrite Hget.
  cbn [bind].
  assert (Ht : truthy (VList (map VStr ms)) = true)
    by (destruct ms; [contradiction | reflexivity]).
  rewrite Ht. cbn [negb py_iter bind].
  rewrite meter_names_readable. cbn [bind].
  destruct (py_unique_strings (map meter_name ms) []) as (u & Hu & Hnd & Hin).
  change (@nil pyval) with (map VStr []). rewrite Hu. cbn [bind].
  rewrite py_join_strings. cbn [bind].
  exists u. split; [reflexivity|]. split; [exact Hnd|].
  intros n. rewrite Hin, in_map_iff. split.
  - intros [(m & <- & Hm) _]. eauto.
  - intros (m & Hm & ->). split; [eauto | tauto].
Qed.

(** X10 on a contract that names the smart meter twice, once as "Type 4"
    and once in words, and the basic meter twice. *)
Lemma meter_types_are_listed_once_witness :
  Display.extract_meter_types contract_meters
  = Ok (VStr "Smart Meter, Basic Meter, Type 7").
Proof.
  destruct (meter_types_are_listed_once contract_meters
              ["Type 4"; "Type 6"; "Smart Meter"; "Type 6"; "Type 7"]
              eq_refl ltac:(discriminate)) as (names & H & _).
  assert (E : Ok (VStr (join_with ", " names))
              = Ok (VStr "Smart Meter, Basic Meter, Type 7"))
    by (rewrite <- H; reflexivity).
  rewrite H. exact E.
Defined.

(* ===================================================================== *)
(** ** Distributors of a postcode *)
(* ===================================================================== *)

Lemma float_cmp_refl (f : pyfloat) : float_cmp f f = Eq.
Proof.
  pose proof (float_cmp_antisym f f) as H.
  destruct (float_cmp f f); simpl in H; congruence.
Qed.

Lemma py_eq_refl (x : pyval) : py_hashable x = true -> py_eq x x = true.
Proof.
  destruct x as [| b | n | s | |]; simpl; try discriminate; intros _;
    try reflexivity; try apply String.eqb_refl;
    unfold num_eqb; now rewrite float_cmp_refl.
Qed.

Lemma py_eq_sym (x y : pyval) : py_eq x y = py_eq y x.
Proof.
  assert (Hn : forall n m, num_eqb n m = num_eqb m n).
  { intros n m. unfold num_eqb.
    rewrite (float_cmp_antisym (to_float n) (to_float m)).
    destruct (float_cmp (to_float n) (to_float m)); reflexivity. }
  destruct x as [| b | n | s | |], y as [| c | m | t | |]; simpl;
    try reflexivity; try apply Hn; apply String.eqb_sym.
Qed.

Lemma existsb_false_all (x : pyval) (l : list pyval) :
  existsb (py_eq x) l = false -> forall y, In y l -> py_eq x y = false.
Proof.
  intros H y Hy.
  destruct (py_eq x y) eqn:E; [|reflexivity].
  assert (existsb (py_eq x) l = true) by (apply existsb_exists; eauto).
  congruence.
Qed.

Lemma add_supply_areas_state (areas : list pyval) :
  forall done st st',
    dedup_state done st ->
    Api.add_supply_areas areas st = Ok st' ->
    dedup_state (done ++ areas) st'.
Proof.
  induction areas as [|sa rest IH]; intros done st st' Hst H; simpl in H.
  - injection H as <-. now rewrite app_nil_r.
  - destruct (py_getitem sa "id") as [key|] eqn:Ekey; simpl in H;
      [|discriminate].
    unfold py_in_set in H.
    destruct (py_hashable key) eqn:Eh; simpl in H; [|discriminate].
    destruct Hst as (Ha & Hb & Hc & Hc' & Hd & He).
    replace (done ++ sa :: rest) with ((done ++ [sa]) ++ rest)
      by (now rewrite <- app_assoc).
    destruct (existsb (py_eq key) (fst st)) eqn:Eseen.
    + apply (IH _ st); [|exact H].
      repeat split; try assumption.
      * eapply Forall_impl; [|exact Ha].
        intros d (sa0 & Hin & Hent). exists sa0.
        split; [apply in_or_app; now left | exact Hent].
      * apply Forall_app. split; [exact Hb|].
        constructor; [|constructor]. eauto.
    + destruct (py_getitem sa "name") as [name|] eqn:Ename; simpl in H;
        [|discriminate].
      apply (IH (done ++ [sa])
                (key :: fst st,
                 snd st ++ [VDict [("id", key); ("name", name)]]) st');
        [|exact H].
      pose proof (existsb_false_all key (fst st) Eseen) as Hnew.
      set (entry := VDict [("id", key); ("name", name)]).
      assert (Hid : py_getitem entry "id" = Ok key) by reflexivity.
      assert (Hfresh : forall d j,
                 In d (snd st) -> py_getitem d "id" = Ok j ->
                 py_eq key j = false).
      { intros d j Hin Hj. rewrite Forall_forall in Hc.
        destruct (Hc d Hin) as (i & Hi & Hseen).
        rewrite Hj in Hi. injection Hi as <-. now apply Hnew. }
      unfold dedup_state. cbn [fst snd]. fold entry.
      split; [|split; [|split; [|split; [|split]]]].
      * apply Forall_app. split.
        -- eapply Forall_impl; [|exact Ha].
           intros d (sa0 & Hin & Hent). exists sa0.
           split; [apply in_or_app; now left | exact Hent].
        -- constructor; [|constructor]. exists sa.
           split; [apply in_or_app; right; now left|].
           exists key, name. auto.
      * apply Forall_app. split.
        -- eapply Forall_impl; [|exact Hb].
           intros sa0 (i & Hi & Hex). exists i. split; [exact Hi|].
           simpl. rewrite Hex. apply orb_true_r.
        -- constructor; [|constructor]. exists key. split; [exact Ekey|].
           simpl. now rewrite py_eq_refl.
      * apply Forall_app. split.
        -- eapply Forall_impl; [|exact Hc].
           intros d (i & Hi & Hin). exists i. split; [exact Hi | now right].
        -- constructor; [|constructor]. exists key. split; [exact Hid|].
           now left.
      * intros i [<-|Hi].
        -- exists entry. split; [apply in_or_app; right; now left | exact Hid].
        -- destruct (Hc' i Hi) as (d & Hin & Hd'). exists d.
           split; [apply in_or_app; now left | exact Hd'].
      * apply NoDup_app; [exact Hd | repeat constructor; intros [] |].
        intros d Hin [<-|[]].
        pose proof (Hfresh entry key Hin Hid) as Hk.
        rewrite py_eq_refl in Hk by exact Eh. discriminate.
      * intros a b i j Ha' Hb' Hi Hj Hij.
        apply in_app_or in Ha', Hb'.
        destruct Ha' as [Ha'|[<-|[]]], Hb' as [Hb'|[<-|[]]].
        -- now apply (He a b i j).
        -- rewrite Hid in Hj. injection Hj as <-.
           rewrite py_eq_sym, (Hfresh a i Ha' Hi) in Hij. discriminate.
        -- rewrite Hid in Hi. injection Hi as <-.
           rewrite (Hfresh b j Hb' Hj) in Hij. discriminate.
        -- reflexivity.
Qed.

Lemma add_items_state (items : list pyval) :
  forall done st st',
    dedup_state done st ->
    Api.add_items items st = Ok st' ->
    exists per_item,
      mapM Api.supply_areas items = Ok per_item
      /\ dedup_state (done ++ List.concat per_item) st'.
Proof.
  induction items as [|item rest IH]; intros done st st' Hst H; simpl in H.
  - injection H as <-. exists []. simpl. now rewrite app_nil_r.
  - destruct (Api.supply_areas item) as [areas|] eqn:Ea; simpl in H;
      [|discriminate].
    destruct (Api.add_supply_areas areas st) as [st1|] eqn:E1; simpl in H;
      [|discriminate].
    pose proof (add_supply_areas_state areas done st st1 Hst E1) as Hst1.
    destruct (IH _ _ _ Hst1 H) as (per & Hper & Hfin).
    exists (areas :: per). simpl. rewrite Ea, Hper. simpl.
    split; [reflexivity|]. now rewrite <- app_assoc in Hfin.
Qed.

(** X11. What [fetch_distributors] makes of a meta response, when it
    returns: every entry is the id and the name of a supply area of the
    response; every supply area has an entry for its id; no entry is
    listed twice and entries with equal ids are one entry; and the entries
    are in ascending order of their names. *)
Theorem fetch_distributors_unique_and_sorted (data : pyval)
    (ds : list pyval) :
  Api.fetch_distributors data = Ok ds ->
  exists areas,
    all_supply_areas data = Ok areas
    /\ Forall (fun d => exists sa, In sa areas /\ entry_of sa d) ds
    /\ Forall (fun sa => exists d, In d ds /\ entry_for sa d) areas
    /\ NoDup ds
    /\ one_entry_per_id ds
    /\ StronglySorted (keys_in_order (fun d => py_getitem d "name")) ds.
Proof.
  unfold Api.fetch_distributors, all_supply_areas. intros H.
  destruct (py_get data "data" (VList [])) as [d|]; simpl in H |- *;
    [|discriminate].
  destruct (py_iter d) as [items|]; simpl in H |- *; [|discriminate].
  destruct (Api.add_items items ([], [])) as [st|] eqn:Est; simpl in H;
    [|discriminate].
  assert (H0 : dedup_state [] ([], [])).
  { repeat split; try constructor. intros i []. intros a b i j []. }
  destruct (add_items_state items [] _ _ H0 Est) as (per & Hper & Hst).
  rewrite Hper. simpl in Hst |- *. exists (List.concat per).
  split; [reflexivity|].
  destruct Hst as (Ha & Hb & Hc & Hc' & Hd & He).
  apply py_sorted_spec in H as [Hperm Hsorted].
  split; [|split; [|split; [|split]]].
  - apply (Permutation_Forall Hperm). exact Ha.
  - eapply Forall_impl; [|exact Hb].
    intros sa (i & Hi & Hex). apply existsb_exists in Hex as (j & Hj & Hij).
    destruct (Hc' j Hj) as (d0 & Hin & Hd0). exists d0.
    split; [now apply (Permutation_in _ Hperm)|].
    exists i, j. auto.
  - now apply (Permutation_NoDup Hperm).
  - intros a b i j Ha' Hb'. apply Permutation_sym in Hperm.
    apply (Permutation_in _ Hperm) in Ha', Hb'. now apply He.
  - exact Hsorted.
Qed.

(** X11 on a response that names Endeavour Energy twice and Ausgrid after
    it: two entries, Ausgrid first. *)
Lemma fetch_distributors_unique_and_sorted_witness :
  Api.fetch_distributors meta_response
  = Ok [VDict [("id", VStr "5"); ("name", VStr "Ausgrid")];
        VDict [("id", VStr "13"); ("name", VStr "Endeavour Energy")]]
  /\ NoDup [VDict [("id", VStr "5"); ("name", VStr "Ausgrid")];
            VDict [("id", VStr "13"); ("name", VStr "Endeavour Energy")]].
Proof.
  split; [reflexivity|].
  destruct (fetch_distributors_unique_and_sorted meta_response _ eq_refl)
    as (areas & _ & _ & _ & Hnd & _).
  exact Hnd.
Defined.

(* ===================================================================== *)
(** ** Rows *)
(* ===================================================================== *)

Section RowColumnFacts.
Context {ops : FloatOps} {disp : DisplayColumns}.

(** The row of a plan: its thirty columns, and what the columns read by
    the sheets hold. *)
Lemma process_plan_row (plan : pyval) (postcode : string) (dn row : pyval) :
  process_plan plan postcode dn = Ok row ->
  exists contract kvs,
    primary_contract plan = Ok contract
    /\ row = VDict kvs
    /\ map fst kvs = row_columns
    /\ column kvs "Pricing Model" (py_get contract "pricingModel" (VStr ""))
    /\ column kvs "Supply Charge (c/day)" (extract_supply_charge contract)
    /\ column kvs "Usage Rate Min (c/kWh)" (extract_usage_rate_min contract)
    /\ column kvs "Usage Rate Max (c/kWh)" (extract_usage_rate_max contract)
    /\ column kvs "Peak Rate (c/kWh)" (extract_tou_peak_rate contract)
    /\ column kvs "Off-Peak Rate (c/kWh)" (extract_tou_offpeak_rate contract)
    /\ column kvs "Solar FIT Min (c/kWh)" (extract_solar_fit_min contract)
    /\ column kvs "Solar FIT Max (c/kWh)" (extract_solar_fit_max contract)
    /\ column kvs "CL Rate (c/kWh)" (extract_controlled_load_rate contract)
    /\ column kvs "CL Supply (c/day)"
         (extract_controlled_load_supply contract)
    /\ lookup "Distributor" kvs
       = Some (if truthy dn then dn else VStr "N/A").
Proof.
  unfold process_plan, primary_contract. intros H.
  destruct (py_getitem plan "planData") as [pd|]; simpl in H |- *;
    [|discriminate].
  destruct (py_getitem pd "contract") as [cs|]; simpl in H |- *;
    [|discriminate].
  destruct (py_index0 cs) as [contract|]; simpl in H |- *; [|discriminate].
  inv_bind.
  exists contract. eexists.
  split; [reflexivity|]. split; [reflexivity|]. split; [reflexivity|].
  unfold column.
  repeat match goal with |- _ /\ _ => split end;
    try (eexists; split; [eassumption | reflexivity]).
  reflexivity.
Qed.

End RowColumnFacts.

Lemma find_group_some (col_name : string) :
  forall groups,
    existsb (fun g => str_in col_name (snd g)) groups = true ->
    exists g, find_group col_name groups = Some g.
Proof.
  induction groups as [|[g cols] rest IH]; simpl; [discriminate|].
  destruct (str_in col_name cols); simpl; eauto.
Qed.

(** X12. Every row [process_plan] returns has the same thirty columns in
    the same order, no column twice; every column of a row is in exactly
    one colour group, so [get_column_group] finds a group for it; and
    every column formatted as a number is a column of the row. *)
Theorem row_columns_are_fixed_and_grouped
    {ops : FloatOps} {disp : DisplayColumns}
    (plan : pyval) (postcode : string) (dn row : pyval) :
  process_plan plan postcode dn = Ok row ->
  exists kvs,
    row = VDict kvs
    /\ map fst kvs = row_columns
    /\ NoDup (map fst kvs)
    /\ Forall (fun c => exists g,
                   get_column_group c = Some g /\ groups_of c = [g])
              (map fst kvs)
    /\ Forall (fun c => In c (map fst kvs)) NUMERIC_COLUMNS.
Proof.
  intros H. apply process_plan_row in H as (contract & kvs & _ & -> & E & _).
  exists kvs. split; [reflexivity|]. split; [exact E|]. rewrite E.
  split; [|split].
  - unfold row_columns.
    repeat (constructor;
            [simpl; intros Hin;
             repeat (destruct Hin as [Hin|Hin]; [discriminate Hin|]);
             exact Hin|]).
    constructor.
  - unfold row_columns.
    repeat (constructor; [eexists; split; reflexivity|]). constructor.
  - unfold NUMERIC_COLUMNS, row_columns.
    repeat (constructor; [simpl; tauto|]). constructor.
Qed.

(** X12 on the plan with the single-rate example contract. *)
Lemma row_columns_are_fixed_and_grouped_witness :
  exists row kvs,
    process_plan plan_single_rate "2000" (VStr "Ausgrid") = Ok row
    /\ row = VDict kvs
    /\ List.length kvs = 30%nat
    /\ NoDup (map fst kvs).
Proof.
  destruct (@row_columns_are_fixed_and_grouped decimal_ops raw_display
              plan_single_rate "2000" (VStr "Ausgrid") _ eq_refl)
    as (kvs & Hrow & Hcols & Hnd & _).
  eexists. exists kvs. split; [reflexivity|]. split; [exact Hrow|].
  split; [|exact Hnd].
  rewrite <- (length_map fst), Hcols. reflexivity.
Defined.

(* ===================================================================== *)
(** ** Controlled load: the gate and the columns *)
(* ===================================================================== *)

(** The plans the loop keeps have passed every active gate. *)
Lemma filter_loop_kept_gates (icl idem : bool) (plans : list pyval) :
  forall f c,
    filter_loop icl idem plans [] stats_zero = Ok (f, c) ->
    Forall (fun p =>
              (idem = false -> plan_has_demand_charge p = Ok false)
              /\ (icl = false -> plan_has_controlled_load p = Ok false)) f.
Proof.
  induction plans as [|plan rest IH]; intros f c H; simpl in H.
  - injection H as <- <-. constructor.
  - destruct (if negb idem then plan_has_demand_charge plan else Ok false)
      as [[|]|e] eqn:Ed; simpl in H; [| |discriminate].
    + rewrite filter_loop_from in H.
      destruct (filter_loop icl idem rest [] stats_zero) as [[f' c']|e] eqn:E;
        [|discriminate].
      injection H as <- <-. now apply (IH _ c').
    + destruct (if negb icl then plan_has_controlled_load plan else Ok false)
        as [[|]|e] eqn:Ec; simpl in H; [| |discriminate].
      * rewrite filter_loop_from in H.
        destruct (filter_loop icl idem rest [] stats_zero)
          as [[f' c']|e] eqn:E; [|discriminate].
        injection H as <- <-. now apply (IH _ c').
      * rewrite filter_loop_from in H.
        destruct (filter_loop icl idem rest [] stats_zero)
          as [[f' c']|e] eqn:E; [|discriminate].
        injection H as <- <-. simpl. constructor; [|now apply (IH _ c')].
        split; intros ->; simpl in *; assumption.
Qed.

Lemma truthy_len_positive (x : pyval) (n : Z) :
  truthy x = true -> py_len x = Ok n -> 0 < n.
Proof.
  destruct x as [| b | m | s | l | kvs]; simpl; try discriminate;
    intros Ht H; injection H as <-.
  - destruct s; [discriminate | simpl; lia].
  - destruct l; [discriminate | simpl; lia].
  - destruct kvs; [discriminate | simpl; lia].
Qed.

Section ControlledLoadFacts.
Context {ops : FloatOps}.

(** A plan the controlled load gate lets pass has no controlled load rate
    and no controlled load supply charge. *)
Lemma no_controlled_load_columns (plan contract : pyval) :
  plan_has_controlled_load plan = Ok false ->
  primary_contract plan = Ok contract ->
  extract_controlled_load_rate contract = Ok (VNum (PFloat float_zero))
  /\ extract_controlled_load_supply contract = Ok (VNum (PFloat float_zero)).
Proof.
  unfold plan_has_controlled_load. intros H Hc. rewrite Hc in H.
  cbn [bind] in H.
  destruct contract as [| | | | |kvs]; try discriminate H.
  unfold extract_controlled_load_rate, extract_controlled_load_supply.
  simpl in H |- *.
  destruct (lookup "controlledLoad" kvs) as [cl|]; [|split; reflexivity].
  destruct (truthy cl) eqn:Et; [|split; reflexivity].
  destruct (py_len cl) as [n|] eqn:En; simpl in H; [|discriminate].
  pose proof (truthy_len_positive cl n Et En) as Hn.
  injection H as H. apply Z.ltb_ge in H. lia.
Qed.

End ControlledLoadFacts.

(** X13. With the controlled load gate active ([include_controlled_load]
    false, the default): every row built from a plan the filter has kept
    has the controlled load rate 0.0 and the controlled load supply charge
    0.0. *)
Theorem kept_plans_have_no_controlled_load_charge
    {ops : FloatOps} {disp : DisplayColumns}
    (plans filtered : list pyval) (idem : bool) (stats : filter_stats)
    (plan : pyval) (postcode : string) (dn row : pyval) :
  filter_plans plans false idem = Ok (filtered, stats) ->
  In plan filtered ->
  process_plan plan postcode dn = Ok row ->
  py_get row "CL Rate (c/kWh)" VNone = Ok (VNum (PFloat float_zero))
  /\ py_get row "CL Supply (c/day)" VNone = Ok (VNum (PFloat float_zero)).
Proof.
  intros Hf Hin Hrow. rewrite filter_plans_unfold in Hf.
  destruct (filter_loop false idem plans [] stats_zero) as [[f c]|e] eqn:E;
    [|discriminate].
  injection Hf as <- _.
  apply filter_loop_kept_gates in E. rewrite Forall_forall in E.
  destruct (E plan Hin) as [_ Hcl]. specialize (Hcl eq_refl).
  apply process_plan_row in Hrow
    as (contract & kvs & Hpc & -> & _ & _ & _ & _ & _ & _ & _ & _ & _
        & (r & Hr & Hlr) & (s & Hs & Hls) & _).
  destruct (no_controlled_load_columns plan contract Hcl Hpc) as [Er Es].
  rewrite Er in Hr. rewrite Es in Hs. injection Hr as <-. injection Hs as <-.
  simpl. now rewrite Hlr, Hls.
Qed.

(** X13 on a batch of a plan with a controlled load and a plain one: the
    first is removed, the row of the second has no controlled load
    charge. *)
Lemma kept_plans_have_no_controlled_load_charge_witness :
  filter_plans [plan_controlled_load; plan_single_rate] false false
  = Ok ([plan_single_rate], FilterStats 2 0 1 1)
  /\ exists row,
       process_plan plan_single_rate "2000" (VStr "Ausgrid") = Ok row
       /\ py_get row "CL Rate (c/kWh)" VNone = Ok (VNum (PFloat float_zero)).
Proof.
  split; [reflexivity|].
  eexists. split; [reflexivity|].
  exact (proj1 (@kept_plans_have_no_controlled_load_charge
                  decimal_ops raw_display
                  [plan_controlled_load; plan_single_rate] [plan_single_rate]
                  false (FilterStats 2 0 1 1) plan_single_rate "2000"
                  (VStr "Ausgrid") _ eq_refl (or_introl eq_refl) eq_refl)).
Defined.

(* ===================================================================== *)
(** ** The sheets of the workbook *)
(* ===================================================================== *)

(** A comprehension that returns is the plain filter by the values of its
    condition. *)
Lemma filterM_filter {A} (p : A -> result bool) (l : list A) :
  forall r,
    filterM p l = Ok r ->
    r = filter (fun a => gate_fires (p a)) l
    /\ Forall (fun a => exists b, p a = Ok b) l.
Proof.
  induction l as [|a l IH]; intros r H; simpl in H.
  - injection H as <-. split; constructor.
  - destruct (p a) as [keep|] eqn:Ea; simpl in H; [|discriminate].
    destruct (filterM p l) as [rest|]; simpl in H; [|discriminate].
    injection H as <-. destruct (IH rest eq_refl) as [-> Hall].
    split; [|constructor; eauto].
    simpl. rewrite Ea. reflexivity.
Qed.

Lemma sorted_app_le {A} (R : A -> A -> Prop) (a b : list A) :
  StronglySorted R (a ++ b) -> Forall (fun x => Forall (R x) b) a.
Proof.
  induction a as [|x a IH]; simpl; intros H; [constructor|].
  inversion H as [|? ? Hs Hx]; subst.
  constructor; [|now apply IH].
  apply Forall_app in Hx. tauto.
Qed.

Lemma Ok_inj {A} (a b : A) : Ok a = Ok b -> a = b.
Proof. congruence. Qed.

Lemma sorted_app_l {A} (R : A -> A -> Prop) (a b : list A) :
  StronglySorted R (a ++ b) -> StronglySorted R a.
Proof.
  induction a as [|x a IH]; simpl; intros H; [constructor|].
  inversion H as [|? ? Hs Hx]; subst.
  constructor; [now apply IH|].
  apply Forall_app in Hx. tauto.
Qed.

(** X14. The sheet "Cheapest Plans", when its rows can be computed: it
    holds at most fifty rows, in ascending order of the estimated cost for
    medium usage; together with the rows left off it is a rearrangement of
    the rows that have such a cost; and no row left off costs less than a
    row of the sheet.  The rows can be computed whenever every row is a
    dict whose cost is [None] or a number. *)
Theorem cheapest_sheet_holds_the_fifty_cheapest (plans_data : list pyval) :
  (forall sheet,
      cheapest_sheet plans_data = Ok sheet ->
      (List.length sheet <= 50)%nat
      /\ StronglySorted
           (keys_in_order
              (fun p => py_getitem p "Est. Cost/Year (Medium Usage)")) sheet
      /\ exists rest,
           Permutation (filter has_cost plans_data) (sheet ++ rest)
           /\ Forall (fun q =>
                Forall (keys_in_order
                          (fun p =>
                             py_getitem p "Est. Cost/Year (Medium Usage)") q)
                       rest) sheet)
  /\ (Forall (fun p => exists c,
                  py_get p "Est. Cost/Year (Medium Usage)" VNone = Ok c
                  /\ (c = VNone \/ numeric c)) plans_data ->
      exists sheet, cheapest_sheet plans_data = Ok sheet).
Proof.
  split.
  - intros sheet H. unfold cheapest_sheet, cheap_plans in H.
    destruct (filterM _ plans_data) as [with_cost|] eqn:Ef; cbn [bind] in H;
      [|discriminate].
    destruct (py_sorted _ false with_cost) as [cheap|] eqn:Es; cbn [bind] in H;
      [|discriminate].
    apply Ok_inj in H. subst sheet.
    apply filterM_filter in Ef as [-> _].
    apply py_sorted_spec in Es as [Hperm Hsorted].
    rewrite <- (firstn_skipn 50 cheap) in Hsorted.
    split; [apply firstn_le_length|]. split.
    + now apply sorted_app_l in Hsorted.
    + exists (skipn 50 cheap). split.
      * now rewrite firstn_skipn.
      * now apply sorted_app_le.
  - intros Hall. unfold cheapest_sheet, cheap_plans.
    assert (Hf : filterM (fun p =>
                   c <- py_get p "Est. Cost/Year (Medium Usage)" VNone;;
                   Ok (is_not_none c)) plans_data
                 = Ok (filter has_cost plans_data)).
    { apply filterM_total. eapply Forall_impl; [|exact Hall].
      intros p (c & Hc & _). unfold has_cost. rewrite Hc. reflexivity. }
    rewrite Hf. cbn [bind].
    destruct (py_sorted_total
                (fun p => py_getitem p "Est. Cost/Year (Medium Usage)")
                false (filter has_cost plans_data)) as [s Hs].
    + apply Forall_forall. intros p Hp. apply filter_In in Hp as [Hp Hc].
      rewrite Forall_forall in Hall. destruct (Hall p Hp) as (c & Hget & Hnum).
      unfold has_cost in Hc. rewrite Hget in Hc. simpl in Hc.
      destruct Hnum as [->|Hnum]; [discriminate|].
      exists c. split; [|exact Hnum].
      destruct p as [| | | | |kvs]; try discriminate Hget.
      simpl in Hget |- *. injection Hget as Hget.
      destruct (lookup "Est. Cost/Year (Medium Usage)" kvs) as [v|];
        [now subst | subst; discriminate].
    + rewrite Hs. simpl. eauto.
Qed.

(** X14 on four rows, one of them without a cost: the three others, the
    cheapest first. *)
Lemma cheapest_sheet_holds_the_fifty_cheapest_witness :
  cheapest_sheet example_rows
  = Ok [example_row "B" "TOU" (VNum (PFloat float_zero)) (VNum (PInt 1200));
        example_row "D" "" (VNum (PFloat float_7)) (VNum (PInt 1350));
        example_row "A" "SR" (VNum (PFloat float_7)) (VNum (PInt 1500))]
  /\ exists sheet, cheapest_sheet example_rows = Ok sheet.
Proof.
  split; [reflexivity|].
  apply (proj2 (cheapest_sheet_holds_the_fifty_cheapest example_rows)).
  repeat constructor; eexists; (split; [reflexivity|]);
    first [ now left | right; eexists; reflexivity ].
Defined.

(** X15. The sheet "Best Solar FIT", when its rows can be computed: it is
    a rearrangement of the rows whose highest feed-in rate is above zero,
    a missing rate counting as zero, in descending order of that rate.
    The rows can be computed whenever that column of every row is [None]
    or a number. *)
Theorem solar_sheet_is_sorted_by_descending_rate (plans_data : list pyval) :
  (forall sheet,
      solar_plans plans_data = Ok sheet ->
      Permutation (filter has_fit plans_data) sheet
      /\ StronglySorted (fun a b => keys_in_order solar_fit_key b a) sheet)
  /\ (Forall (fun p => exists v,
                  py_get p "Solar FIT Max (c/kWh)" VNone = Ok v
                  /\ (v = VNone \/ numeric v)) plans_data ->
      exists sheet, solar_plans plans_data = Ok sheet).
Proof.
  split.
  - intros sheet H. unfold solar_plans in H.
    destruct (filterM _ plans_data) as [with_fit|] eqn:Ef; simpl in H;
      [|discriminate].
    apply filterM_filter in Ef as [-> _].
    now apply py_sorted_spec in H.
  - intros Hall. unfold solar_plans.
    assert (Hkey : Forall (fun p => exists k,
                       solar_fit_key p = Ok k /\ numeric k) plans_data).
    { eapply Forall_impl; [|exact Hall].
      intros p (v & Hv & Hnum). unfold solar_fit_key. rewrite Hv.
      cbn [bind]. eexists. split; [reflexivity|].
      unfold py_or. destruct Hnum as [->|Hnum]; [now exists (PInt 0)|].
      destruct (truthy v); [exact Hnum | now exists (PInt 0)]. }
    assert (Hf : filterM (fun p => k <- solar_fit_key p;; py_gt0 k)
                   plans_data = Ok (filter has_fit plans_data)).
    { apply filterM_total. eapply Forall_impl; [|exact Hkey].
      intros p (k & Hk & [n Hn]). unfold has_fit. rewrite Hk. cbn [bind].
      unfold py_gt0. rewrite Hn. reflexivity. }
    rewrite Hf. cbn [bind].
    apply py_sorted_total.
    apply Forall_forall. intros p Hp. apply filter_In in Hp as [Hp _].
    rewrite Forall_forall in Hkey. auto.
Qed.

(** X15 on the four example rows: the rate 10.0 first, the two rows at 7.0
    in their original order, the row at 0.0 left out. *)
Lemma solar_sheet_is_sorted_by_descending_rate_witness :
  solar_plans example_rows
  = Ok [example_row "C" "SR" (VNum (PFloat float_10)) VNone;
        example_row "A" "SR" (VNum (PFloat float_7)) (VNum (PInt 1500));
        example_row "D" "" (VNum (PFloat float_7)) (VNum (PInt 1350))]
  /\ exists sheet, solar_plans example_rows = Ok sheet.
Proof.
  split; [reflexivity|].
  apply (proj2 (solar_sheet_is_sorted_by_descending_rate example_rows)).
  repeat constructor; eexists; (split; [reflexivity|]);
    right; eexists; reflexivity.
Defined.

(* --------------------------------------------------------------------- *)
(** *** Which sheets a row goes to *)

Lemma column_get (kvs : list (string * pyval)) (name : string)
    (r : result pyval) (v d : pyval) :
  column kvs name r -> r = Ok v ->
  py_get (VDict kvs) name d = Ok v /\ py_getitem (VDict kvs) name = Ok v.
Proof.
  intros (w & Hw & Hl) Hr. rewrite Hr in Hw. injection Hw as <-.
  simpl. now rewrite Hl.
Qed.

Lemma py_get_eq_str (d : pyval) (k s : string) (d1 d2 v1 v2 : pyval) :
  py_get d k d1 = Ok v1 -> py_get d k d2 = Ok v2 ->
  py_eq_str d1 s = false -> py_eq_str d2 s = false ->
  py_eq_str v1 s = py_eq_str v2 s.
Proof.
  destruct d as [| | | | |kvs]; try discriminate. simpl.
  intros H1 H2 E1 E2. injection H1 as <-. injection H2 as <-.
  destruct (lookup k kvs); congruence.
Qed.

Section SheetFacts.
Context {ops : FloatOps} {disp : DisplayColumns}.

(** The maximum of the usage rates is [None] exactly when there is no
    rate. *)
Lemma usage_rate_max_none (contract : pyval) (rates : list pyfloat)
    (v : pyval) :
  _collect_usage_rates contract = Ok rates ->
  extract_usage_rate_max contract = Ok v ->
  is_not_none v = match rates with [] => false | _ => true end.
Proof.
  unfold extract_usage_rate_max. intros -> H. cbn [bind] in H.
  destruct rates as [|r rs]; [now injection H as <-|].
  rewrite float_vals_map in H.
  destruct (py_max_greatest (PFloat r) (map PFloat rs)) as (m & _ & E & _).
  change (PFloat r :: map PFloat rs) with (map PFloat (r :: rs)) in E.
  rewrite E in H. now injection H as <-.
Qed.

(** X16. Which sheets a row of [process_plan] goes to.  The row is on the
    sheet "Single Rate Plans" exactly when the [pricingModel] of its
    contract is "SR" and on "Time of Use Plans" exactly when it is "TOU",
    never on both; and it is on the sheet "Plan Calculator" exactly when
    the contract has a daily supply charge and at least one usage rate and
    its [pricingModel] is "SR" or "TOU".  None of the three conditions can
    raise on such a row. *)
Theorem pricing_model_decides_the_sheets
    (plan : pyval) (postcode : string) (dn row : pyval) :
  process_plan plan postcode dn = Ok row ->
  exists contract pm supply rates,
    primary_contract plan = Ok contract
    /\ py_get contract "pricingModel" (VStr "") = Ok pm
    /\ extract_supply_charge contract = Ok supply
    /\ _collect_usage_rates contract = Ok rates
    /\ has_pricing_model "SR" row = Ok (py_eq_str pm "SR")
    /\ has_pricing_model "TOU" row = Ok (py_eq_str pm "TOU")
    /\ py_eq_str pm "SR" && py_eq_str pm "TOU" = false
    /\ calc_eligible row
       = Ok (is_not_none supply
             && match rates with [] => false | _ => true end
             && (py_eq_str pm "SR" || py_eq_str pm "TOU")).
Proof.
  intros H.
  apply process_plan_row in H
    as (contract & kvs & Hpc & -> & _ & Hpm & Hsup & _ & Hmax & Hpeak & _).
  destruct Hpm as (pm & Epm & Lpm).
  destruct Hsup as (supply & Esup & Lsup).
  destruct Hmax as (umax & Emax & Lmax).
  destruct Hpeak as (peak & Epeak & Lpeak).
  assert (Hrates : exists rates, _collect_usage_rates contract = Ok rates).
  { unfold extract_usage_rate_max in Emax.
    destruct (_collect_usage_rates contract); [eauto | discriminate]. }
  destruct Hrates as [rates Erates].
  exists contract, pm, supply, rates.
  split; [exact Hpc|]. split; [exact Epm|]. split; [exact Esup|].
  split; [exact Erates|].
  assert (Hsr : has_pricing_model "SR" (VDict kvs) = Ok (py_eq_str pm "SR"))
    by (unfold has_pricing_model; simpl; now rewrite Lpm).
  assert (Htou : has_pricing_model "TOU" (VDict kvs)
                 = Ok (py_eq_str pm "TOU"))
    by (unfold has_pricing_model; simpl; now rewrite Lpm).
  split; [exact Hsr|]. split; [exact Htou|].
  assert (Hexcl : py_eq_str pm "SR" && py_eq_str pm "TOU" = false).
  { destruct pm as [| | |s| |]; try reflexivity. simpl.
    destruct (String.eqb_spec s "SR") as [->|]; reflexivity. }
  split; [exact Hexcl|].
  pose proof (usage_rate_max_none contract rates umax Erates Emax) as Humax.
  assert (Hp : is_not_none peak
               = py_eq_str pm "TOU"
                 && match rates with [] => false | _ => true end).
  { unfold extract_tou_peak_rate in Epeak.
    destruct (py_get contract "pricingModel" VNone) as [pm'|] eqn:Epm';
      cbn [bind] in Epeak; [|discriminate].
    rewrite (py_get_eq_str contract "pricingModel" "TOU" _ _ pm' pm
               Epm' Epm eq_refl eq_refl) in Epeak.
    destruct (py_eq_str pm "TOU"); cbn [negb] in Epeak.
    - fold (extract_usage_rate_max contract) in Epeak.
      now rewrite (usage_rate_max_none contract rates peak Erates Epeak).
    - now injection Epeak as <-. }
  unfold calc_eligible. cbn [py_get bind]. rewrite Lsup, Lmax, Lpeak.
  cbn [bind]. rewrite !Hsr, !Htou. rewrite Humax, Hp.
  destruct (is_not_none supply), rates, (py_eq_str pm "SR"),
    (py_eq_str pm "TOU"); try reflexivity; discriminate Hexcl.
Qed.

End SheetFacts.

(** X16 on a plan whose contract names no pricing model: its usage rate is
    read as a single rate, yet its row is on neither of the two sheets and
    not on the calculator. *)
Lemma pricing_model_decides_the_sheets_witness :
  exists row,
    process_plan plan_unnamed_model "2000" (VStr "Ausgrid") = Ok row
    /\ py_get row "Usage Rate Max (c/kWh)" VNone
       = Ok (VNum (PFloat float_27_5))
    /\ has_pricing_model "SR" row = Ok false
    /\ has_pricing_model "TOU" row = Ok false
    /\ calc_eligible row = Ok false.
Proof.
  destruct (@pricing_model_decides_the_sheets decimal_ops raw_display
              plan_unnamed_model "2000" (VStr "Ausgrid") _ eq_refl)
    as (contract & pm & supply & rates & Hpc & Hpm & Hsup & Hrates
        & Hsr & Htou & _ & Hcalc).
  injection Hpc as <-. injection Hpm as <-. injection Hsup as <-.
  injection Hrates as <-.
  eexists. split; [reflexivity|]. split; [reflexivity|].
  split; [exact Hsr|]. split; [exact Htou|]. exact Hcalc.
Defined.

(* ===================================================================== *)
(** ** The summary sheet *)
(* ===================================================================== *)

Lemma num_eqb_trans (a b c : pynum) :
  num_eqb a b = true -> num_eqb b c = true -> num_eqb a c = true.
Proof.
  unfold num_eqb. intros H1 H2.
  destruct (float_cmp (to_float a) (to_float b)) eqn:E1; try discriminate.
  destruct (float_cmp (to_float b) (to_float c)) eqn:E2; try discriminate.
  assert (G1 : float_cmp (to_float a) (to_float c) <> Lt)
    by (apply (float_cmp_trans _ (to_float b)); congruence).
  assert (G2 : float_cmp (to_float c) (to_float a) <> Lt).
  { apply (float_cmp_trans _ (to_float b)).
    - rewrite (float_cmp_antisym (to_float b) (to_float c)), E2. discriminate.
    - rewrite (float_cmp_antisym (to_float a) (to_float b)), E1. discriminate. }
  rewrite (float_cmp_antisym (to_float a) (to_float c)) in G2.
  destruct (float_cmp (to_float a) (to_float c)); simpl in G2; congruence.
Qed.

Lemma py_eq_trans (a b c : pyval) :
  py_eq a b = true -> py_eq b c = true -> py_eq a c = true.
Proof.
  destruct a as [| x | n | s | |], b as [| y | m | t | |]; simpl;
    try discriminate;
    destruct c as [| z | k | u | |]; simpl; try discriminate;
    try reflexivity; try apply num_eqb_trans.
  intros H1 H2. apply String.eqb_eq in H1, H2. subst. apply String.eqb_refl.
Qed.

Lemma sum_counts_count_up (r : pyval) (counts : list (pyval * Z)) :
  sum_counts (count_up r counts) = sum_counts counts + 1.
Proof.
  induction counts as [|[k n] rest IH]; simpl; [lia|].
  destruct (py_eq r k); simpl; lia.
Qed.

Lemma sum_counts_perm (a b : list (pyval * Z)) :
  Permutation a b -> sum_counts a = sum_counts b.
Proof.
  induction 1 as [|[k n] a b _ IH|[k n] [k' n'] a|a b c _ IH1 _ IH2];
    simpl; lia.
Qed.

Lemma count_up_keys (r : pyval) (counts : list (pyval * Z)) :
  Forall (fun line => In (fst line) (r :: map fst counts))
         (count_up r counts).
Proof.
  induction counts as [|[k n] rest IH]; simpl.
  - repeat constructor.
  - destruct (py_eq r k).
    + constructor; [simpl; auto|].
      apply Forall_forall. intros line Hl. right. right.
      now apply in_map.
    + constructor; [simpl; auto|].
      eapply Forall_impl; [|exact IH].
      intros line [H|H]; [now left | right; now right].
Qed.

Lemma count_up_distinct (r : pyval) (counts : list (pyval * Z)) :
  distinct_keys counts -> distinct_keys (count_up r counts).
Proof.
  induction counts as [|[k n] rest IH]; simpl; [repeat constructor|].
  intros [Hk Hrest]. destruct (py_eq r k) eqn:E; simpl.
  - split; assumption.
  - split; [|now apply IH].
    pose proof (count_up_keys r rest) as Hkeys.
    apply Forall_forall. intros line Hl.
    rewrite Forall_forall in Hkeys, Hk.
    destruct (Hkeys line Hl) as [<-|Hin].
    + now rewrite py_eq_sym.
    + apply in_map_iff in Hin as (line' & E' & Hin). rewrite <- E'. auto.
Qed.

(** The line a new row is counted in: the bumped line of the key equal to
    its own, or a new last line. *)
Lemma count_up_spec (r : pyval) (counts : list (pyval * Z)) :
  distinct_keys counts ->
  count_up r counts
  = map (fun line => (fst line,
                      if py_eq r (fst line) then snd line + 1 else snd line))
        counts
    ++ (if existsb (fun line => py_eq r (fst line)) counts then []
        else [(r, 1)]).
Proof.
  induction counts as [|[k n] rest IH]; simpl; [reflexivity|].
  intros [Hk Hrest]. destruct (py_eq r k) eqn:E; simpl.
  - rewrite app_nil_r. f_equal.
    rewrite <- (map_id rest) at 1. apply map_ext_in.
    intros [k' n'] Hin. simpl.
    rewrite Forall_forall in Hk. specialize (Hk _ Hin). simpl in Hk.
    destruct (py_eq r k') eqn:E'; [|reflexivity].
    rewrite py_eq_sym in E.
    now rewrite (py_eq_trans k r k' E E') in Hk.
  - now rewrite IH.
Qed.

Lemma filter_none {A} (f : A -> bool) (l : list A) :
  (forall x, In x l -> f x = false) -> filter f l = [].
Proof.
  induction l as [|a l IH]; intros H; simpl; [reflexivity|].
  rewrite (H a (or_introl eq_refl)). apply IH. intros x Hx. apply H. now right.
Qed.

Lemma rows_with_app (key : pyval -> result pyval) (k : pyval)
    (a b : list pyval) :
  rows_with key k (a ++ b) = rows_with key k a + rows_with key k b.
Proof. unfold rows_with. rewrite filter_app, length_app. lia. Qed.

Lemma count_by_counted (key : pyval -> result pyval) (plans : list pyval) :
  forall done counts counts',
    counted key done counts ->
    count_by key plans counts = Ok counts' ->
    counted key (done ++ plans) counts'.
Proof.
  induction plans as [|p rest IH]; intros done counts counts' Hc H;
    simpl in H.
  - injection H as <-. now rewrite app_nil_r.
  - destruct (key p) as [r|] eqn:Er; simpl in H; [|discriminate].
    destruct (py_hashable r) eqn:Eh; [|discriminate].
    replace (done ++ p :: rest) with ((done ++ [p]) ++ rest)
      by (now rewrite <- app_assoc).
    apply (IH _ (count_up r counts)); [|exact H].
    destruct Hc as (Hd & Hsum & Hlines & Hrows).
    assert (Hp : forall k, rows_with key k [p]
                           = if py_eq r k then 1 else 0).
    { intros k. unfold rows_with. simpl. rewrite Er.
      destruct (py_eq r k); reflexivity. }
    split; [now apply count_up_distinct|].
    split; [rewrite sum_counts_count_up, length_app, Hsum; simpl; lia|].
    rewrite (count_up_spec r counts Hd).
    split.
    + apply Forall_app. split.
      * apply Forall_map. eapply Forall_impl; [|exact Hlines].
        intros [k n] (Hh & Hn & Hpos). simpl in *.
        split; [exact Hh|]. rewrite rows_with_app, Hp, <- Hn.
        destruct (py_eq r k); lia.
      * destruct (existsb (fun line => py_eq r (fst line)) counts) eqn:Ex;
          constructor; [|constructor]. simpl.
        split; [exact Eh|].
        rewrite rows_with_app, Hp, (py_eq_refl r Eh).
        assert (H0 : rows_with key r done = 0).
        { unfold rows_with.
          rewrite filter_none; [reflexivity|].
          intros q Hq.
          rewrite Forall_forall in Hrows.
          destruct (Hrows q Hq) as (rq & line & Hkq & Hin & Heq).
          rewrite Hkq.
          destruct (py_eq rq r) eqn:E; [|reflexivity].
          rewrite py_eq_sym in E.
          assert (Hx : existsb (fun line => py_eq r (fst line)) counts
                       = true).
          { apply existsb_exists. exists line. split; [exact Hin|].
            now apply (py_eq_trans r rq). }
          congruence. }
        rewrite H0. lia.
    + apply Forall_app. split.
      * eapply Forall_impl; [|exact Hrows].
        intros q (rq & line & Hkq & Hin & Heq).
        exists rq. eexists. split; [exact Hkq|]. split.
        -- apply in_or_app. left. apply in_map. exact Hin.
        -- exact Heq.
      * constructor; [|constructor]. exists r.
        destruct (existsb (fun line => py_eq r (fst line)) counts) eqn:Ex.
        -- apply existsb_exists in Ex as (line & Hin & Heq).
           eexists. split; [exact Er|]. split.
           ++ apply in_or_app. left. apply in_map. exact Hin.
           ++ exact Heq.
        -- exists (r, 1). split; [exact Er|]. split.
           ++ apply in_or_app. right. now left.
           ++ now apply py_eq_refl.
Qed.

Lemma distinct_keys_nodup (counts : list (pyval * Z)) :
  Forall (fun line => py_hashable (fst line) = true) counts ->
  distinct_keys counts ->
  NoDup counts
  /\ (forall a b, In a counts -> In b counts ->
        py_eq (fst a) (fst b) = true -> a = b).
Proof.
  induction 1 as [|[k n] rest Hh _ IH]; simpl.
  - intros _. split; [constructor | intros a b []].
  - intros [Hk Hd]. destruct (IH Hd) as [Hnd Hinj].
    rewrite Forall_forall in Hk. split.
    + constructor; [|exact Hnd]. intros Hin.
      specialize (Hk _ Hin). simpl in Hk, Hh.
      now rewrite py_eq_refl in Hk.
    + intros a b [<-|Ha] [<-|Hb] E; auto.
      * specialize (Hk _ Hb). simpl in *. congruence.
      * specialize (Hk _ Ha). simpl in *. rewrite py_eq_sym in E. congruence.
Qed.

Lemma count_by_accounts (key : pyval -> result pyval)
    (plans_data : list pyval) (counts lines : list (pyval * Z)) :
  count_by key plans_data [] = Ok counts ->
  summary_lines counts = Ok lines ->
  accounts_for key plans_data lines.
Proof.
  intros Hc Hl.
  assert (H0 : counted key [] []).
  { repeat split; constructor. }
  pose proof (count_by_counted key plans_data [] [] counts H0 Hc)
    as (Hd & Hsum & Hlines & Hrows).
  simpl in Hsum, Hlines, Hrows.
  apply (sort_ascending_perm py_lt_item) in Hl.
  destruct (distinct_keys_nodup counts) as [Hnd Hinj].
  { eapply Forall_impl; [|exact Hlines]. now intros line (H & _). }
  { exact Hd. }
  split; [rewrite <- (sum_counts_perm _ _ Hl); exact Hsum|].
  split.
  { apply (Permutation_Forall Hl). eapply Forall_impl; [|exact Hlines].
    intros line (_ & H1 & H2). auto. }
  split.
  { eapply Forall_impl; [|exact Hrows].
    intros p (r & line & H1 & H2 & H3). exists r, line.
    split; [exact H1|]. split; [|exact H3].
    now apply (Permutation_in _ Hl). }
  split; [now apply (Permutation_NoDup Hl)|].
  intros a b Ha Hb. apply Permutation_sym in Hl.
  apply (Permutation_in _ Hl) in Ha, Hb. now apply Hinj.
Qed.

(** With at most one key in the dict, all rows have the same key. *)
Lemma count_by_same_key (key : pyval -> result pyval)
    (plans_data : list pyval) (counts : list (pyval * Z)) :
  count_by key plans_data [] = Ok counts ->
  (List.length counts <= 1)%nat ->
  same_key key plans_data.
Proof.
  intros Hc Hlen.
  assert (H0 : counted key [] []) by (repeat split; constructor).
  pose proof (count_by_counted key plans_data [] [] counts H0 Hc)
    as (_ & _ & _ & Hrows).
  simpl in Hrows. rewrite Forall_forall in Hrows.
  intros p q Hp Hq.
  destruct (Hrows p Hp) as (kp & lp & Ep & Hlp & Hkp).
  destruct (Hrows q Hq) as (kq & lq & Eq & Hlq & Hkq).
  exists kp, kq. split; [exact Ep|]. split; [exact Eq|].
  assert (lp = lq).
  { destruct counts as [|l0 [|l1 rest]]; simpl in *; try lia;
      intuition congruence. }
  subst lq. apply (py_eq_trans kp (fst lp)); [exact Hkp|].
  now rewrite py_eq_sym.
Qed.

Lemma sort_ascending_length {A} (lt : A -> A -> result bool)
    (l l' : list A) :
  sort_ascending lt l = Ok l' -> List.length l' = List.length l.
Proof.
  intros H. apply sort_ascending_perm in H.
  symmetry. now apply Permutation_length.
Qed.

(** X17. The two tables of the summary sheet, when the sheet can be
    written.  The lines of "Plans by Retailer" account for the rows by
    their retailer: the counts add up to the number of rows, every line
    counts the rows of its own key and at least one, every row is counted
    by a line, and no key has two lines.  The table "Plans by Distributor"
    is written only for more than one distributor: when it is written it
    has at least two lines, which account for the rows by their
    distributor ("N/A" for a row without one) in the same way; when it is
    not written, all rows have the same distributor. *)
Theorem summary_tables_account_for_every_row
    (plans_data : list pyval)
    (retailer_lines : list (pyval * Z))
    (distributor_table : option (list (pyval * Z))) :
  summary_tables plans_data = Ok (retailer_lines, distributor_table) ->
  accounts_for (fun p => py_getitem p "Retailer") plans_data retailer_lines
  /\ match distributor_table with
     | Some distributor_lines =>
         accounts_for (fun p => py_get p "Distributor" (VStr "N/A"))
                      plans_data distributor_lines
         /\ (1 < List.length distributor_lines)%nat
     | None =>
         same_key (fun p => py_get p "Distributor" (VStr "N/A")) plans_data
     end.
Proof.
  unfold summary_tables. intros H.
  destruct (retailer_counts plans_data) as [rc|] eqn:Erc; [|discriminate].
  cbn [bind] in H.
  destruct (summary_lines rc) as [rl|] eqn:Erl; [|discriminate].
  cbn [bind] in H.
  destruct (dist_counts plans_data) as [dc|] eqn:Edc; [|discriminate].
  cbn [bind] in H.
  destruct (1 <? Z.of_nat (List.length dc)) eqn:Elen.
  - destruct (summary_lines dc) as [dl|] eqn:Edl; [|discriminate].
    cbn [bind] in H. injection H as <- <-.
    split; [exact (count_by_accounts _ _ _ _ Erc Erl)|].
    split; [exact (count_by_accounts _ _ _ _ Edc Edl)|].
    apply Z.ltb_lt in Elen.
    rewrite (sort_ascending_length _ _ _ Edl). lia.
  - injection H as <- <-.
    split; [exact (count_by_accounts _ _ _ _ Erc Erl)|].
    apply Z.ltb_ge in Elen.
    apply (count_by_same_key _ _ dc Edc). lia.
Qed.

(** X17 on three rows of two retailers and two distributors: AGL with one
    plan before Origin with two, Ausgrid with two plans before Endeavour
    with one; and on three rows of one distributor, where the distributor
    table is not written. *)
Lemma summary_tables_account_for_every_row_witness :
  summary_tables two_distributor_rows
  = Ok ([(VStr "AGL", 1); (VStr "Origin", 2)],
        Some [(VStr "Ausgrid", 2); (VStr "Endeavour", 1)])
  /\ accounts_for (fun p => py_get p "Distributor" (VStr "N/A"))
                  two_distributor_rows
                  [(VStr "Ausgrid", 2); (VStr "Endeavour", 1)]
  /\ summary_tables retailer_rows
     = Ok ([(VStr "AGL", 1); (VStr "Origin", 2)], None).
Proof.
  split; [reflexivity|]. split; [|reflexivity].
  exact (proj1 (proj2 (summary_tables_account_for_every_row
                         two_distributor_rows
                         [(VStr "AGL", 1); (VStr "Origin", 2)]
                         (Some [(VStr "Ausgrid", 2); (VStr "Endeavour", 1)])
                         eq_refl))).
Defined.

(* ===================================================================== *)
(** ** Step 3 of [main] *)
(* ===================================================================== *)

Lemma lookup_set_field_same (k : string) (v : pyval)
    (kvs : list (string * pyval)) :
  lookup k (set_field k v kvs) = Some v.
Proof.
  induction kvs as [|[k' v'] rest IH]; simpl.
  - now rewrite String.eqb_refl.
  - destruct (String.eqb k k') eqn:E; simpl; rewrite E; auto.
Qed.

Lemma lookup_set_field_other (k k' : string) (v : pyval)
    (kvs : list (string * pyval)) :
  k <> k' -> lookup k (set_field k' v kvs) = lookup k kvs.
Proof.
  intros Hne. induction kvs as [|[k0 v0] rest IH]; simpl.
  - apply String.eqb_neq in Hne. now rewrite Hne.
  - destruct (String.eqb k' k0) eqn:E; simpl.
    + apply String.eqb_eq in E. subst k0.
      apply String.eqb_neq in Hne. now rewrite Hne.
    + now rewrite IH.
Qed.

Lemma mapM_Ok_Forall2 {A B} (f : A -> result B) (l : list A) :
  forall bs, mapM f l = Ok bs -> Forall2 (fun a b => f a = Ok b) l bs.
Proof.
  induction l as [|a l IH]; intros bs H; simpl in H.
  - injection H as <-. constructor.
  - destruct (f a) as [b|] eqn:Ea; simpl in H; [|discriminate].
    destruct (mapM f l) as [bs'|]; simpl in H; [|discriminate].
    injection H as <-. constructor; auto.
Qed.

(** The loop of step 3 appends one group of plans for each selected
    distributor. *)
Lemma main_step3_groups (response : string -> option pyval)
    (selected : list distributor) :
  forall st plans names,
    main_step3 response selected st = Ok (plans, names) ->
    names = snd st ++ map dist_name selected
    /\ exists groups,
         plans = fst st ++ List.concat groups
         /\ Forall2 (fetched_group response named_for) selected groups.
Proof.
  induction selected as [|dist rest IH]; intros st plans names H;
    simpl in H.
  - injection H as ->. simpl. rewrite app_nil_r. split; [reflexivity|].
    exists []. split; [simpl; now rewrite app_nil_r | constructor].
  - destruct (response (dist_id dist)) as [data|] eqn:Er.
    + destruct (plans_of_response data) as [raw|] eqn:Eraw; simpl in H;
        [|discriminate].
      destruct (py_len raw); simpl in H; [|discriminate].
      destruct (py_iter raw) as [items|] eqn:Ei; simpl in H; [|discriminate].
      destruct (mapM _ items) as [tagged|] eqn:Em; simpl in H;
        [|discriminate].
      apply IH in H as (Hn & groups & Hp & Hg). simpl in Hn, Hp.
      split; [rewrite Hn, <- app_assoc; reflexivity|].
      exists (tagged :: groups). split.
      * simpl. now rewrite Hp, app_assoc.
      * constructor; [|exact Hg]. unfold fetched_group. rewrite Er.
        exists raw, items. split; [exact Eraw|]. split; [exact Ei|].
        apply mapM_Ok_Forall2 in Em. exact Em.
    + apply IH in H as (Hn & groups & Hp & Hg). simpl in Hn, Hp.
      split; [rewrite Hn, <- app_assoc; reflexivity|].
      exists ([] :: groups). split; [exact Hp|].
      constructor; [|exact Hg]. unfold fetched_group. now rewrite Er.
Qed.

Section TagFacts.
Context {ops : FloatOps} {disp : DisplayColumns}.

(** Naming the distributor in a plan changes neither its gates nor its
    row. *)
Lemma tagged_plan_same_row (plan plan' : pyval) (name : pyval) :
  py_setitem plan "_distributor_name" name = Ok plan' ->
  primary_contract plan' = primary_contract plan
  /\ (forall postcode dn,
         process_plan plan' postcode dn = process_plan plan postcode dn).
Proof.
  destruct plan as [| | | | |kvs]; try discriminate. intros H.
  injection H as <-. split.
  - unfold primary_contract, py_getitem.
    now rewrite lookup_set_field_other by discriminate.
  - intros postcode dn. unfold process_plan, py_getitem, py_get.
    now rewrite !lookup_set_field_other by discriminate.
Qed.

Lemma named_for_carries_name (d : distributor) (plan plan' : pyval) :
  named_for d plan plan' -> carries_name d plan plan'.
Proof.
  intros Hfor. split; [exact Hfor|].
  destruct (tagged_plan_same_row plan plan' _ Hfor) as [Hpc Hrow].
  split.
  { unfold named_for in Hfor.
    destruct plan as [| | | | |kvs]; try discriminate.
    injection Hfor as <-. simpl. now rewrite lookup_set_field_same. }
  split; [exact Hpc|]. split; [exact Hrow|].
  intros postcode row Hr.
  apply process_plan_row in Hr as (c & kvs & _ & -> & H).
  do 11 destruct H as [_ H]. simpl. rewrite H. simpl.
  destruct (String.eqb (dist_name d) ""); reflexivity.
Qed.

(** X18. Step 3 of [main], when it returns.  The distributor names it
    collects are those of all the selected distributors, in order, also of
    the ones whose request failed.  The plans it returns are, in the order
    of the selected distributors, the plans of the response to each
    distributor's own request, in the order of the response, and nothing
    for a distributor whose request failed.  Each of these plans carries
    the name of the distributor it was fetched for: step 4 reads the name
    back from the plan; the plan has the primary contract and the row of
    the plan of the response; and the "Distributor" column of its row is
    that name, or "N/A" when the name is empty. *)
Theorem fetched_plans_carry_their_distributor
    (response : string -> option pyval) (selected : list distributor)
    (plans : list pyval) (names : list string) :
  main_step3 response selected ([], []) = Ok (plans, names) ->
  names = map dist_name selected
  /\ exists groups,
       plans = List.concat groups
       /\ Forall2 (fetched_group response carries_name) selected groups.
Proof.
  intros H. apply main_step3_groups in H as (Hn & groups & Hp & Hg).
  simpl in Hn, Hp. split; [exact Hn|].
  exists groups. split; [exact Hp|].
  eapply Forall2_impl; [|exact Hg].
  intros d group. unfold fetched_group.
  destruct (response (dist_id d)) as [data|]; [|auto].
  intros (raw & items & H1 & H2 & H3). exists raw, items.
  split; [exact H1|]. split; [exact H2|].
  eapply Forall2_impl; [|exact H3].
  intros plan plan'. apply named_for_carries_name.
Qed.

End TagFacts.

(** X18 on two selected distributors, the request failing for the first:
    both names are collected, and the one plan returned is the plan of the
    response for Ausgrid, carrying that name. *)
Lemma fetched_plans_carry_their_distributor_witness :
  exists plan',
    main_step3 response_ausgrid two_selected ([], [])
    = Ok ([plan'], ["Endeavour Energy"; "Ausgrid"])
    /\ @carries_name decimal_ops raw_display
         (Distributor "5" "Ausgrid" (Some 998)) plan_single_rate plan'
    /\ exists row,
         process_plan plan' "2000" (VStr "Ausgrid") = Ok row
         /\ py_get row "Distributor" VNone = Ok (VStr "Ausgrid").
Proof.
  eexists. split; [reflexivity|].
  pose proof (@fetched_plans_carry_their_distributor decimal_ops raw_display
                response_ausgrid two_selected _ _ eq_refl)
    as (_ & groups & Hp & Hg).
  inversion Hg as [|d1 g1 sel1 gs1 Hg1 Hrest]; subst.
  inversion Hrest as [|d2 g2 sel2 gs2 Hg2 Hnil]; subst.
  inversion Hnil; subst.
  unfold fetched_group in Hg1, Hg2. simpl in Hg1, Hg2. subst g1.
  destruct Hg2 as (raw & items & Eraw & Eitems & Hitems).
  injection Eraw as <-. injection Eitems as <-.
  inversion Hitems as [|p p' ps ps' Hc Hnil2]; subst.
  inversion Hnil2; subst.
  simpl in Hp. injection Hp as <-.
  split; [exact Hc|].
  eexists. split; [reflexivity|]. reflexivity.
Defined.

(* ===================================================================== *)
(** ** Steps 3b and 4 of [main] *)
(* ===================================================================== *)

Section PipelineFacts.
Context {ops : FloatOps} {disp : DisplayColumns}.

Lemma main_step4_rows (plans : list pyval) (postcode : string) :
  forall st st',
    main_step4 plans postcode st = Ok st' ->
    all_plans_data st'
    = all_plans_data st ++ flat_map (row_of_plan postcode) plans.
Proof.
  induction plans as [|plan rest IH]; intros st st' H.
  - simpl in H. injection H as <-. simpl. now rewrite app_nil_r.
  - simpl in H. unfold row_of_plan at 1. simpl.
    destruct (py_get plan "_distributor_name" (VStr "N/A")) as [dn|e0];
      simpl in H; [|discriminate].
    destruct (process_plan plan postcode dn) as [row|e].
    + apply IH in H. simpl in H. now rewrite <- app_assoc in H.
    + destruct (py_get plan "planData" (VDict [])) as [pd|e1];
        simpl in H; [|discriminate].
      destruct (py_get pd "planName" (VStr "Unknown")) as [nm|e2];
        simpl in H; [|discriminate].
      apply IH in H. exact H.
Qed.

(** X19. Step 4 of [main], when it returns: the rows are the rows of the
    plans that [process_plan] could process, in the order of the plans,
    each plan processed with the distributor name it carries; and the
    error count is the number of the other plans. *)
Theorem step4_rows_follow_the_plans
    (filtered_plans : list pyval) (postcode : string) (st : step4_state) :
  main_step4 filtered_plans postcode (Step4 [] 0 []) = Ok st ->
  all_plans_data st = flat_map (row_of_plan postcode) filtered_plans
  /\ (List.length (all_plans_data st) + errors st
      = List.length filtered_plans)%nat.
Proof.
  intros H. split.
  - now apply main_step4_rows in H.
  - apply main_step4_counts in H. simpl in H. lia.
Qed.

End PipelineFacts.

(** X19 on a malformed plan between two plans: two rows, in the order of
    the plans, and one error. *)
Lemma step4_rows_follow_the_plans_witness :
  exists row1 row2 st,
    main_step4 [plan_single_rate; plan_without_contract; plan_flat_fit]
               "2000" (Step4 [] 0 []) = Ok st
    /\ row_of_plan "2000" plan_single_rate = [row1]
    /\ row_of_plan "2000" plan_flat_fit = [row2]
    /\ all_plans_data st = [row1; row2]
    /\ errors st = 1%nat.
Proof.
  do 3 eexists. split; [reflexivity|].
  split; [reflexivity|]. split; [reflexivity|]. split.
  - exact (proj1 (@step4_rows_follow_the_plans decimal_ops raw_display
                    [plan_single_rate; plan_without_contract; plan_flat_fit]
                    "2000" _ eq_refl)).
  - reflexivity.
Defined.

(** X20. Step 3b of [main].  Under [--no-filter] every fetched plan goes
    on to step 4 and no gate is evaluated.  Otherwise the demand gate is
    always active: no plan that goes on has a demand charge; the
    controlled load gate is active unless [--controlled-load] was given or
    the user, asked at a terminal, answers Y, and while it is active no
    plan that goes on has a controlled load. *)
Theorem demand_plans_pass_only_unfiltered
    (include_controlled_load isatty : bool) (answer : option string)
    (all_raw_plans : list pyval) :
  (main_step3b true include_controlled_load isatty answer all_raw_plans
   = Some (Ok all_raw_plans))
  /\ (forall filtered_plans,
      main_step3b false include_controlled_load isatty answer all_raw_plans
      = Some (Ok filtered_plans) ->
      Forall (fun p => plan_has_demand_charge p = Ok false) filtered_plans
      /\ (include_controlled_load = false ->
          (isatty = false \/ exists line,
                               answer = Some line
                               /\ answers_yes line = false) ->
          Forall (fun p => plan_has_controlled_load p = Ok false)
                 filtered_plans)).
Proof.
  split; [reflexivity|].
  intros filtered H. unfold main_step3b in H.
  destruct (if negb include_controlled_load && isatty then answer
            else Some "") as [line|] eqn:El; [|discriminate].
  set (icl := if (negb include_controlled_load && isatty) && answers_yes line
              then true else include_controlled_load) in H.
  injection H as H. rewrite filter_plans_unfold in H.
  destruct (filter_loop icl false all_raw_plans [] stats_zero)
    as [[f c]|e] eqn:E; [|discriminate].
  simpl in H. injection H as <-.
  apply filter_loop_kept_gates in E. split.
  - eapply Forall_impl; [|exact E]. intros p [Hd _]. now apply Hd.
  - intros -> Hask.
    assert (Hicl : icl = false).
    { subst icl. simpl in *. destruct isatty; [|reflexivity].
      destruct Hask as [Ht|(l & Hl & Hno)]; [discriminate|].
      simpl in El. rewrite Hl in El. injection El as <-. now rewrite Hno. }
    eapply Forall_impl; [|exact E]. intros p [_ Hc]. now apply Hc.
Qed.

(** X20 on a plan with a demand charge and a plain plan: only under
    [--no-filter] does the first go on. *)
Lemma demand_plans_pass_only_unfiltered_witness :
  main_step3b true false false None [plan_demand; plan_plain]
  = Some (Ok [plan_demand; plan_plain])
  /\ main_step3b false false true (Some " y ") [plan_demand; plan_plain]
     = Some (Ok [plan_plain])
  /\ plan_has_demand_charge plan_plain = Ok false.
Proof.
  destruct (demand_plans_pass_only_unfiltered false true (Some " y ")
              [plan_demand; plan_plain]) as [_ H].
  split; [reflexivity|]. split; [reflexivity|].
  destruct (H [plan_plain] eq_refl) as [Hd _].
  inversion Hd; subst. assumption.
Defined.

(* ===================================================================== *)
(** ** Tiered feed-in tariffs: the rates and the description agree *)
(* ===================================================================== *)

Lemma tiered_fits_entries (fits : list pyval) (es : list raw_tier) :
  tiered_fits fits es -> fit_tier_entries fits es.
Proof.
  induction 1 as [| fit ty fits es Hty HG _ IH
                  | fit ty srs es1 fits es Hty HG _ Hs He _ IH].
  - constructor.
  - now apply (tiers_government fit ty).
  - now apply (tiers_retailer fit ty srs).
Qed.

Lemma tiered_fits_rates (fits : list pyval) (es : list raw_tier) :
  tiered_fits fits es ->
  exists per_fit,
    mapM solar_fit_entry_rates fits = Ok per_fit
    /\ List.concat per_fit = tier_prices es.
Proof.
  induction 1 as [| fit ty fits es Hty HG _ (pf & Hm & Hc)
                  | fit ty srs es1 fits es Hty HG Hr Hs He _ (pf & Hm & Hc)].
  - exists []. split; reflexivity.
  - exists ([] :: pf). cbn [mapM]. unfold solar_fit_entry_rates at 1.
    rewrite Hty. cbn [bind]. rewrite HG, Hm. auto.
  - exists (tier_prices es1 :: pf). cbn [mapM].
    unfold solar_fit_entry_rates at 1.
    rewrite Hty. cbn [bind]. rewrite HG, Hr. cbn [bind]. rewrite Hs.
    cbn [bind py_iter].
    rewrite (mapM_Forall2 _ srs (tier_prices es1)).
    + cbn [bind]. rewrite Hm. cbn [bind]. split; [reflexivity|].
      cbn [List.concat]. rewrite Hc. unfold tier_prices. now rewrite map_app.
    + clear -He. induction He as [|sr e srs es [Hp _] _ IH]; simpl;
        constructor; auto.
Qed.

Lemma filter_positive_prices (es : list raw_tier) :
  filterM py_gt0 (tier_prices es) = Ok (tier_prices (formatted_tiers es)).
Proof.
  induction es as [|e es IH]; [reflexivity|].
  simpl. rewrite IH. simpl. destruct (num_pos (fst e)); reflexivity.
Qed.

Lemma str_digits_head (d : digit) (ds : list digit) (rest : string) :
  exists c r, str_digits (d :: ds) ^^ rest = String c r /\ is_digit c = true.
Proof.
  simpl. exists (digit_char d). eexists. split; [reflexivity|].
  destruct d; reflexivity.
Qed.

(** The text of a number above zero starts with a digit. *)
Lemma num_str_head (n : pynum) :
  num_pos n = true ->
  exists c r, num_str n = String c r /\ is_digit c = true.
Proof.
  destruct n as [z|f]; simpl; intros H.
  - apply Z.ltb_lt in H. unfold int_str.
    destruct (Z.ltb_spec z 0) as [|_]; [lia|].
    pose proof (digits_of_Z_pos_nonempty z H) as Hne.
    destruct (digits_of_Z z) as [|d ds]; [congruence|].
    rewrite <- (append_nil_r (str_digits (d :: ds))).
    apply (str_digits_head d ds "").
  - unfold float_pos, float_is_zero in H.
    apply andb_true_iff in H as [Hneg Hz]. apply negb_true_iff in Hneg.
    unfold float_repr. rewrite Hneg.
    destruct (fdigits f) as [|d rest]; [discriminate|].
    destruct ((-4 <? fpt f) && (fpt f <=? 16)).
    + destruct (Z.leb_spec (fpt f) 0) as [|Hp].
      * exists "0"%char. eexists. split; reflexivity.
      * destruct (fpt f <? Z.of_nat (List.length (d :: rest))).
        -- destruct (Z.to_nat (fpt f)) as [|k] eqn:Ek; [lia|].
           cbn [firstn]. apply (str_digits_head d (firstn k rest)).
        -- cbn [app]. apply (str_digits_head d (rest ++ _)).
    + apply (str_digits_head d []).
Qed.

Lemma details_text_sentinel (es : list raw_tier) :
  details_text (map render (map clause_of (formatted_tiers es))) = NO_FIT
  <-> formatted_tiers es = [].
Proof.
  split; [|now intros ->].
  destruct (formatted_tiers es) as [|e l] eqn:E; [reflexivity|].
  intros H. exfalso.
  assert (He : num_pos (fst e) = true).
  { assert (Hin : In e (formatted_tiers es)) by (rewrite E; now left).
    unfold formatted_tiers in Hin. now apply filter_In in Hin. }
  destruct (num_str_head (fst e) He) as (c & r & Hs & Hc).
  assert (Hhead : exists r', details_text
                               (map render (map clause_of (e :: l)))
                             = String c r').
  { unfold details_text. cbn [map].
    assert (Hr : exists r0, render (clause_of e) = String c r0).
    { unfold clause_of. destruct (num_pos (snd e)); simpl; rewrite Hs;
        simpl; eauto. }
    destruct Hr as [r0 Hr]. rewrite Hr.
    destruct (map render (map clause_of l)); simpl; eauto. }
  destruct Hhead as [r' Hhead]. rewrite Hhead in H.
  unfold NO_FIT in H. injection H as -> _. discriminate Hc.
Qed.

(** X21. A contract whose retailer feed-in entries carry tiers and no
    flat rate: the rates collected for the solar minimum and maximum are
    the unit prices of the very tiers the description lists, in the same
    order; so the description is "No solar feed-in tariff" exactly when no
    rate is collected, and then the minimum and the maximum are 0.0. *)
Theorem tiered_rates_agree_with_description
    {ops : FloatOps} (contract : pyval) (fits : list pyval)
    (es : list raw_tier) :
  py_get contract "solarFit" (VList []) = Ok (VList fits) ->
  tiered_fits fits es ->
  _collect_solar_fit_rates contract = Ok (tier_prices (formatted_tiers es))
  /\ extract_solar_fit_details contract
     = Ok (details_text (map render (map clause_of (formatted_tiers es))))
  /\ (details_text (map render (map clause_of (formatted_tiers es))) = NO_FIT
      <-> tier_prices (formatted_tiers es) = [])
  /\ (tier_prices (formatted_tiers es) = [] ->
      extract_solar_fit_min contract = Ok (VNum (PFloat float_zero))
      /\ extract_solar_fit_max contract = Ok (VNum (PFloat float_zero))).
Proof.
  intros Hs Ht.
  assert (Hc : _collect_solar_fit_rates contract
               = Ok (tier_prices (formatted_tiers es))).
  { rewrite (collect_solar_fit_rates_list _ _ Hs).
    destruct (tiered_fits_rates fits es Ht) as (pf & Hm & Hcat).
    rewrite Hm. cbn [bind]. rewrite Hcat. apply filter_positive_prices. }
  split; [exact Hc|]. split; [|split].
  - rewrite (extract_solar_fit_details_list _ _ Hs).
    destruct (fit_details_entries fits es (tiered_fits_entries _ _ Ht))
      as (pf & Hm & Hcat).
    rewrite Hm. cbn [bind]. now rewrite Hcat.
  - rewrite details_text_sentinel. unfold tier_prices.
    destruct (formatted_tiers es); simpl; split; congruence.
  - intros He. unfold extract_solar_fit_min, extract_solar_fit_max.
    rewrite Hc, He. split; reflexivity.
Qed.

(** X21 on the contract with the tiers 3.0 and 10 for the first 8.0 kWh:
    the two prices are collected, in the order of the description. *)
Lemma tiered_rates_agree_with_description_witness :
  _collect_solar_fit_rates contract_two_tiers
  = Ok [VNum (PFloat float_3); VNum (PInt 10)]
  /\ extract_solar_fit_details contract_two_tiers
     = Ok "3.0c/kWh; 10c/kWh (first 8.0kWh/day)".
Proof.
  destruct (@tiered_rates_agree_with_description decimal_ops
              contract_two_tiers _
              [(PFloat float_3, PInt 0); (PInt 10, PFloat float_8)] eq_refl)
    as (Hr & Hd & _).
  - eapply tiered_government; try reflexivity.
    apply (tiered_retailer
             (VDict [("type", VStr "R");
                     ("singleTariffRates", VList [
                        VDict [("unitPrice", VNum (PFloat float_3))];
                        VDict [("unitPrice", VNum (PInt 10));
                               ("volume", VNum (PFloat float_8))]])])
             (VStr "R")
             [VDict [("unitPrice", VNum (PFloat float_3))];
              VDict [("unitPrice", VNum (PInt 10));
                     ("volume", VNum (PFloat float_8))]]
             [(PFloat float_3, PInt 0); (PInt 10, PFloat float_8)] [] []);
      try reflexivity.
    + repeat constructor.
    + constructor.
  - split; [exact Hr | exact Hd].
Defined.

(* ===================================================================== *)
(** ** The calculator sheet: the values of a row *)
(* ===================================================================== *)

Section CalcValueFacts.
Variable text_eq : string -> string -> bool.
Variable inp : calc_inputs.
Variable row : calc_col -> content.
Variable fuel : nat.

Let value := calc_value (S fuel) text_eq inp row.

Lemma calc_value_add (a b : calc_formula) :
  value (KAdd a b) = lift2 Qplus (value a) (value b).
Proof. reflexivity. Qed.

Lemma calc_value_sub (a b : calc_formula) :
  value (KSub a b) = lift2 Qminus (value a) (value b).
Proof. reflexivity. Qed.

Lemma calc_value_mul (a b : calc_formula) :
  value (KMul a b) = lift2 Qmult (value a) (value b).
Proof. reflexivity. Qed.

Lemma calc_value_min (a b : calc_formula) :
  value (KMin a b) = lift2 Qmin (value a) (value b).
Proof. reflexivity. Qed.

Lemma calc_value_max (a b : calc_formula) :
  value (KMax a b) = lift2 Qmax (value a) (value b).
Proof. reflexivity. Qed.

Lemma calc_value_if_b6 (name : string) (a b : calc_formula) :
  value (KIfB6 name a b)
  = if text_eq (input_B6 inp) name then value a else value b.
Proof. reflexivity. Qed.

Lemma calc_value_own_static (c : calc_col) (n : pynum) :
  row c = Static (VNum n) -> value (KRef (Own c)) = Some (num_to_Q n).
Proof. intros H. unfold value. simpl. now rewrite H. Qed.

Lemma calc_value_own_computed (c : calc_col) (g : calc_formula) :
  row c = Computed g ->
  value (KRef (Own c)) = calc_value fuel text_eq inp row g.
Proof. intros H. unfold value. simpl. now rewrite H. Qed.

(** The nested [IF]s select a share. *)
Lemma share_formula_value (pct : pyfloat * pyfloat -> pyfloat) :
  value (share_formula pct) = Some (share text_eq (input_B6 inp) pct).
Proof.
  unfold share_formula, share.
  induction USAGE_PROFILES as [|profile rest IH]; [reflexivity|].
  cbn [fold_right]. rewrite calc_value_if_b6, IH.
  now destruct (text_eq (input_B6 inp) (fst profile)).
Qed.

(** Column [Q] has the value of the solar credit. *)
Lemma calc_of_formula_value (solar : solar_cells) (f : formula) :
  row ColumnI = Static (VNum (cell_I solar)) ->
  row ColumnJ = Static (VNum (cell_J solar)) ->
  value (calc_of_formula f)
  = Some (eval_formula (fun c => match c with
                                 | B5 => input_B5 inp
                                 | ColI => num_to_Q (cell_I solar)
                                 | ColJ => num_to_Q (cell_J solar)
                                 end) f).
Proof.
  intros HI HJ. induction f as [c|n|a IHa b IHb|a IHa b IHb|a IHa b IHb
                               |a IHa b IHb|a IHa b IHb];
    cbn [calc_of_formula eval_formula].
  - destruct c; [reflexivity | |].
    + now apply calc_value_own_static.
    + now apply calc_value_own_static.
  - reflexivity.
  - now rewrite calc_value_min, IHa, IHb.
  - now rewrite calc_value_max, IHa, IHb.
  - now rewrite calc_value_mul, IHa, IHb.
  - now rewrite calc_value_add, IHa, IHb.
  - now rewrite calc_value_sub, IHa, IHb.
Qed.

End CalcValueFacts.

(** The two shares of a profile add up to the whole. *)
Lemma share_sum (text_eq : string -> string -> bool) (name : string) :
  (share text_eq name fst + share text_eq name snd == 1)%Q.
Proof.
  unfold share, USAGE_PROFILES. cbn [fold_right fst snd].
  repeat match goal with
         | |- context [text_eq name ?s] => destruct (text_eq name s)
         end; reflexivity.
Qed.

Lemma share_nonneg (text_eq : string -> string -> bool) (name : string)
    (pct : pyfloat * pyfloat -> pyfloat) :
  (pct = fst \/ pct = snd) -> (0 <= share text_eq name pct)%Q.
Proof.
  intros [-> | ->]; unfold share, USAGE_PROFILES; cbn [fold_right fst snd];
    repeat match goal with
           | |- context [text_eq name ?s] => destruct (text_eq name s)
           end; discriminate.
Qed.

Lemma get_or_0_number (kvs : list (string * pyval)) (name : string)
    (v : pyval) :
  lookup name kvs = Some v -> number_or_none v ->
  exists n, get_or_0 (VDict kvs) name = Ok (VNum n).
Proof.
  intros Hl Hv. unfold get_or_0. simpl. rewrite Hl. unfold py_or.
  destruct Hv as [->|[n ->]]; simpl; [eauto|].
  destruct (num_is_zero n); simpl; eauto.
Qed.

Section CalcRowFacts.
Context {ops : FloatOps} {disp : DisplayColumns}.

Lemma supply_charge_number (contract v : pyval) :
  extract_supply_charge contract = Ok v -> number_or_none v.
Proof.
  unfold extract_supply_charge. intros H.
  destruct (py_get contract "tariffPeriod" (VList [])) as [tps|];
    simpl in H; [|discriminate].
  destruct (truthy tps); [|injection H as <-; now left].
  destruct (py_index0 tps) as [tp0|]; simpl in H; [|discriminate].
  destruct (py_get tp0 "dailySupplyCharge" VNone) as [charge|];
    simpl in H; [|discriminate].
  destruct charge; try (injection H as <-; now left);
    (destruct (gst_inclusive _) as [r|]; simpl in H; [|discriminate];
     injection H as <-; right; eauto).
Qed.

Lemma usage_rate_max_number (contract v : pyval) :
  extract_usage_rate_max contract = Ok v -> number_or_none v.
Proof.
  unfold extract_usage_rate_max. intros H.
  destruct (_collect_usage_rates contract) as [rates|]; simpl in H;
    [|discriminate].
  destruct rates as [|r rs]; [injection H as <-; now left|].
  rewrite float_vals_map in H.
  destruct (py_max_greatest (PFloat r) (map PFloat rs)) as (m & _ & E & _).
  change (PFloat r :: map PFloat rs) with (map PFloat (r :: rs)) in E.
  rewrite E in H. injection H as <-. right. eauto.
Qed.

Lemma usage_rate_min_number (contract v : pyval) :
  extract_usage_rate_min contract = Ok v -> number_or_none v.
Proof.
  unfold extract_usage_rate_min. intros H.
  destruct (_collect_usage_rates contract) as [rates|]; simpl in H;
    [|discriminate].
  destruct rates as [|r rs]; [injection H as <-; now left|].
  rewrite float_vals_map in H.
  destruct (py_min_least (PFloat r) (map PFloat rs)) as (m & _ & E & _).
  change (PFloat r :: map PFloat rs) with (map PFloat (r :: rs)) in E.
  rewrite E in H. injection H as <-. right. eauto.
Qed.

Lemma tou_rates_number (contract v : pyval) :
  extract_tou_peak_rate contract = Ok v
  \/ extract_tou_offpeak_rate contract = Ok v ->
  number_or_none v.
Proof.
  unfold extract_tou_peak_rate, extract_tou_offpeak_rate. intros [H|H];
    (destruct (py_get contract "pricingModel" VNone) as [pm|]; simpl in H;
     [|discriminate];
     destruct (py_eq_str pm "TOU"); simpl in H;
     [|injection H as <-; now left]).
  - now apply (usage_rate_max_number contract).
  - now apply (usage_rate_min_number contract).
Qed.

Lemma controlled_load_number (contract v : pyval) :
  extract_controlled_load_rate contract = Ok v
  \/ extract_controlled_load_supply contract = Ok v ->
  number_or_none v.
Proof.
  unfold extract_controlled_load_rate, extract_controlled_load_supply.
  intros [H|H];
    (destruct (py_get contract "controlledLoad" (VList [])) as [cl|];
     simpl in H; [|discriminate];
     destruct (truthy cl); simpl in H; [|injection H as <-; right; eauto];
     destruct (py_index0 cl) as [cl0|]; simpl in H; [|discriminate];
     destruct (py_get cl0 "singleRate" (VDict [])) as [sr|]; simpl in H;
     [|discriminate]).
  - destruct (py_get sr "rates" (VList [])) as [rl|]; simpl in H;
      [|discriminate].
    destruct (truthy rl); [|injection H as <-; right; eauto].
    destruct (py_index0 rl) as [r0|]; simpl in H; [|discriminate].
    destruct (py_get r0 "unitPrice" (VNum (PInt 0))) as [p|]; simpl in H;
      [|discriminate].
    destruct (gst_inclusive p) as [r|]; simpl in H; [|discriminate].
    injection H as <-. right. eauto.
  - destruct (py_get sr "dailySupplyCharge" (VNum (PInt 0))) as [dc|];
      simpl in H; [|discriminate].
    destruct (truthy dc); [|injection H as <-; right; eauto].
    destruct (gst_inclusive dc) as [r|]; simpl in H; [|discriminate].
    injection H as <-. right. eauto.
Qed.

(** The calculator row of a row of [process_plan]: every cell read from
    the row is a number. *)
Lemma calculator_row_numbers (plan : pyval) (postcode : string)
    (dn row : pyval) (cells : calc_col -> content) :
  process_plan plan postcode dn = Ok row ->
  calculator_row row = Ok cells ->
  exists is_tou e u pk op l m solar,
    calculator_solar_cells row = Ok solar
    /\ cells = row_cells is_tou (VNum e) (VNum u) (VNum pk) (VNum op)
                         (VNum l) (VNum m) solar.
Proof.
  intros Hrow Hcalc.
  apply process_plan_row in Hrow
    as (contract & kvs & _ & -> & _ & _ & (vs & Es & Ls) & _ & (vu & Eu & Lu)
        & (vp & Ep & Lp) & (vo & Eo & Lo) & _ & _ & (vl & El & Ll)
        & (vm & Em & Lm) & _).
  destruct (get_or_0_number kvs _ vs Ls (supply_charge_number _ _ Es))
    as [e He].
  destruct (get_or_0_number kvs _ vu Lu (usage_rate_max_number _ _ Eu))
    as [u Hu].
  destruct (get_or_0_number kvs _ vp Lp
              (tou_rates_number _ _ (or_introl Ep))) as [pk Hpk].
  destruct (get_or_0_number kvs _ vo Lo
              (tou_rates_number _ _ (or_intror Eo))) as [op Hop].
  destruct (get_or_0_number kvs _ vl Ll
              (controlled_load_number _ _ (or_introl El))) as [l Hl].
  destruct (get_or_0_number kvs _ vm Lm
              (controlled_load_number _ _ (or_intror Em))) as [m Hm].
  unfold calculator_row in Hcalc. cbn [py_get bind] in Hcalc.
  rewrite He, Hu, Hpk, Hop, Hl, Hm in Hcalc. cbn [bind] in Hcalc.
  destruct (calculator_solar_cells (VDict kvs)) as [solar|] eqn:Esolar;
    cbn [bind] in Hcalc; [|discriminate].
  injection Hcalc as <-. do 8 eexists. split; reflexivity.
Qed.

End CalcRowFacts.

(** The values of the columns of a row whose cells are numbers. *)
Lemma row_cells_values (text_eq : string -> string -> bool)
    (inp : calc_inputs) (is_tou : bool) (e u pk op l m : pynum)
    (solar : solar_cells) :
  let cells := row_cells is_tou (VNum e) (VNum u) (VNum pk) (VNum op)
                         (VNum l) (VNum m) solar in
  let n := if is_tou then share text_eq (input_B6 inp) fst
           else num_to_Q (PFloat float_1) in
  let o := if is_tou then share text_eq (input_B6 inp) snd
           else num_to_Q (PFloat float_zero) in
  let p := if is_tou
           then (input_B4 inp * (n * num_to_Q pk + o * num_to_Q op))%Q
           else (input_B4 inp * num_to_Q u)%Q in
  let q := solar_credit solar (input_B5 inp) in
  let r := if text_eq (input_B7 inp) "Yes"
           then (input_B8 inp * num_to_Q l + num_to_Q m)%Q
           else num_to_Q (PInt 0) in
  column_value text_eq inp cells ColumnN = Some n
  /\ column_value text_eq inp cells ColumnO = Some o
  /\ column_value text_eq inp cells ColumnP = Some p
  /\ column_value text_eq inp cells ColumnQ = Some q
  /\ column_value text_eq inp cells ColumnR = Some r
  /\ column_value text_eq inp cells ColumnS
     = Some (num_to_Q e + p - q + r)%Q.
Proof.
  intros cells n o p q r.
  assert (HN : forall k, calc_value (S (S k)) text_eq inp cells
                           (KRef (Own ColumnN)) = Some n).
  { intros k. subst n cells. destruct is_tou.
    - rewrite (calc_value_own_computed _ _ _ _ ColumnN peak_formula_inner)
        by reflexivity.
      apply share_formula_value.
    - reflexivity. }
  assert (HO : forall k, calc_value (S (S k)) text_eq inp cells
                           (KRef (Own ColumnO)) = Some o).
  { intros k. subst o cells. destruct is_tou.
    - rewrite (calc_value_own_computed _ _ _ _ ColumnO offpeak_formula_inner)
        by reflexivity.
      apply share_formula_value.
    - reflexivity. }
  assert (HP : forall k, calc_value (S (S (S k))) text_eq inp cells
                           (KRef (Own ColumnP)) = Some p).
  { intros k. subst p. destruct is_tou.
    - rewrite (calc_value_own_computed _ _ _ _ ColumnP
                 (KMul (KRef InputB4)
                    (KAdd (KMul (KRef (Own ColumnN)) (KRef (Own ColumnG)))
                          (KMul (KRef (Own ColumnO)) (KRef (Own ColumnH))))))
        by reflexivity.
      rewrite calc_value_mul, calc_value_add, !calc_value_mul.
      rewrite (HN k), (HO k).
      rewrite (calc_value_own_static _ _ _ _ ColumnG pk) by reflexivity.
      rewrite (calc_value_own_static _ _ _ _ ColumnH op) by reflexivity.
      reflexivity.
    - reflexivity. }
  assert (HQ : forall k, calc_value (S (S k)) text_eq inp cells
                           (KRef (Own ColumnQ)) = Some q).
  { intros k.
    rewrite (calc_value_own_computed _ _ _ _ ColumnQ
               (calc_of_formula (cell_Q solar))) by reflexivity.
    now rewrite (calc_of_formula_value _ _ _ _ solar). }
  assert (HR : forall k, calc_value (S (S k)) text_eq inp cells
                           (KRef (Own ColumnR)) = Some r).
  { intros k. subst r. cbn. destruct (text_eq (input_B7 inp) "Yes");
      reflexivity. }
  split; [apply (HN 3%nat)|]. split; [apply (HO 3%nat)|].
  split; [apply (HP 2%nat)|]. split; [apply (HQ 3%nat)|].
  split; [apply (HR 3%nat)|].
  unfold column_value.
  rewrite (calc_value_own_computed _ _ _ _ ColumnS
             (KAdd (KSub (KAdd (KRef (Own ColumnE)) (KRef (Own ColumnP)))
                         (KRef (Own ColumnQ)))
                   (KRef (Own ColumnR)))) by reflexivity.
  rewrite calc_value_add, calc_value_sub, calc_value_add.
  rewrite (calc_value_own_static _ _ _ _ ColumnE e) by reflexivity.
  rewrite (HP 1%nat), (HQ 2%nat), (HR 2%nat). reflexivity.
Qed.

(** X22. The calculator row of a row of [process_plan], for any inputs
    and whatever way the spreadsheet compares texts.  The peak share and
    the off-peak share have values that add up to 1.  Usage cost, solar
    credit, controlled load cost and net cost a day have values, the net
    cost being supply charge plus usage cost minus solar credit plus
    controlled load cost, and the controlled load cost is zero unless
    [B7] reads "Yes".  And a larger solar export never gives a larger net
    cost a day. *)
Theorem net_cost_never_rises_with_export
    {ops : FloatOps} {disp : DisplayColumns}
    (plan : pyval) (postcode : string) (dn row : pyval)
    (cells : calc_col -> content)
    (text_eq : string -> string -> bool) (inp : calc_inputs) :
  process_plan plan postcode dn = Ok row ->
  calculator_row row = Ok cells ->
  (exists n o,
      column_value text_eq inp cells ColumnN = Some n
      /\ column_value text_eq inp cells ColumnO = Some o
      /\ (n + o == 1)%Q)
  /\ (exists e p q r,
      column_value text_eq inp cells ColumnE = Some e
      /\ column_value text_eq inp cells ColumnP = Some p
      /\ column_value text_eq inp cells ColumnQ = Some q
      /\ column_value text_eq inp cells ColumnR = Some r
      /\ column_value text_eq inp cells ColumnS = Some (e + p - q + r)%Q
      /\ (text_eq (input_B7 inp) "Yes" = false -> (r == 0)%Q))
  /\ (forall export : Q,
      (0 <= input_B5 inp)%Q -> (input_B5 inp <= export)%Q ->
      exists s s',
        column_value text_eq inp cells ColumnS = Some s
        /\ column_value text_eq (with_export inp export) cells ColumnS
           = Some s'
        /\ (s' <= s)%Q).
Proof.
  intros Hrow Hcalc.
  destruct (calculator_row_numbers plan postcode dn row cells Hrow Hcalc)
    as (is_tou & e & u & pk & op & l & m & solar & Hsolar & ->).
  destruct (row_cells_values text_eq inp is_tou e u pk op l m solar)
    as (HN & HO & HP & HQ & HR & HS).
  split; [|split].
  - do 2 eexists. split; [exact HN|]. split; [exact HO|].
    destruct is_tou; [apply share_sum | reflexivity].
  - do 4 eexists. split; [reflexivity|]. split; [exact HP|].
    split; [exact HQ|]. split; [exact HR|]. split; [exact HS|].
    intros ->. reflexivity.
  - intros export H0 Hle.
    destruct (row_cells_values text_eq (with_export inp export)
                is_tou e u pk op l m solar) as (_ & _ & _ & _ & _ & HS').
    do 2 eexists. split; [exact HS|]. split; [exact HS'|].
    cbn [with_export input_B4 input_B5 input_B6 input_B7 input_B8].
    destruct (solar_credit_monotone row solar Hsolar) as [_ Hmono].
    destruct (Hmono (input_B5 inp) export H0 Hle) as [_ Hq].
    unfold Qminus.
    apply Qplus_le_compat; [|apply Qle_refl].
    apply Qplus_le_compat; [apply Qle_refl|].
    now apply Qopp_le_compat.
Qed.

(** X22 on the time-of-use plan with a two-tier feed-in tariff, 20 kWh of
    usage a day under the profile "Heavy Peak": the net cost a day at an
    export of 12 kWh is not above the one at 10 kWh. *)
Lemma net_cost_never_rises_with_export_witness :
  exists row cells s s',
    process_plan plan_time_of_use "2000" (VStr "Ausgrid") = Ok row
    /\ calculator_row row = Ok cells
    /\ column_value String.eqb (CalcInputs 20 10 "Heavy Peak" "No" 8)
                    cells ColumnS = Some s
    /\ column_value String.eqb (CalcInputs 20 12 "Heavy Peak" "No" 8)
                    cells ColumnS = Some s'
    /\ (s' <= s)%Q.
Proof.
  destruct (@net_cost_never_rises_with_export decimal_ops raw_display
              plan_time_of_use "2000" (VStr "Ausgrid") _ _ String.eqb
              (CalcInputs 20 10 "Heavy Peak" "No" 8) eq_refl eq_refl)
    as (_ & _ & H).
  destruct (H 12%Q) as (s & s' & Hs & Hs' & Hle);
    [unfold Qle; simpl; lia | unfold Qle; simpl; lia |].
  do 2 eexists. exists s, s'.
  split; [reflexivity|]. split; [reflexivity|].
  split; [exact Hs|]. split; [exact Hs' | exact Hle].
Defined.
